(** * Weed Tracker: the statistics engine, the validators and the
      import/export pipeline, embedded in Rocq.

    The tracker exists in two versions in the repository: the extended
    application (validators, rolling windows, import with backups) and the
    first version, [script.js].  The extended one is modelled in the sections
    below; the parts of [script.js] that differ are in [Module Legacy].

    Modelling conventions.
    - In-memory data is JSON data: whatever the tracker holds came out of
      [JSON.parse] or was built from form fields.  A property read yields
      [option value], [None] standing for [undefined].
    - A Number is an IEEE 754 double, kept as the rational it equals.  The
      infinities (what [JSON.parse] reads from a literal such as [1e999])
      are [infinity], which is 2^1024, and its opposite; every rational
      beyond the largest double is treated as the infinity of its sign.
      [NaN] is [None] where a computation can produce it.  Sums, differences,
      products and quotients are rounded to the nearest double, ties to
      even ([roundDouble]).  The zero has no sign.
    - A [Date] is its time value, [option Z] in milliseconds since the epoch,
      [None] for an invalid date.
    - Local time is UTC plus a constant offset (no daylight-saving switch).
    - Built-ins whose result is left to the engine ([Date.parse],
      number-to-string, locale formatting) are fields of [Runtime].
    - A text that the tracker writes to [localStorage] is represented by the
      value it was made from.  [JSON.stringify] writes [null] for an
      infinite number, so that value is what [JSON.parse] reads back when
      its numbers are finite ([jsonSafe], [stringify_safe]); what is said
      about reading back a saved value is said for such values.  The
      exported file is modelled with [stringify].
    - [localStorage] operations succeed (quota and privacy-mode failures are
      not modelled), and the DOM is reduced to the values written to it. *)

From Stdlib Require Import ZArith QArith Qround Qminmax Qabs.
From Stdlib Require Import List String Ascii Bool Lia.
From Stdlib Require Import Permutation Sorted.
Import ListNotations.

Local Open Scope string_scope.
Local Open Scope Z_scope.

(** ** JSON data and the JavaScript operations on it *)

#[local] Set Warnings "-register-all".

(** A record lists each of its keys once, in the order of the object's own
    properties. *)
Inductive value : Type :=
| VNull
| VBool (b : bool)
| VNum (q : Q)
| VStr (s : string)
| VArr (items : list value)
| VObj (fields : list (string * value)).

Inductive jstype : Type :=
| TUndefined | TObject | TBoolean | TNumber | TString.

Definition jstype_eqb (a b : jstype) : bool :=
  match a, b with
  | TUndefined, TUndefined | TObject, TObject | TBoolean, TBoolean
  | TNumber, TNumber | TString, TString => true
  | _, _ => false
  end.

(** [typeof v]; [null], arrays and objects are all "object". *)
Definition typeof (v : option value) : jstype :=
  match v with
  | None => TUndefined
  | Some VNull => TObject
  | Some (VBool _) => TBoolean
  | Some (VNum _) => TNumber
  | Some (VStr _) => TString
  | Some (VArr _) => TObject
  | Some (VObj _) => TObject
  end.

(** ToBoolean. *)
Definition truthy (v : option value) : bool :=
  match v with
  | None => false
  | Some VNull => false
  | Some (VBool b) => b
  | Some (VNum q) => negb (Qeq_bool q 0)
  | Some (VStr s) => negb (String.eqb s "")
  | Some (VArr _) => true
  | Some (VObj _) => true
  end.

Fixpoint lookup (k : string) (fields : list (string * value)) : option value :=
  match fields with
  | [] => None
  | (k', v) :: rest => if String.eqb k k' then Some v else lookup k rest
  end.

(** [o.k] for the property names the tracker reads.  None of them is defined
    on a primitive, on an array that came out of [JSON.parse], or on
    [Object.prototype]; [Array.prototype.entries] is a function, which every
    test the tracker applies to it ([Array.isArray]) treats like [undefined].
    Reading a property of [null] or [undefined] throws in JavaScript; the
    tracker only does so behind a truthiness test or on validated data. *)
Definition getProp (o : option value) (k : string) : option value :=
  match o with
  | Some (VObj fields) => lookup k fields
  | _ => None
  end.

Definition isArray (v : option value) : bool :=
  match v with
  | Some (VArr _) => true
  | _ => false
  end.

(** [v === s] for a string literal [s]. *)
Definition strictEqStr (v : option value) (s : string) : bool :=
  match v with
  | Some (VStr s') => String.eqb s' s
  | _ => false
  end.

(** [[s1, ..., sn].includes(v)] over string literals. *)
Definition includesStr (l : list string) (v : option value) : bool :=
  existsb (strictEqStr v) l.

(** The engine-defined built-ins. *)
Record Runtime : Type := {
  (** [Date.parse]: the time value, [None] for [NaN]. *)
  parseDate : string -> option Z;
  (** [Number::toString]. *)
  numberToString : Q -> string;
  (** StringToNumber, [None] for [NaN]. *)
  stringToNumber : string -> option Q;
  (** [Date.prototype.toISOString] of a valid time value. *)
  toISOString : Z -> string;
  (** [toLocaleTimeString([], {hour: '2-digit', minute: '2-digit'})]. *)
  toLocaleTimeString : Z -> string;
  (** The text that a template literal prints for the member of
      [Object.prototype] with the given name ([constructor], [toString],
      [__proto__], ...), [None] when there is no member of that name. *)
  inheritedMember : string -> option string;
  (** Local time zone adjustment in milliseconds, local = UTC + offset. *)
  tzOffset : Z
}.

Definition msPerDay : Z := 24 * 60 * 60 * 1000.
Definition maxTime : Z := 8640000000000000.

(** TimeClip. *)
Definition timeClip (t : Z) : option Z :=
  if Z.abs t <=? maxTime then Some t else None.

(** Truncation toward zero (ToIntegerOrInfinity). *)
Definition Qtrunc (q : Q) : Z :=
  if Qle_bool 0 q then Qfloor q else Qceiling q.

(** TimeClip of a number: out of range gives [NaN], otherwise the number is
    truncated to an integer. *)
Definition timeClipQ (q : Q) : option Z :=
  if Qle_bool (Qabs q) (inject_Z maxTime) then Some (Qtrunc q) else None.

Definition bindOpt {A B : Type} (o : option A) (f : A -> option B) : option B :=
  match o with
  | Some a => f a
  | None => None
  end.

Definition isSome {A : Type} (o : option A) : bool :=
  match o with
  | Some _ => true
  | None => false
  end.

(** ** Numbers

    The doubles are the rationals [m * 2^e] with an integer [m] below 2^53
    in magnitude and [e] from -1074 to 971.  An arithmetic operation yields
    the double nearest to the exact result. *)

Definition pow2 (e : Z) : Q :=
  if e <? 0 then 1 # Z.to_pos (2 ^ (- e)) else inject_Z (2 ^ e).

(** [Number.MAX_VALUE], and the representative of [Infinity]. *)
Definition maxDouble : Q := inject_Z ((2 ^ 53 - 1) * 2 ^ 971).
Definition infinity : Q := inject_Z (2 ^ 1024).

(** [Number.isFinite] on a number that is not [NaN]. *)
Definition isFinite (q : Q) : bool := Qle_bool (Qabs q) maxDouble.

(** The binary exponent of a number other than 0: the [e] with
    2^(e-1) <= |q| < 2^e. *)
Definition mag (q : Q) : Z :=
  let e := Z.log2 (Z.abs (Qnum q)) - Z.log2 (Zpos (Qden q)) in
  if Qle_bool (pow2 e) (Qabs q) then e + 1 else e.

(** The integer nearest to [q], the even one when two are as near. *)
Definition roundEven (q : Q) : Z :=
  let below := Qfloor q in
  match ((q - inject_Z below) * 2 ?= 1)%Q with
  | Lt => below
  | Gt => below + 1
  | Eq => if Z.even below then below else below + 1
  end.

Definition signOf (q : Q) : Z := Z.sgn (Qnum q).

Definition infinityOf (sign : Z) : Q :=
  if sign <? 0 then (- infinity)%Q else infinity.

(** Rounding to the nearest double: 53 significant bits, in steps of
    2^-1074 next to 0.  A result beyond [maxDouble] is the infinity of its
    sign. *)
Definition roundDouble (q : Q) : Q :=
  if Qeq_bool q 0 then 0%Q
  else
    let e := Z.max (mag q - 53) (-1074) in
    let nearest := Qred (inject_Z (roundEven (q / pow2 e)) * pow2 e) in
    if isFinite nearest then nearest else infinityOf (signOf q).

(** The four operations on numbers that are not [NaN]; [None] is [NaN]. *)
Definition fadd (x y : Q) : option Q :=
  match isFinite x, isFinite y with
  | true, true => Some (roundDouble (x + y))
  | true, false => Some (infinityOf (signOf y))
  | false, true => Some (infinityOf (signOf x))
  | false, false =>
      if signOf x =? signOf y then Some (infinityOf (signOf x)) else None
  end.

Definition fsub (x y : Q) : option Q := fadd x (- y).

Definition fmul (x y : Q) : option Q :=
  if isFinite x && isFinite y then Some (roundDouble (x * y))
  else if Qeq_bool x 0 || Qeq_bool y 0 then None
  else Some (infinityOf (signOf x * signOf y)).

(** A zero divisor is taken as the positive zero. *)
Definition fdiv (x y : Q) : option Q :=
  match isFinite x, isFinite y with
  | true, true =>
      if Qeq_bool y 0 then
        if Qeq_bool x 0 then None else Some (infinityOf (signOf x))
      else Some (roundDouble (x / y))
  | true, false => Some 0%Q
  | false, true =>
      Some (infinityOf (if Qeq_bool y 0 then signOf x else signOf x * signOf y))
  | false, false => None
  end.

(** [JSON.parse(JSON.stringify(v))]: [JSON.stringify] writes [null] for a
    number that is not finite; every other value is read back as it was
    written. *)
Fixpoint stringify (v : value) : value :=
  match v with
  | VNum q => if isFinite q then VNum q else VNull
  | VArr items => VArr (map stringify items)
  | VObj fields => VObj (map (fun '(key, x) => (key, stringify x)) fields)
  | _ => v
  end.

(** Every number in the value is finite. *)
Fixpoint jsonSafe (v : value) : bool :=
  match v with
  | VNum q => isFinite q
  | VArr items => forallb jsonSafe items
  | VObj fields => forallb (fun '(_, x) => jsonSafe x) fields
  | _ => true
  end.

(** ** Decimal strings *)

Definition pow10 (n : nat) : Z := 10 ^ Z.of_nat n.

Definition digitChar (d : Z) : ascii := ascii_of_nat (48 + Z.to_nat d).

(** The [w] low decimal digits of [n], most significant first. *)
Fixpoint fixedWidth (w : nat) (n : Z) : string :=
  match w with
  | O => ""
  | S w' => String (digitChar (n / pow10 w')) (fixedWidth w' (n mod pow10 w'))
  end.

Fixpoint numDigitsFrom (fuel w : nat) (n : Z) : nat :=
  match fuel with
  | O => w
  | S fuel' => if n <? pow10 w then w else numDigitsFrom fuel' (S w) n
  end.

(** Number of decimal digits of a non-negative integer (1 for 0). *)
Definition numDigits (n : Z) : nat := numDigitsFrom (Z.to_nat (Z.log2 n)) 1 n.

(** ToString of a non-negative integer below 10^21: its decimal digits
    without leading zeros. *)
Definition decimal (n : Z) : string := fixedWidth (numDigits n) n.

Definition Qlt_bool (a b : Q) : bool := negb (Qle_bool b a).

(** [Number.prototype.toFixed]: for a number below 10^21 the nearest
    multiple of 10^-f to its exact value, the larger one on a tie, with the
    sign in front; from 10^21 on the number prints as [ToString] prints it,
    and an infinity prints as "Infinity". *)
Definition toFixedAbs (q : Q) (f : nat) : string :=
  let n := Qfloor (q * inject_Z (pow10 f) + (1 # 2)) in
  (decimal (n / pow10 f) ++
   match f with
   | O => ""
   | S _ => "." ++ fixedWidth f (n mod pow10 f)
   end)%string.

Definition toFixed (rt : Runtime) (q : Q) (f : nat) : string :=
  if negb (isFinite q) then
    (if Qlt_bool q 0 then "-Infinity" else "Infinity")%string
  else
    let digits (x : Q) :=
      if Qle_bool (inject_Z (10 ^ 21)) x then numberToString rt x
      else toFixedAbs x f in
    if Qlt_bool q 0 then ("-" ++ digits (- q)%Q)%string else digits q.

(** [toFixed] on a value that may be [NaN]. *)
Definition toFixedN (rt : Runtime) (x : option Q) (f : nat) : string :=
  match x with
  | Some q => toFixed rt q f
  | None => "NaN"
  end.

(** ** Sorting

    [Array.prototype.sort] is stable.  On a comparator that orders the
    elements consistently (a total preorder, as the timestamp comparator is
    on entries with valid dates and the code-unit order is on strings) its
    result is the unique stable arrangement, computed here by insertion
    (on other comparators the order is left to the engine).
    [after x y] says that the comparator puts [x] after [y]:
    [compareFn(x, y) > 0]. *)

Section Sort.

Context {A : Type} (after : A -> A -> bool).

Fixpoint insertSorted (x : A) (l : list A) : list A :=
  match l with
  | [] => [x]
  | y :: rest => if after x y then y :: insertSorted x rest else x :: y :: rest
  end.

Fixpoint sortBy (l : list A) : list A :=
  match l with
  | [] => []
  | x :: rest => insertSorted x (sortBy rest)
  end.

End Sort.

(** ** localStorage

    A stored text is represented by the JSON document that [JSON.parse]
    reads from it, or is [Garbage] when [JSON.parse] throws on it.  The store is the
    list of its items in the order of [localStorage.key(i)], one item per
    key. *)

Inductive stored : Type :=
| Json (v : value)
| Garbage.

(** The text [JSON.stringify(v)] as a stored item. *)
Definition written (v : value) : stored := Json (stringify v).

Definition Storage : Type := list (string * stored).

Fixpoint getItem (k : string) (ls : Storage) : option stored :=
  match ls with
  | [] => None
  | (k', v) :: rest => if String.eqb k k' then Some v else getItem k rest
  end.

Fixpoint setItem (k : string) (v : stored) (ls : Storage) : Storage :=
  match ls with
  | [] => [(k, v)]
  | (k', v') :: rest =>
      if String.eqb k k' then (k, v) :: rest else (k', v') :: setItem k v rest
  end.

Definition removeItem (k : string) (ls : Storage) : Storage :=
  filter (fun item => negb (String.eqb k (fst item))) ls.

Definition storageKeys (ls : Storage) : list string := map fst ls.

(** What [showMessage] is called with. *)
Inductive Notice : Type :=
| Success (message : string)
| Error (message : string).

(** ToString of an integer (below 10^21 in absolute value). *)
Definition intToString (n : Z) : string :=
  if n <? 0 then "-" ++ decimal (- n) else decimal n.

Section WithRuntime.

Variable rt : Runtime.

Fixpoint joinWith (sep : string) (l : list string) : string :=
  match l with
  | [] => ""
  | [s] => s
  | s :: rest => s ++ sep ++ joinWith sep rest
  end.

(** ToString of JSON data; an array joins its elements with a comma, a
    [null] element printing as the empty string. *)
Fixpoint toStringV (v : value) : string :=
  match v with
  | VNull => "null"
  | VBool true => "true"
  | VBool false => "false"
  | VNum q => numberToString rt q
  | VStr s => s
  | VArr items =>
      joinWith ","
        (map (fun x => match x with VNull => ""%string | _ => toStringV x end) items)
  | VObj _ => "[object Object]"
  end.

(** ToNumber, [None] for [NaN]. *)
Definition toNumber (v : option value) : option Q :=
  match v with
  | None => None
  | Some VNull => Some 0%Q
  | Some (VBool b) => Some (if b then 1%Q else 0%Q)
  | Some (VNum q) => Some q
  | Some (VStr s) => stringToNumber rt s
  | Some (VArr items) => stringToNumber rt (toStringV (VArr items))
  | Some (VObj fields) => stringToNumber rt (toStringV (VObj fields))
  end.

(** [a <= c] and [a < c] against a number; a comparison with [NaN] is
    false. *)
Definition leNum (a : option value) (c : Q) : bool :=
  match toNumber a with
  | Some q => Qle_bool q c
  | None => false
  end.

Definition ltNum (a : option value) (c : Q) : bool :=
  match toNumber a with
  | Some q => negb (Qle_bool c q)
  | None => false
  end.

(** [new Date(v)], as its time value. *)
Definition newDate (v : option value) : option Z :=
  match v with
  | None => None
  | Some VNull => Some 0
  | Some (VBool b) => Some (if b then 1 else 0)
  | Some (VNum q) => timeClipQ q
  | Some (VStr s) => bindOpt (parseDate rt s) timeClip
  | Some (VArr items) => bindOpt (parseDate rt (toStringV (VArr items))) timeClip
  | Some (VObj fields) => bindOpt (parseDate rt (toStringV (VObj fields))) timeClip
  end.

(** [isValidDate]: [date instanceof Date && !isNaN(date)]. *)
Definition isValidDate (dateString : option value) : bool :=
  isSome (newDate dateString).

(** ** Validators *)

(** [validateEntry].  Nothing in the body can throw on JSON data, so the
    [catch] branch (which returns [false]) is never taken and the function is
    total. *)
Definition validateEntry (entry : option value) : bool :=
  if negb (truthy entry) || negb (jstype_eqb (typeof entry) TObject) then false
  else if negb (truthy (getProp entry "id"))
          || negb (jstype_eqb (typeof (getProp entry "id")) TNumber) then false
  else if negb (truthy (getProp entry "amount"))
          || negb (jstype_eqb (typeof (getProp entry "amount")) TNumber)
          || leNum (getProp entry "amount") 0 then false
  else if negb (truthy (getProp entry "method"))
          || negb (jstype_eqb (typeof (getProp entry "method")) TString) then false
  else if truthy (getProp entry "notes")
          && negb (jstype_eqb (typeof (getProp entry "notes")) TString) then false
  else if truthy (getProp entry "mood")
          && negb (jstype_eqb (typeof (getProp entry "mood")) TString) then false
  else if negb (truthy (getProp entry "timestamp"))
          || negb (isValidDate (getProp entry "timestamp")) then false
  else true.

Definition goalTypes : list string :=
  ["reduce"; "maintain"; "quit"; "stash"]%string.

Definition validateGoals (goals : option value) : bool :=
  if negb (truthy goals) || negb (jstype_eqb (typeof goals) TObject) then false
  else if negb (jstype_eqb (typeof (getProp goals "weeklyAmount")) TNumber)
          || ltNum (getProp goals "weeklyAmount") 0 then false
  else if negb (truthy (getProp goals "goalType"))
          || negb (includesStr goalTypes (getProp goals "goalType")) then false
  else if isSome (getProp goals "stashAmount")
          && (negb (jstype_eqb (typeof (getProp goals "stashAmount")) TNumber)
              || ltNum (getProp goals "stashAmount") 0) then false
  else true.

Definition validateSettings (settings : option value) : bool :=
  if negb (truthy settings) || negb (jstype_eqb (typeof settings) TObject) then false
  else if negb (jstype_eqb (typeof (getProp settings "pricePerGram")) TNumber)
          || ltNum (getProp settings "pricePerGram") 0 then false
  else if negb (truthy (getProp settings "currency"))
          || negb (jstype_eqb (typeof (getProp settings "currency")) TString) then false
  else true.

(** ** Number arithmetic with [NaN] *)

Definition liftNum (f : Q -> Q -> option Q) (a b : option Q) : option Q :=
  match a, b with
  | Some x, Some y => f x y
  | _, _ => None
  end.

(** [a * b], [a - b] and [a / b]. *)
Definition mulNum : option Q -> option Q -> option Q := liftNum fmul.
Definition subNum : option Q -> option Q -> option Q := liftNum fsub.
Definition divNum : option Q -> option Q -> option Q := liftNum fdiv.

(** [Math.min(a, b)] and [Math.abs(a)]. *)
Definition minNum : option Q -> option Q -> option Q :=
  liftNum (fun x y => Some (Qmin x y)).

Definition absNum (a : option Q) : option Q :=
  match a with
  | Some x => Some (Qabs x)
  | None => None
  end.

Definition gtZero (a : option Q) : bool :=
  match a with
  | Some x => Qlt_bool 0 x
  | None => false
  end.

(** [sum + v] with a numeric [sum].  When [v] is a string, an array or an
    object JavaScript concatenates strings; the result is then no number and
    is represented like [NaN]. *)
Definition addNum (sum : option Q) (v : option value) : option Q :=
  match v with
  | Some (VStr _) | Some (VArr _) | Some (VObj _) => None
  | _ => liftNum fadd sum (toNumber v)
  end.

(** ** Dates *)

(** Comparison of two dates by their time values; false when either is
    invalid. *)
Definition dateGe (a b : option Z) : bool :=
  match a, b with
  | Some x, Some y => y <=? x
  | _, _ => false
  end.

Definition dateLe (a b : option Z) : bool :=
  match a, b with
  | Some x, Some y => x <=? y
  | _, _ => false
  end.

Definition dateGt (a b : option Z) : bool :=
  match a, b with
  | Some x, Some y => y <? x
  | _, _ => false
  end.

(** [a.getTime() === b.getTime()]. *)
Definition timeEq (a b : option Z) : bool :=
  match a, b with
  | Some x, Some y => x =? y
  | _, _ => false
  end.

(** [d.setHours(0, 0, 0, 0)]: midnight of the local day of [d]. *)
Definition setHours0 (d : option Z) : option Z :=
  bindOpt d (fun t =>
    timeClip ((t + tzOffset rt) / msPerDay * msPerDay - tzOffset rt)).

(** [d.setDate(d.getDate() - 1)]: MakeDay with the day of the month less one
    is the previous day, the time within the day is kept; with the constant
    offset of the conventions that is 24 hours earlier. *)
Definition setDatePrev (d : option Z) : option Z :=
  bindOpt d (fun t => timeClip (t - msPerDay)).

(** [new Date(entry.timestamp)]. *)
Definition entryDate (entry : value) : option Z :=
  newDate (getProp (Some entry) "timestamp").

(** ** Tracker state *)

Record Tracker : Type := {
  entries : list value;
  goals : value;
  settings : value
}.

Definition getDefaultGoals : value :=
  VObj [("weeklyAmount", VNum 0); ("goalType", VStr "reduce");
        ("startDate", VNull); ("stashAmount", VNum 0);
        ("stashStartDate", VNull)]%string.

Definition getDefaultSettings : value :=
  VObj [("pricePerGram", VNum 10); ("currency", VStr "USD")]%string.

Definition getDefaultAlternatives : value :=
  VObj [("triedItems", VArr []); ("lastRefresh", VNull)]%string.

(** [entries.reduce((sum, entry) => sum + entry.amount, 0)]. *)
Definition reduceAmount (l : list value) : option Q :=
  fold_left (fun sum entry => addNum sum (getProp (Some entry) "amount"))
            l (Some 0%Q).

(** ** Statistics *)

Record TodayStats : Type := {
  todayCount : nat;
  todayAmount : string;
  todayCost : string
}.

Definition last24HoursEntries (this : Tracker) (now : Z) : list value :=
  let twentyFourHoursAgo := timeClip (now - 24 * 60 * 60 * 1000) in
  filter (fun entry =>
            let entryTime := entryDate entry in
            dateGe entryTime twentyFourHoursAgo && dateLe entryTime (Some now))
         (entries this).

Definition last24HoursAmount (this : Tracker) (now : Z) : option Q :=
  reduceAmount (last24HoursEntries this now).

Definition last24HoursCost (this : Tracker) (now : Z) : string :=
  toFixedN rt (mulNum (last24HoursAmount this now)
                   (toNumber (getProp (Some (settings this)) "pricePerGram"))) 2.

Definition updateTodayStats (this : Tracker) (now : Z) : TodayStats :=
  {| todayCount := List.length (last24HoursEntries this now);
     todayAmount := toFixedN rt (last24HoursAmount this now) 1 ++ "g";
     todayCost := "$" ++ last24HoursCost this now |}.

Record WeekStats : Type := {
  weekCount : nat;
  weekAmount : string;
  weekAvg : string
}.

Definition weekEntries (this : Tracker) (now : Z) : list value :=
  let sevenDaysAgo := timeClip (now - 7 * 24 * 60 * 60 * 1000) in
  filter (fun entry =>
            let entryDate := entryDate entry in
            dateGe entryDate sevenDaysAgo && dateLe entryDate (Some now))
         (entries this).

Definition updateWeekStats (this : Tracker) (now : Z) : WeekStats :=
  let weekCount := List.length (weekEntries this now) in
  let weekAmount := reduceAmount (weekEntries this now) in
  let weekAvg :=
    if (0 <? weekCount)%nat then divNum weekAmount (Some 7%Q) else Some 0%Q in
  {| weekCount := weekCount;
     weekAmount := toFixedN rt weekAmount 1 ++ "g";
     weekAvg := toFixedN rt weekAvg 1 ++ "g" |}.

(** What the goal card shows: the width of the bar in percent and the text
    under it. *)
Record GoalProgress : Type := {
  progress : option Q;
  goalText : string
}.

Definition updateStashProgress (this : Tracker) (now : Z) : GoalProgress :=
  let stashAmount := getProp (Some (goals this)) "stashAmount" in
  if negb (truthy stashAmount) || leNum stashAmount 0 then
    {| progress := Some 0%Q;
       goalText := "Set a stash goal to track your weed supply" |}
  else
    let stashStartDate :=
      if truthy (getProp (Some (goals this)) "stashStartDate")
      then newDate (getProp (Some (goals this)) "stashStartDate")
      else Some now in
    let entriesSinceStash :=
      filter (fun entry => dateGe (entryDate entry) stashStartDate)
             (entries this) in
    let totalUsed := reduceAmount entriesSinceStash in
    let remainingStash := subNum (toNumber stashAmount) totalUsed in
    let progress :=
      minNum (mulNum (divNum totalUsed (toNumber stashAmount)) (Some 100%Q))
             (Some 100%Q) in
    {| progress := progress;
       goalText :=
         if gtZero remainingStash
         then toFixedN rt remainingStash 1 ++ "g left in stash"
         else "Stash depleted by " ++ toFixedN rt (absNum remainingStash) 1 ++ "g" |}.

Definition updateGoalProgress (this : Tracker) (now : Z) : GoalProgress :=
  if strictEqStr (getProp (Some (goals this)) "goalType") "stash" then
    updateStashProgress this now
  else
    let weeklyAmount := getProp (Some (goals this)) "weeklyAmount" in
    if negb (truthy weeklyAmount) || leNum weeklyAmount 0 then
      {| progress := Some 0%Q;
         goalText := "Set a weekly goal to track progress" |}
    else
      let weekAmount := reduceAmount (weekEntries this now) in
      let progress :=
        minNum (mulNum (divNum weekAmount (toNumber weeklyAmount)) (Some 100%Q))
               (Some 100%Q) in
      let remaining := subNum (toNumber weeklyAmount) weekAmount in
      {| progress := progress;
         goalText :=
           if gtZero remaining
           then toFixedN rt remaining 1 ++ "g remaining this week"
           else "Goal exceeded by " ++ toFixedN rt (absNum remaining) 1 ++ "g" |}.

(** *** Streak *)

Record Streak : Type := {
  streakCount : Z;
  streakType : string
}.

(** The entries whose local day starts at [day]. *)
Definition entriesOn (this : Tracker) (day : option Z) : list value :=
  filter (fun entry => timeEq (setHours0 (entryDate entry)) day) (entries this).

(** The [while (true)] loop of [calculateStreak], with the number of
    iterations it may still take; [None] when they are used up. *)
Fixpoint streakLoop (fuel : nat) (this : Tracker)
         (currentDate : option Z) (streakCount : Z) : option Z :=
  match fuel with
  | O => None
  | S fuel' =>
      let dateEntries := entriesOn this currentDate in
      if (0 <? List.length dateEntries)%nat
      then streakLoop fuel' this (setDatePrev currentDate) (streakCount + 1)
      else Some streakCount
  end.

Definition calculateStreakFuel (fuel : nat) (this : Tracker) (now : Z)
  : option Streak :=
  if (List.length (entries this) =? 0)%nat then
    Some {| streakCount := 0; streakType := "No streak yet" |}
  else
    let today := setHours0 (Some now) in
    let currentDate := today in
    let todayEntries := entriesOn this today in
    let hasEntryToday := (0 <? List.length todayEntries)%nat in
    match streakLoop fuel this currentDate 0 with
    | None => None
    | Some streakCount =>
        if streakCount =? 0 then
          Some {| streakCount := 0; streakType := "No streak yet" |}
        else if hasEntryToday then
          Some {| streakCount := streakCount;
                  streakType := "day streak (including today)" |}
        else
          Some {| streakCount := streakCount;
                  streakType := "day streak (last entry yesterday)" |}
    end.

(** Every pass of the loop that goes on finds an entry on a day of its own,
    so one pass more than there are entries is enough
    ([streakLoop_terminates]). *)
Definition calculateStreak (this : Tracker) (now : Z) : option Streak :=
  calculateStreakFuel (S (List.length (entries this))) this now.

(** *** Time since the last entry *)

Record TimeSince : Type := {
  tsValue : option Z;
  tsUnit : string;
  tsText : string
}.

Definition methodMap : list (string * string) :=
  [("joint", "Joint"); ("bong", "Bong"); ("pipe", "Pipe");
   ("cigarette", "Cigarette"); ("vape", "Vape"); ("edible", "Edible");
   ("other", "Other")].

Fixpoint labelOf (key : string) (labels : list (string * string))
  : option string :=
  match labels with
  | [] => None
  | (k, label) :: rest => if String.eqb key k then Some label else labelOf key rest
  end.

(** [methodMap[method] || method], as the template literal prints it.  The
    property key is the method converted to a string; a key that is not in
    the map finds the member of [Object.prototype] of that name, if there is
    one, and such a member is truthy. *)
Definition getMethodLabel (method : option value) : string :=
  let key :=
    match method with
    | Some v => toStringV v
    | None => "undefined"
    end in
  match labelOf key methodMap with
  | Some label => label
  | None =>
      match inheritedMember rt key with
      | Some member => member
      | None => key
      end
  end.

(** The scan for the latest timestamp: the pair of the most recent entry and
    its date, updated when an entry is strictly later. *)
Definition mostRecent (first : value) (l : list value) : value * option Z :=
  fold_left (fun acc entry =>
               let entryTime := entryDate entry in
               if dateGt entryTime (snd acc) then (entry, entryTime) else acc)
            l (first, entryDate first).

Definition minZ99 (x : option Z) : option Z :=
  match x with
  | Some v => Some (Z.min v 99)
  | None => None
  end.

Definition gtZeroZ (x : option Z) : bool :=
  match x with
  | Some v => 0 <? v
  | None => false
  end.

Definition mapOpt {A B : Type} (f : A -> B) (o : option A) : option B :=
  match o with
  | Some a => Some (f a)
  | None => None
  end.

Definition calculateTimeSinceLastJoint (this : Tracker) (now : Z) : TimeSince :=
  match entries this with
  | [] => {| tsValue := Some 0; tsUnit := "hours"; tsText := "No usage yet" |}
  | first :: _ =>
      let (mostRecentEntry, mostRecentTime) := mostRecent first (entries this) in
      let timeDiff := mapOpt (fun t => now - t) mostRecentTime in
      let minutes := mapOpt (fun d => d / (1000 * 60)) timeDiff in
      let hours := mapOpt (fun d => d / (1000 * 60 * 60)) timeDiff in
      let days := mapOpt (fun d => d / (1000 * 60 * 60 * 24)) timeDiff in
      let months := mapOpt (fun d => Qfloor (inject_Z d / (3044 # 100))) days in
      let years := mapOpt (fun d => Qfloor (inject_Z d / (36525 # 100))) days in
      let timeOfDay :=
        match mostRecentTime with
        | Some t => toLocaleTimeString rt t
        | None => "Invalid Date"
        end in
      let text :=
        "Last usage: "
        ++ match getProp (Some mostRecentEntry) "amount" with
           | Some v => toStringV v
           | None => "undefined"
           end
        ++ "g " ++ getMethodLabel (getProp (Some mostRecentEntry) "method")
        ++ " at " ++ timeOfDay in
      if gtZeroZ years then
        {| tsValue := minZ99 years; tsUnit := "years"; tsText := text |}
      else if gtZeroZ months then
        {| tsValue := minZ99 months; tsUnit := "months"; tsText := text |}
      else if gtZeroZ days then
        {| tsValue := minZ99 days; tsUnit := "days"; tsText := text |}
      else if gtZeroZ hours then
        {| tsValue := minZ99 hours; tsUnit := "hours"; tsText := text |}
      else
        {| tsValue := minZ99 minutes; tsUnit := "minutes"; tsText := text |}
  end.

(** ** Loading and saving *)

Definition entryAfter (a b : value) : bool :=
  (* (a, b) => new Date(b.timestamp) - new Date(a.timestamp), positive *)
  dateGt (entryDate b) (entryDate a).

Definition sortEntries (l : list value) : list value := sortBy entryAfter l.

Definition loadEntries (ls : Storage) : list value :=
  match getItem "weedTrackerEntries" ls with
  | None => []
  | Some Garbage => []
  | Some (Json parsed) =>
      match parsed with
      | VArr items =>
          let validEntries :=
            filter (fun entry => validateEntry (Some entry)) items in
          sortEntries validEntries
      | _ => []
      end
  end.

Definition loadGoals (ls : Storage) : value :=
  match getItem "weedTrackerGoals" ls with
  | None => getDefaultGoals
  | Some Garbage => getDefaultGoals
  | Some (Json parsed) =>
      if validateGoals (Some parsed) then parsed else getDefaultGoals
  end.

Definition loadSettings (ls : Storage) : value :=
  match getItem "weedTrackerSettings" ls with
  | None => getDefaultSettings
  | Some Garbage => getDefaultSettings
  | Some (Json parsed) =>
      if validateSettings (Some parsed) then parsed else getDefaultSettings
  end.

(** The constructor, without the parts of the state that no statistic
    reads (alternatives, charts, dark mode). *)
Definition newTracker (ls : Storage) : Tracker :=
  {| entries := loadEntries ls;
     goals := loadGoals ls;
     settings := loadSettings ls |}.

(** [localStorage.setItem(key, JSON.stringify(value))].  The item stands
    for the value written; for a value whose numbers are finite it is the
    text that was written ([written_safe]). *)
Definition saveEntries (this : Tracker) (ls : Storage) : Storage :=
  setItem "weedTrackerEntries" (Json (VArr (entries this))) ls.

Definition saveGoals (this : Tracker) (ls : Storage) : Storage :=
  setItem "weedTrackerGoals" (Json (goals this)) ls.

Definition saveSettings (this : Tracker) (ls : Storage) : Storage :=
  setItem "weedTrackerSettings" (Json (settings this)) ls.

(** ** Adding and deleting entries *)

(** The fields of the quick-add form as [addEntry] reads them: the amount
    after [parseFloat] ([None] for [NaN]), the notes after [sanitizeInput]. *)
Record FormInput : Type := {
  formAmount : option Q;
  formMethod : string;
  formNotes : string;
  formMood : string;
  formTime : string
}.

Definition methods : list string :=
  ["joint"; "bong"; "pipe"; "cigarette"; "vape"; "edible"; "other"].

Definition moods : list string :=
  ["great"; "good"; "neutral"; "bad"; "terrible"].

Definition addEntry (this : Tracker) (ls : Storage) (form : FormInput) (now : Z)
  : Tracker * Storage * Notice :=
  match formAmount form with
  | None =>
      (this, ls, Error "Please enter a valid amount between 0.1 and 1000 grams.")
  | Some amount =>
      if Qeq_bool amount 0 || Qle_bool amount 0 || Qlt_bool 1000 amount then
        (this, ls, Error "Please enter a valid amount between 0.1 and 1000 grams.")
      else if String.eqb (formMethod form) ""
              || negb (includesStr methods (Some (VStr (formMethod form)))) then
        (this, ls, Error "Please select a valid consumption method.")
      else if String.eqb (formTime form) ""
              || negb (isValidDate (Some (VStr (formTime form)))) then
        (this, ls, Error "Please enter a valid date and time.")
      else if negb (String.eqb (formMood form) "")
              && negb (includesStr moods (Some (VStr (formMood form)))) then
        (this, ls, Error "Please select a valid mood option.")
      else
        let entry :=
          VObj [("id", VNum (inject_Z now));
                ("amount", VNum amount);
                ("method", VStr (formMethod form));
                ("notes", VStr (formNotes form));
                ("mood", VStr (formMood form));
                ("timestamp", VStr (formTime form));
                ("createdAt", VStr (toISOString rt now))] in
        if negb (validateEntry (Some entry)) then
          (this, ls, Error "Invalid entry data. Please check your input.")
        else
          let this' :=
            {| entries := sortEntries (app (entries this) [entry]);
               goals := goals this;
               settings := settings this |} in
          (this', saveEntries this' ls, Success "Entry added successfully!")
  end.

(** [v !== id] for a number [id]. *)
Definition strictNeNum (v : option value) (id : Q) : bool :=
  match v with
  | Some (VNum q) => negb (Qeq_bool q id)
  | _ => true
  end.

Definition deleteEntry (this : Tracker) (ls : Storage) (id : option value)
  : Tracker * Storage * Notice :=
  match id with
  | Some (VNum n) =>
      if Qeq_bool n 0 then (this, ls, Error "Invalid entry ID.")
      else
        let remaining :=
          filter (fun entry => strictNeNum (getProp (Some entry) "id") n)
                 (entries this) in
        let this' :=
          {| entries := remaining;
             goals := goals this;
             settings := settings this |} in
        if (List.length remaining =? List.length (entries this))%nat then
          (this', ls, Error "Entry not found.")
        else
          (this', saveEntries this' ls, Success "Entry deleted successfully!")
  | _ => (this, ls, Error "Invalid entry ID.")
  end.

(** ** Export and import *)

Definition validateExportData (data : option value) : bool :=
  if negb (truthy data) || negb (jstype_eqb (typeof data) TObject) then false
  else if negb (isArray (getProp data "entries")) then false
  else if negb (validateGoals (getProp data "goals")) then false
  else if negb (validateSettings (getProp data "settings")) then false
  else if negb (truthy (getProp data "exportDate"))
          || negb (isValidDate (getProp data "exportDate")) then false
  else true.

(** [exportData]: the document that [JSON.parse] reads from the downloaded
    file [JSON.stringify(data, null, 2)], if a file is written. *)
Definition exportData (this : Tracker) (now : Z) : option value * Notice :=
  let data :=
    VObj [("entries", VArr (entries this));
          ("goals", goals this);
          ("settings", settings this);
          ("exportDate", VStr (toISOString rt now))] in
  if negb (validateExportData (Some data)) then
    (None, Error "Data validation failed. Cannot export.")
  else
    (Some (stringify data), Success "Data exported successfully!").

Definition arrayItems (v : option value) : list value :=
  match v with
  | Some (VArr items) => items
  | _ => []
  end.

Definition validateImportData (data : option value) : bool :=
  if negb (truthy data) || negb (jstype_eqb (typeof data) TObject) then false
  else if negb (isArray (getProp data "entries")) then false
  else if negb (validateGoals (getProp data "goals")) then false
  else if negb (validateSettings (getProp data "settings")) then false
  else forallb (fun entry => validateEntry (Some entry))
               (arrayItems (getProp data "entries")).

Fixpoint indexedFrom (i : Z) (l : list value) : list (string * value) :=
  match l with
  | [] => []
  | x :: rest => (intToString i, x) :: indexedFrom (i + 1) rest
  end.

Fixpoint charsOf (s : string) : list value :=
  match s with
  | EmptyString => []
  | String c rest => VStr (String c EmptyString) :: charsOf rest
  end.

(** [{ ...v }]: the own enumerable properties of [v]. *)
Definition objSpread (v : option value) : value :=
  match v with
  | Some (VObj fields) => VObj fields
  | Some (VArr items) => VObj (indexedFrom 0 items)
  | Some (VStr s) => VObj (indexedFrom 0 (charsOf s))
  | _ => VObj []
  end.

Definition backupPrefix : string := "weedTrackerBackup_".

Definition strAfter (x y : string) : bool := String.ltb y x.

(** [cleanupOldBackups]: the keys with the backup prefix, sorted, reversed,
    and every one from index 5 on removed. *)
Definition backupKeysOf (ls : Storage) : list string :=
  filter (fun key => negb (String.eqb key "") && String.prefix backupPrefix key)
         (storageKeys ls).

Definition cleanupOldBackups (ls : Storage) : Storage :=
  let backupKeys := rev (sortBy strAfter (backupKeysOf ls)) in
  fold_left (fun store key => removeItem key store) (skipn 5 backupKeys) ls.

(** [performImport].  On data that passed [validateImportData] the [entries]
    are an array; a spread of anything else throws after the backup was
    written, and the [catch] reports the failure. *)
Definition performImport (this : Tracker) (ls : Storage)
           (importedData : option value) (now : Z)
  : Tracker * Storage * Notice :=
  let backupData :=
    VObj [("entries", VArr (entries this));
          ("goals", objSpread (Some (goals this)));
          ("settings", objSpread (Some (settings this)));
          ("backupDate", VStr (toISOString rt now))] in
  let backupKey := backupPrefix ++ intToString now in
  let ls1 := setItem backupKey (Json backupData) ls in
  match getProp importedData "entries" with
  | Some (VArr items) =>
      let this' :=
        {| entries := items;
           goals := objSpread (getProp importedData "goals");
           settings := objSpread (getProp importedData "settings") |} in
      let ls2 := saveSettings this' (saveGoals this' (saveEntries this' ls1)) in
      (this', cleanupOldBackups ls2,
       Success ("Successfully imported "
                ++ intToString (Z.of_nat (List.length items)) ++ " entries!"))
  | _ => (this, ls1, Error "Failed to import data. Please try again.")
  end.

(** The import from the moment the picked file (a [.json] file of at most
    10 MB) has been read: parse, validate, ask, commit.  [confirmed] is the
    user's answer in the confirmation dialog; [None] as notice means that
    nothing was shown. *)
Definition importData (this : Tracker) (ls : Storage) (file : stored)
           (confirmed : bool) (now : Z)
  : Tracker * Storage * option Notice :=
  match file with
  | Garbage =>
      (this, ls,
       Some (Error "Failed to parse the file. Please check if it's a valid export file."))
  | Json importedData =>
      if negb (validateImportData (Some importedData)) then
        (this, ls,
         Some (Error "Invalid data format. Please select a valid export file."))
      else if confirmed then
        let '(this', ls', notice) :=
          performImport this ls (Some importedData) now in
        (this', ls', Some notice)
      else (this, ls, None)
  end.

(** [clearData], once confirmed. *)
Definition clearData (this : Tracker) (ls : Storage)
  : Tracker * Storage * Notice :=
  let this' :=
    {| entries := []; goals := getDefaultGoals; settings := settings this |} in
  let ls1 :=
    removeItem "weedTrackerAlternatives"
      (removeItem "weedTrackerGoals" (removeItem "weedTrackerEntries" ls)) in
  (this',
   setItem "weedTrackerAlternatives" (Json getDefaultAlternatives)
           (saveGoals this' (saveEntries this' ls1)),
   Success "All data cleared successfully!").

End WithRuntime.

(** ** The first version of the tracker ([script.js])

    It has no validators and no sorting: entries are stored as the form
    gives them, newest first by insertion, and "today" is the local calendar
    day.  [calculateStreak] is the same text in both versions. *)

Module Legacy.

Section WithRuntime.

Variable rt : Runtime.

(** [d.toDateString()]: the local calendar day, as a day number; an invalid
    date prints as "Invalid Date". *)
Inductive DateString : Type :=
| DayOf (day : Z)
| InvalidDate.

Definition toDateString (d : option Z) : DateString :=
  match d with
  | Some t => DayOf ((t + tzOffset rt) / msPerDay)
  | None => InvalidDate
  end.

Definition dateStringEqb (a b : DateString) : bool :=
  match a, b with
  | DayOf x, DayOf y => x =? y
  | InvalidDate, InvalidDate => true
  | _, _ => false
  end.

Definition todayEntries (this : Tracker) (now : Z) : list value :=
  let today := toDateString (Some now) in
  filter (fun entry =>
            let entryDate := toDateString (entryDate rt entry) in
            dateStringEqb entryDate today)
         (entries this).

Definition updateTodayStats (this : Tracker) (now : Z) : TodayStats :=
  let todayAmount := reduceAmount rt (todayEntries this now) in
  let todayCost :=
    toFixedN rt (mulNum todayAmount
                (toNumber rt (getProp (Some (settings this)) "pricePerGram"))) 2 in
  {| todayCount := List.length (todayEntries this now);
     todayAmount := toFixedN rt todayAmount 1 ++ "g";
     todayCost := "$" ++ todayCost |}.

(** [addEntry]: the new record goes to the front ([unshift]); [amount] is
    the parsed amount field. *)
Definition addEntry (this : Tracker) (ls : Storage)
           (amount : Q) (method notes mood timestamp : string) (now : Z)
  : Tracker * Storage * Notice :=
  let entry :=
    VObj [("id", VNum (inject_Z now));
          ("amount", VNum amount);
          ("method", VStr method);
          ("notes", VStr notes);
          ("mood", VStr mood);
          ("timestamp", VStr timestamp);
          ("createdAt", VStr (toISOString rt now))] in
  let this' :=
    {| entries := entry :: entries this;
       goals := goals this;
       settings := settings this |} in
  (this', saveEntries this' ls, Success "Entry added successfully!").

End WithRuntime.

End Legacy.

(** ** A sample engine

    Used to run the model on concrete data: ISO-8601 date strings in the
    forms the tracker produces ([toISOString], the [datetime-local] field and
    plain dates), decimal digit strings as numbers, local time at a fixed
    offset. *)

Module Sample.

Definition digitOf (c : ascii) : option Z :=
  let n := Z.of_nat (nat_of_ascii c) in
  if (48 <=? n) && (n <=? 57) then Some (n - 48) else None.

Fixpoint digitsValue (s : string) (acc : Z) : option Z :=
  match s with
  | EmptyString => Some acc
  | String c rest =>
      match digitOf c with
      | Some d => digitsValue rest (acc * 10 + d)
      | None => None
      end
  end.

Definition numField (s : string) (start len : nat) : option Z :=
  let f := substring start len s in
  if (String.length f =? len)%nat then digitsValue f 0 else None.

Definition charAt (s : string) (i : nat) (c : string) : bool :=
  String.eqb (substring i 1 s) c.

Definition isLeap (y : Z) : bool :=
  ((y mod 4 =? 0) && negb (y mod 100 =? 0)) || (y mod 400 =? 0).

Definition daysInMonth (y m : Z) : Z :=
  if m =? 2 then (if isLeap y then 29 else 28)
  else if (m =? 4) || (m =? 6) || (m =? 9) || (m =? 11) then 30
  else 31.

(** Days between 1970-01-01 and the given civil date. *)
Definition daysFromCivil (y m d : Z) : Z :=
  let y' := if m <=? 2 then y - 1 else y in
  let era := y' / 400 in
  let yoe := y' - era * 400 in
  let doy := (153 * (if 2 <? m then m - 3 else m + 9) + 2) / 5 + d - 1 in
  let doe := yoe * 365 + yoe / 4 - yoe / 100 + doy in
  era * 146097 + doe - 719468.

Definition civilTime (y m d hh mm ss ms : Z) : option Z :=
  if (1 <=? m) && (m <=? 12) && (1 <=? d) && (d <=? daysInMonth y m)
     && (hh <=? 23) && (mm <=? 59) && (ss <=? 59)
  then Some (daysFromCivil y m d * msPerDay
             + hh * 3600000 + mm * 60000 + ss * 1000 + ms)
  else None.

Definition parseDateFields (s : string) : option (Z * Z * Z) :=
  if charAt s 4 "-" && charAt s 7 "-" then
    match numField s 0 4, numField s 5 2, numField s 8 2 with
    | Some y, Some m, Some d => Some (y, m, d)
    | _, _, _ => None
    end
  else None.

Definition isoParse (tz : Z) (s : string) : option Z :=
  match parseDateFields s with
  | None => None
  | Some (y, m, d) =>
      match String.length s with
      | 10%nat => civilTime y m d 0 0 0 0
      | 16%nat =>
          if charAt s 10 "T" && charAt s 13 ":" then
            match numField s 11 2, numField s 14 2 with
            | Some hh, Some mm =>
                mapOpt (fun t => t - tz) (civilTime y m d hh mm 0 0)
            | _, _ => None
            end
          else None
      | 24%nat =>
          if charAt s 10 "T" && charAt s 13 ":" && charAt s 16 ":"
             && charAt s 19 "." && charAt s 23 "Z" then
            match numField s 11 2, numField s 14 2, numField s 17 2,
                  numField s 20 3 with
            | Some hh, Some mm, Some ss, Some ms => civilTime y m d hh mm ss ms
            | _, _, _, _ => None
            end
          else None
      | _ => None
      end
  end.

(** The civil date of a day number. *)
Definition civilFromDays (z : Z) : Z * Z * Z :=
  let z := z + 719468 in
  let era := z / 146097 in
  let doe := z - era * 146097 in
  let yoe := (doe - doe / 1460 + doe / 36524 - doe / 146096) / 365 in
  let doy := doe - (365 * yoe + yoe / 4 - yoe / 100) in
  let mp := (5 * doy + 2) / 153 in
  let d := doy - (153 * mp + 2) / 5 + 1 in
  let m := if mp <? 10 then mp + 3 else mp - 9 in
  ((yoe + era * 400) + (if m <=? 2 then 1 else 0), m, d).

(** [toISOString] for the years 0 to 9999. *)
Definition isoString (t : Z) : string :=
  let '(y, m, d) := civilFromDays (t / msPerDay) in
  let r := t mod msPerDay in
  fixedWidth 4 y ++ "-" ++ fixedWidth 2 m ++ "-" ++ fixedWidth 2 d ++ "T"
  ++ fixedWidth 2 (r / 3600000) ++ ":" ++ fixedWidth 2 (r / 60000 mod 60) ++ ":"
  ++ fixedWidth 2 (r / 1000 mod 60) ++ "." ++ fixedWidth 3 (r mod 1000) ++ "Z".

Definition localTime (tz t : Z) : string :=
  let r := (t + tz) mod msPerDay in
  fixedWidth 2 (r / 3600000) ++ ":" ++ fixedWidth 2 (r / 60000 mod 60).

(** The least number of decimals (up to [k + fuel]) that write [q]
    exactly. *)
Fixpoint decimalsFrom (fuel k : nat) (q : Q) : nat :=
  match fuel with
  | O => k
  | S fuel' =>
      let scaled := (q * inject_Z (pow10 k))%Q in
      if Qeq_bool scaled (inject_Z (Qfloor scaled)) then k
      else decimalsFrom fuel' (S k) q
  end.

(** Number to string for numbers written with a few decimals: the shortest
    decimal form, without exponent. *)
Definition printNumber (q : Q) : string :=
  if Qlt_bool q 0 then "-" ++ toFixedAbs (- q) (decimalsFrom 17 0 (- q)%Q)
  else toFixedAbs q (decimalsFrom 17 0 q).

Definition readNumber (s : string) : option Q :=
  mapOpt inject_Z (digitsValue s 0).

(** The functions that every object inherits, and how they print. *)
Definition objectFunctions : list string :=
  ["hasOwnProperty"; "isPrototypeOf"; "propertyIsEnumerable";
   "toLocaleString"; "toString"; "valueOf"; "__defineGetter__";
   "__defineSetter__"; "__lookupGetter__"; "__lookupSetter__"].

Definition memberText (name : string) : option string :=
  if String.eqb name "__proto__" then Some "[object Object]"
  else if String.eqb name "constructor" then
    Some "function Object() { [native code] }"
  else if existsb (String.eqb name) objectFunctions then
    Some ("function " ++ name ++ "() { [native code] }")
  else None.

Definition runtime (tz : Z) : Runtime :=
  {| parseDate := isoParse tz;
     numberToString := printNumber;
     stringToNumber := readNumber;
     toISOString := isoString;
     toLocaleTimeString := localTime tz;
     inheritedMember := memberText;
     tzOffset := tz |}.

End Sample.

(** ** Notions used to state the properties *)

Section Notions.

Variable rt : Runtime.

(** The local calendar day of a time value, as a day number. *)
Definition localDay (t : Z) : Z := (t + tzOffset rt) / msPerDay.

(** The entry has a valid timestamp on the calendar day of [now]. *)
Definition onDayOf (now : Z) (entry : value) : Prop :=
  exists t, entryDate rt entry = Some t /\ localDay t = localDay now.

(** The same, decided. *)
Definition sameLocalDay (now : Z) (entry : value) : bool :=
  match entryDate rt entry with
  | Some t => localDay t =? localDay now
  | None => false
  end.

(** The timestamp lies in the closed interval from [now] less 24 hours to
    [now]. *)
Definition inLast24h (now : Z) (entry : value) : bool :=
  match entryDate rt entry with
  | Some t => (now - msPerDay <=? t) && (t <=? now)
  | None => false
  end.

(** The amount of an entry that holds a number there. *)
Definition amountOf (entry : value) : Q :=
  match getProp (Some entry) "amount" with
  | Some (VNum q) => q
  | _ => 0%Q
  end.

(** The sum of the amounts as the doubles add up, from 0 on in the order
    of the list. *)
Definition doubleSum (l : list value) : option Q :=
  fold_left (fun sum entry => bindOpt sum (fun s => fadd s (amountOf entry)))
            l (Some 0%Q).

(** Descending by timestamp: every entry is at least as late as all the
    entries after it. *)
Definition sortedDesc (l : list value) : Prop :=
  StronglySorted
    (fun a b => dateGe (entryDate rt a) (entryDate rt b) = true) l.

(** The entry has the time value [t]. *)
Definition hasTime (t : Z) (entry : value) : bool :=
  timeEq (entryDate rt entry) (Some t).

(** The start of the stash period: the date of [stashStartDate], or [now]
    when that is [null], absent or otherwise falsy. *)
Definition stashStart (this : Tracker) (now : Z) : option Z :=
  match getProp (Some (goals this)) "stashStartDate" with
  | Some v => if truthy (Some v) then newDate rt (Some v) else Some now
  | None => Some now
  end.

(** The timestamp is valid and not before [start]; no entry is when
    [start] is an invalid date. *)
Definition usedSince (start : option Z) (entry : value) : bool :=
  match entryDate rt entry, start with
  | Some t, Some t0 => t0 <=? t
  | _, _ => false
  end.

(** Whole units in an elapsed time of [diff] milliseconds; a month is 30.44
    days and a year 365.25 days. *)
Definition wholeMinutes (diff : Z) : Z := diff / 60000.
Definition wholeHours (diff : Z) : Z := diff / 3600000.
Definition wholeDays (diff : Z) : Z := diff / 86400000.
Definition wholeMonths (diff : Z) : Z := wholeDays diff * 100 / 3044.
Definition wholeYears (diff : Z) : Z := wholeDays diff * 100 / 36525.

(** The units from the coarsest to the finest, with their whole counts. *)
Definition unitCounts (diff : Z) : list (string * Z) :=
  [("years", wholeYears diff); ("months", wholeMonths diff);
   ("days", wholeDays diff); ("hours", wholeHours diff);
   ("minutes", wholeMinutes diff)].

(** The coarsest unit whose whole count satisfies [p], the minutes when
    there is none. *)
Definition coarsestUnit (p : Z -> bool) (diff : Z) : string * Z :=
  match find (fun u => p (snd u)) (unitCounts diff) with
  | Some u => u
  | None => ("minutes", wholeMinutes diff)
  end.

(** The key under which the import at time [t] stores its backup. *)
Definition backupKey (t : Z) : string := backupPrefix ++ intToString t.

(** The epoch-millisecond values with 13 digits (September 2001 to
    November 2286). *)
Definition thirteenDigits (t : Z) : Prop := 10 ^ 12 <= t < 10 ^ 13.

(** The entries the backward walk of the streak can still meet from [day]
    on. *)
Definition pending (this : Tracker) (day : option Z) : nat :=
  List.length
    (filter (fun entry => dateLe (setHours0 rt (entryDate rt entry)) day)
            (entries this)).

(** The timestamp of the entry is a valid date. *)
Definition hasDate (entry : value) : Prop :=
  exists t, entryDate rt entry = Some t.

(** The test [cleanupOldBackups] applies to a key. *)
Definition isBackupKey (key : string) : bool :=
  negb (String.eqb key "") && String.prefix backupPrefix key.

(** The five latest times after one more, [t], has come. *)
Definition keep5 (q : list Z) (t : Z) : list Z :=
  if (List.length q <? 5)%nat then app q [t] else app (tl q) [t].

(** The last [n] elements of a list. *)
Definition lastn {A : Type} (n : nat) (l : list A) : list A :=
  skipn (List.length l - n) l.

(** A series of committed imports: each job is a document and the time of
    its import. *)
Definition importAll (state : Tracker * Storage) (jobs : list (value * Z))
  : Tracker * Storage :=
  fold_left (fun st job =>
               fst (importData rt (fst st) (snd st) (Json (fst job)) true
                               (snd job)))
            jobs state.

(** The user's actions on the entries and the state they lead to from a
    store. *)
Inductive Action : Type :=
| Add (form : FormInput) (now : Z)
| Delete (id : option value)
| Import (file : stored) (confirmed : bool) (now : Z)
| Clear.

Definition step (state : Tracker * Storage) (a : Action) : Tracker * Storage :=
  match a with
  | Add form now => fst (addEntry rt (fst state) (snd state) form now)
  | Delete id => fst (deleteEntry (fst state) (snd state) id)
  | Import file confirmed now =>
      fst (importData rt (fst state) (snd state) file confirmed now)
  | Clear => fst (clearData (fst state) (snd state))
  end.

Definition run (ls : Storage) (actions : list Action) : Tracker * Storage :=
  fold_left step actions (newTracker rt ls, ls).

Definition isImport (a : Action) : bool :=
  match a with
  | Import _ _ _ => true
  | _ => false
  end.

(** The value is a record (not [null], a primitive or an array). *)
Definition isRecord (v : value) : bool :=
  match v with
  | VObj _ => true
  | _ => false
  end.

(** Every entry passes the entry validator. *)
Definition allValid (l : list value) : Prop :=
  Forall (fun entry => validateEntry rt (Some entry) = true) l.

End Notions.

(** ** Sample data *)

Module Data.

(** The engine used in the examples: UTC. *)
Definition utc : Runtime := Sample.runtime 0.

(** A record with only the four required fields. *)
Definition minimalEntry (id amount : Q) (method timestamp : string) : value :=
  VObj [("id", VNum id); ("amount", VNum amount);
        ("method", VStr method); ("timestamp", VStr timestamp)].

Definition entryAt (id : Q) (amount : Q) (timestamp : string) : value :=
  minimalEntry id amount "joint" timestamp.

Definition trackerOf (l : list value) : Tracker :=
  {| entries := l; goals := getDefaultGoals; settings := getDefaultSettings |}.

Definition formAt (amount : Q) (timestamp : string) : FormInput :=
  {| formAmount := Some amount; formMethod := "joint"; formNotes := "";
     formMood := ""; formTime := timestamp |}.

(** A stash of [amount] grams started on 2024-03-01. *)
Definition stashGoal (amount : Q) : value :=
  VObj [("goalType", VStr "stash");
        ("startDate", VStr "2024-03-01T00:00:00.000Z");
        ("stashAmount", VNum amount);
        ("stashStartDate", VStr "2024-03-01T00:00:00.000Z");
        ("weeklyAmount", VNum 0)].

Definition stashTracker (amount : Q) (l : list value) : Tracker :=
  {| entries := l; goals := stashGoal amount; settings := getDefaultSettings |}.

Definition noTracker : Tracker := trackerOf [].

(** An export document with one entry. *)
Definition document : value :=
  VObj [("entries", VArr [entryAt 1 1 "2024-03-09T22:00"]);
        ("goals", getDefaultGoals);
        ("settings", getDefaultSettings);
        ("exportDate", VStr "2024-03-10T08:30:00.000Z")].

(** Seven imports a minute apart on 2024-03-10 from 09:30 on. *)
Definition sevenImports : list (value * Z) :=
  map (fun i => (document, 1710063000000 + i * 60000)) [0; 1; 2; 3; 4; 5; 6].

(** The same with the clock of the first import at 2000-01-01. *)
Definition sevenImportsClockReset : list (value * Z) :=
  (document, 946684800000) :: tl sevenImports.

(** 2024-03-10 at 01:00, 08:30 and 09:30 UTC. *)
Definition mar10_0100 : Z := 1710032400000.
Definition mar10_0830 : Z := 1710059400000.
Definition mar10_0930 : Z := 1710063000000.

End Data.

(** ** Further operations of the extended tracker *)

(** [sanitizeInput].  A string is the sequence of its code units; the
    characters of this model are the code units below 256, of which tab,
    line feed, vertical tab, form feed, carriage return, space and the
    no-break space are the white space that [trim] removes. *)
Definition isAngle (c : ascii) : bool :=
  Ascii.eqb c "<"%char || Ascii.eqb c ">"%char.

Definition isWhiteSpace (c : ascii) : bool :=
  let n := nat_of_ascii c in
  ((n =? 9) || (n =? 10) || (n =? 11) || (n =? 12) || (n =? 13)
   || (n =? 32) || (n =? 160))%nat.

(** [s.replace(/[<>]/g, '')]. *)
Fixpoint removeAngles (s : string) : string :=
  match s with
  | EmptyString => EmptyString
  | String c rest =>
      if isAngle c then removeAngles rest else String c (removeAngles rest)
  end.

Fixpoint trimStart (s : string) : string :=
  match s with
  | EmptyString => EmptyString
  | String c rest => if isWhiteSpace c then trimStart rest else s
  end.

Fixpoint trimEnd (s : string) : string :=
  match s with
  | EmptyString => EmptyString
  | String c rest =>
      let rest' := trimEnd rest in
      if isWhiteSpace c && String.eqb rest' "" then EmptyString
      else String c rest'
  end.

(** [s.trim()]. *)
Definition trim (s : string) : string := trimEnd (trimStart s).

Definition sanitizeInput (input : option value) (maxLength : nat) : string :=
  match input with
  | Some (VStr s) => trim (substring 0 maxLength (removeAngles s))
  | _ => ""
  end.

(** The goal form as [saveGoal] reads it: the selected type and the two
    amount fields after [parseFloat] ([None] for [NaN]). *)
Record GoalForm : Type := {
  formGoalType : string;
  formStashAmount : option Q;
  formWeeklyGoal : option Q
}.

(** Replace the value of a property that the record has. *)
Fixpoint setField (k : string) (v : value) (fields : list (string * value))
  : list (string * value) :=
  match fields with
  | [] => [(k, v)]
  | (k', v') :: rest =>
      if String.eqb k k' then (k, v) :: rest else (k', v') :: setField k v rest
  end.

Section FurtherOperations.

Variable rt : Runtime.

(** [renderEntries], as the entries whose HTML is shown: [None] stands for
    the "No entries yet" placeholder. *)
Definition renderEntries (this : Tracker) : option (list value) :=
  if (List.length (entries this) =? 0)%nat then None
  else
    let validEntries :=
      firstn 20
        (sortEntries rt
           (filter (fun entry => validateEntry rt (Some entry)) (entries this))) in
    Some validEntries.

(** The comparator of [getDailyData]:
    [(a, b) => new Date(a.timestamp) - new Date(b.timestamp)], positive. *)
Definition chronologicalAfter (a b : value) : bool :=
  dateGt (entryDate rt a) (entryDate rt b).

(** [getDailyData]: the points [{x, y}] of the 48-hour chart. *)
Definition getDailyData (this : Tracker) (now : Z)
  : list (option Z * option value) :=
  let fortyEightHoursAgo := timeClip (now - 48 * 60 * 60 * 1000) in
  let recentEntries :=
    sortBy chronologicalAfter
      (filter (fun entry =>
                 let entryDate := entryDate rt entry in
                 dateGe entryDate fortyEightHoursAgo && dateLe entryDate (Some now))
              (entries this)) in
  map (fun entry => (entryDate rt entry, getProp (Some entry) "amount"))
      recentEntries.

(** [d.getHours()]: the hour of the local time, [None] for [NaN]. *)
Definition getHours (d : option Z) : option Z :=
  mapOpt (fun t => (t + tzOffset rt) mod msPerDay / (60 * 60 * 1000)) d.

Record ChartData : Type := {
  labels : list string;
  values : list Z
}.

(** One step of the [forEach] of [getTimeOfDayData]; an hour that is [NaN]
    fails every test and falls into the last slot. *)
Definition countHour (counts : Z * Z * Z * Z) (entry : value) : Z * Z * Z * Z :=
  let '(c0, c1, c2, c3) := counts in
  match getHours (entryDate rt entry) with
  | Some hour =>
      if (0 <=? hour) && (hour <? 6) then (c0 + 1, c1, c2, c3)
      else if (6 <=? hour) && (hour <? 12) then (c0, c1 + 1, c2, c3)
      else if (12 <=? hour) && (hour <? 18) then (c0, c1, c2 + 1, c3)
      else (c0, c1, c2, c3 + 1)
  | None => (c0, c1, c2, c3 + 1)
  end.

Definition timeSlots : list string :=
  ["Early AM (12-6)"; "Morning (6-12)"; "Afternoon (12-6)"; "Evening (6-12)"].

Definition getTimeOfDayData (this : Tracker) : ChartData :=
  let '(c0, c1, c2, c3) := fold_left countHour (entries this) (0, 0, 0, 0) in
  if forallb (fun count => count =? 0) [c0; c1; c2; c3] then
    {| labels := timeSlots; values := [0; 0; 0; 0] |}
  else
    {| labels := timeSlots; values := [c0; c1; c2; c3] |}.

(** [saveGoal]. *)
Definition saveGoal (this : Tracker) (ls : Storage) (form : GoalForm) (now : Z)
  : Tracker * Storage * Notice :=
  let goalType := formGoalType form in
  if String.eqb goalType ""
     || negb (includesStr goalTypes (Some (VStr goalType))) then
    (this, ls, Error "Please select a valid goal type.")
  else
    let finish (goalData : value) :=
      if negb (validateGoals rt (Some goalData)) then
        (this, ls, Error "Invalid goal data. Please check your input.")
      else
        let this' :=
          {| entries := entries this;
             goals := goalData;
             settings := settings this |} in
        (this', saveGoals this' ls, Success "Goal saved successfully!") in
    if String.eqb goalType "stash" then
      match formStashAmount form with
      | None =>
          (this, ls,
           Error "Please enter a valid stash amount greater than 0.")
      | Some stashAmount =>
          if Qeq_bool stashAmount 0 || Qle_bool stashAmount 0 then
            (this, ls,
             Error "Please enter a valid stash amount greater than 0.")
          else
            finish
              (VObj [("goalType", VStr goalType);
                     ("startDate", VStr (toISOString rt now));
                     ("stashAmount", VNum stashAmount);
                     ("stashStartDate", VStr (toISOString rt now));
                     ("weeklyAmount", VNum 0)])
      end
    else
      match formWeeklyGoal form with
      | None =>
          (this, ls,
           Error "Please enter a valid weekly goal amount (0 or greater).")
      | Some weeklyGoal =>
          if Qeq_bool weeklyGoal 0 || Qlt_bool weeklyGoal 0 then
            (this, ls,
             Error "Please enter a valid weekly goal amount (0 or greater).")
          else
            finish
              (VObj [("goalType", VStr goalType);
                     ("startDate", VStr (toISOString rt now));
                     ("weeklyAmount", VNum weeklyGoal);
                     ("stashAmount", VNum 0)])
      end.

(** [resetGoal], once confirmed. *)
Definition resetGoal (this : Tracker) (ls : Storage)
  : Tracker * Storage * Notice :=
  let this' :=
    {| entries := entries this;
       goals := getDefaultGoals;
       settings := settings this |} in
  (this', saveGoals this' ls, Success "Goal reset successfully!").

(** *** Alternatives *)

Definition validateAlternatives (alternatives : option value) : bool :=
  if negb (truthy alternatives)
     || negb (jstype_eqb (typeof alternatives) TObject) then false
  else if negb (isArray (getProp alternatives "triedItems")) then false
  else true.

Definition loadAlternatives (ls : Storage) : value :=
  match getItem "weedTrackerAlternatives" ls with
  | None => getDefaultAlternatives
  | Some Garbage => getDefaultAlternatives
  | Some (Json parsed) =>
      if validateAlternatives (Some parsed) then parsed
      else getDefaultAlternatives
  end.

Definition saveAlternatives (alternatives : value) (ls : Storage) : Storage :=
  setItem "weedTrackerAlternatives" (Json alternatives) ls.

(** [markSuggestionAsTried].  [triedItems.includes] and [push] need an
    array; on anything else the call throws, which is [None] here.  The
    array is extended in place, so the property keeps its position. *)
Definition markSuggestionAsTried (alternatives : value) (ls : Storage)
           (suggestionId : string)
  : option (value * Storage * option Notice) :=
  match alternatives, getProp (Some alternatives) "triedItems" with
  | VObj fields, Some (VArr triedItems) =>
      if negb (existsb (fun item => strictEqStr (Some item) suggestionId)
                       triedItems) then
        let alternatives' :=
          VObj (setField "triedItems"
                         (VArr (app triedItems [VStr suggestionId])) fields) in
        Some (alternatives', saveAlternatives alternatives' ls,
              Some (Success "Great job trying an alternative!"))
      else Some (alternatives, ls, None)
  | _, _ => None
  end.

End FurtherOperations.

(** ** Notions for the further properties *)

Section FurtherNotions.

Variable rt : Runtime.

(** The entry has a valid timestamp on the local day with number [day]. *)
Definition entryOnDay (day : Z) (entry : value) : Prop :=
  exists t, entryDate rt entry = Some t /\ localDay rt t = day.

(** The timestamp lies in the closed interval of the [span] milliseconds up
    to [now]. *)
Definition inLast (span now : Z) (entry : value) : bool :=
  match entryDate rt entry with
  | Some t => (now - span <=? t) && (t <=? now)
  | None => false
  end.

(** Ascending by timestamp, on entries with valid timestamps. *)
Definition sortedAsc (l : list value) : Prop :=
  StronglySorted
    (fun a b => dateLe (entryDate rt a) (entryDate rt b) = true) l.


(** The slot of the day an entry belongs to: 0 for the hours 0 to 5 of the
    local time, 1 for 6 to 11, 2 for 12 to 17 and 3 for 18 to 23; an entry
    without a valid timestamp is in slot 3. *)
Definition slotOf (entry : value) : Z :=
  match entryDate rt entry with
  | Some t =>
      let hour := (t + tzOffset rt) mod msPerDay / 3600000 in
      if hour <? 6 then 0 else if hour <? 12 then 1
      else if hour <? 18 then 2 else 3
  | None => 3
  end.

Definition countSlot (slot : Z) (l : list value) : Z :=
  Z.of_nat (List.length (filter (fun entry => slotOf entry =? slot) l)).

(** The characters of a string. *)
Definition chars (s : string) : list ascii := list_ascii_of_string s.



(** The items of [alternatives.triedItems] when that is an array. *)
Definition triedItems (alternatives : value) : list value :=
  arrayItems (getProp (Some alternatives) "triedItems").


(** No character of the string is an angle bracket. *)
Definition noAngles (s : string) : bool :=
  forallb (fun c => negb (isAngle c)) (chars s).

(** The string neither starts nor ends with white space. *)
Definition trimmed (s : string) : bool :=
  match chars s with
  | [] => true
  | c :: rest => negb (isWhiteSpace c) && negb (isWhiteSpace (last rest c))
  end.

(** The unit in which an elapsed time of [diff] milliseconds is shown, by
    its whole days: years from 366 days on, months from 31 days on. *)
Definition unitByDays (diff : Z) : string :=
  if 366 <=? wholeDays diff then "years"
  else if 31 <=? wholeDays diff then "months"
  else if 1 <=? wholeDays diff then "days"
  else if 3600000 <=? diff then "hours"
  else "minutes".

(** [t] is the greatest time value among the timestamps of the entries. *)
Definition latestTime (l : list value) (t : Z) : Prop :=
  (exists e, In e l /\ entryDate rt e = Some t)
  /\ forall e t', In e l -> entryDate rt e = Some t' -> t' <= t.

(** An optional text field: absent or falsy ([null], [false], 0, the empty
    string), or a string. *)
Definition optionalText (v : option value) : Prop :=
  truthy v = false \/ exists s, v = Some (VStr s).

(** Entries, goals and settings all pass their validators. *)
Definition validState (this : Tracker) : Prop :=
  allValid rt (entries this)
  /\ validateGoals rt (Some (goals this)) = true
  /\ validateSettings rt (Some (settings this)) = true.

(** The record that [addEntry] builds from the form at the time [now]. *)
Definition entryOfForm (form : FormInput) (amount : Q) (now : Z) : value :=
  VObj [("id", VNum (inject_Z now));
        ("amount", VNum amount);
        ("method", VStr (formMethod form));
        ("notes", VStr (formNotes form));
        ("mood", VStr (formMood form));
        ("timestamp", VStr (formTime form));
        ("createdAt", VStr (toISOString rt now))].

End FurtherNotions.

(** ** More sample data *)

Module Cases.

(** Two validated entries, the later one first. *)
Definition twoEntries : list value :=
  [Data.entryAt 2 1 "2024-03-10T08:30"; Data.entryAt 1 (3 # 2) "2024-03-09T22:00"].

Definition tracker : Tracker := Data.trackerOf twoEntries.

(** A store that holds the state of [tracker]. *)
Definition store : Storage :=
  saveSettings tracker (saveGoals tracker (saveEntries tracker [])).

(** The amounts 0.15, 0.7, 0.1 and 0.8 and the price 0.5, as the doubles
    these literals are read as. *)
Definition g015 : Q := roundDouble (15 # 100).
Definition g07 : Q := roundDouble (7 # 10).
Definition g01 : Q := roundDouble (1 # 10).
Definition g08 : Q := roundDouble (8 # 10).

Definition halfPrice : value :=
  VObj [("pricePerGram", VNum (1 # 2)); ("currency", VStr "USD")].

Definition weeklyGoal (amount : Q) : value :=
  VObj [("goalType", VStr "reduce");
        ("startDate", VStr "2024-03-01T00:00:00.000Z");
        ("weeklyAmount", VNum amount);
        ("stashAmount", VNum 0)].

Definition weeklyTracker (amount : Q) (l : list value) : Tracker :=
  {| entries := l; goals := weeklyGoal amount; settings := getDefaultSettings |}.

(** An export document with the given entries and the default goals and
    settings. *)
Definition documentOf (l : list value) : value :=
  VObj [("entries", VArr l);
        ("goals", getDefaultGoals);
        ("settings", getDefaultSettings);
        ("exportDate", VStr "2024-03-10T08:30:00.000Z")].

End Cases.

(** * Properties *)

(** ** Tactics and basic facts *)

(** Peel one guard [if c then false else rest] off a validator that
    returned [true]. *)
Ltac peel H :=
  match type of H with
  | (if ?c then false else _) = true =>
      let E := fresh "G" in
      destruct c eqn:E; [discriminate H | ]
  end.

Ltac bool_facts :=
  repeat match goal with
         | H : (_ || _) = false |- _ => apply orb_false_iff in H; destruct H
         | H : (_ && _) = true |- _ => apply andb_true_iff in H; destruct H
         | H : negb _ = false |- _ => apply negb_false_iff in H
         | H : negb _ = true |- _ => apply negb_true_iff in H
         end.

Lemma typeof_number (v : option value) :
  jstype_eqb (typeof v) TNumber = true -> exists q, v = Some (VNum q).
Proof.
  destruct v as [[ | b | q | s | l | f] | ]; simpl; try discriminate.
  intros _. now exists q.
Qed.

Lemma typeof_string (v : option value) :
  jstype_eqb (typeof v) TString = true -> exists s, v = Some (VStr s).
Proof.
  destruct v as [[ | b | q | s | l | f] | ]; simpl; try discriminate.
  intros _. now exists s.
Qed.

Lemma typeof_string_iff (v : option value) :
  jstype_eqb (typeof v) TString = true <-> typeof v = TString.
Proof.
  destruct (typeof v); simpl; split; congruence.
Qed.

Lemma Qlt_bool_iff (a b : Q) : Qlt_bool a b = true <-> (a < b)%Q.
Proof.
  unfold Qlt_bool. rewrite negb_true_iff.
  split.
  - intros H. apply Qnot_le_lt. intros Hle.
    apply Qle_bool_iff in Hle. congruence.
  - intros H. destruct (Qle_bool b a) eqn:E; [ | reflexivity].
    apply Qle_bool_iff in E. exfalso. now apply (Qlt_not_le a b).
Qed.

Lemma Qle_bool_false (a b : Q) : Qle_bool a b = false <-> (b < a)%Q.
Proof.
  rewrite <- Qlt_bool_iff. unfold Qlt_bool.
  now rewrite negb_true_iff.
Qed.

Lemma Qeq_bool_false (a b : Q) : Qeq_bool a b = false <-> ~ (a == b)%Q.
Proof.
  split.
  - intros H E. apply Qeq_bool_iff in E. congruence.
  - intros H. destruct (Qeq_bool a b) eqn:E; [ | reflexivity].
    apply Qeq_bool_iff in E. contradiction.
Qed.

Lemma includesStr_In (l : list string) (s : string) :
  includesStr l (Some (VStr s)) = true <-> In s l.
Proof.
  unfold includesStr. rewrite existsb_exists. split.
  - intros [x [Hx E]]. simpl in E. apply String.eqb_eq in E. now subst.
  - intros H. exists s. split; [exact H | ]. simpl. apply String.eqb_refl.
Qed.

Section ValidatorFacts.

Variable rt : Runtime.

(** What an accepted entry looks like. *)
Record AcceptedEntry (entry : option value) : Prop := {
  acc_object : exists fields, entry = Some (VObj fields);
  acc_id : exists q, getProp entry "id" = Some (VNum q) /\ ~ (q == 0)%Q;
  acc_amount : exists q, getProp entry "amount" = Some (VNum q) /\ (0 < q)%Q;
  acc_method : exists s, getProp entry "method" = Some (VStr s) /\ s <> "";
  acc_time : exists t, newDate rt (getProp entry "timestamp") = Some t;
  acc_time_truthy : truthy (getProp entry "timestamp") = true
}.

Lemma validateEntry_accepted (entry : option value) :
  validateEntry rt entry = true -> AcceptedEntry entry.
Proof.
  unfold validateEntry. intros H.
  peel H. peel H. peel H. peel H. peel H. peel H. peel H.
  bool_facts.
  repeat match goal with
         | T : jstype_eqb (typeof (getProp entry _)) TNumber = true |- _ =>
             apply typeof_number in T; destruct T as [? T]
         | T : jstype_eqb (typeof (getProp entry _)) TString = true |- _ =>
             apply typeof_string in T; destruct T as [? T]
         end.
  constructor.
  - destruct entry as [[ | b | q | s | l | f] | ]; simpl in *; try discriminate.
    now exists f.
  - match goal with
    | T : getProp entry "id" = Some (VNum ?q), U : truthy (getProp entry "id") = true |- _ =>
        exists q; split; [exact T | ]; rewrite T in U; simpl in U; bool_facts;
        now apply Qeq_bool_false
    end.
  - match goal with
    | T : getProp entry "amount" = Some (VNum ?q),
      U : leNum rt (getProp entry "amount") 0 = false |- _ =>
        exists q; split; [exact T | ]; rewrite T in U; unfold leNum in U;
        simpl in U; now apply Qle_bool_false
    end.
  - match goal with
    | T : getProp entry "method" = Some (VStr ?s),
      U : truthy (getProp entry "method") = true |- _ =>
        exists s; split; [exact T | ]; rewrite T in U; simpl in U; bool_facts;
        intros ->; discriminate
    end.
  - match goal with
    | U : isValidDate rt (getProp entry "timestamp") = true |- _ =>
        unfold isValidDate in U;
        destruct (newDate rt (getProp entry "timestamp")) as [t | ];
        [now exists t | discriminate]
    end.
  - assumption.
Qed.

(** What the goal validator accepts. *)
Lemma validateGoals_inv (goals : option value) :
  validateGoals rt goals = true ->
  (exists w, getProp goals "weeklyAmount" = Some (VNum w) /\ (0 <= w)%Q)
  /\ (exists t, getProp goals "goalType" = Some (VStr t) /\ In t goalTypes)
  /\ (getProp goals "stashAmount" = None
      \/ exists s, getProp goals "stashAmount" = Some (VNum s) /\ (0 <= s)%Q).
Proof.
  unfold validateGoals. intros H. peel H. peel H. peel H. peel H.
  bool_facts.
  split; [ | split].
  - match goal with
    | T : jstype_eqb (typeof (getProp goals "weeklyAmount")) TNumber = true,
      U : ltNum rt (getProp goals "weeklyAmount") 0 = false |- _ =>
        apply typeof_number in T; destruct T as [w T]; exists w;
        split; [exact T | ]; rewrite T in U; unfold ltNum in U; simpl in U;
        bool_facts; now apply Qle_bool_iff
    end.
  - match goal with
    | T : includesStr goalTypes (getProp goals "goalType") = true |- _ =>
        destruct (getProp goals "goalType") as [[ | b | q | t | l | f] | ];
        try discriminate; exists t; split; [reflexivity | ];
        now apply includesStr_In
    end.
  - match goal with
    | T : isSome (getProp goals "stashAmount") && _ = false |- _ =>
        apply andb_false_iff in T; destruct T as [T | T]
    end.
    + left. now destruct (getProp goals "stashAmount").
    + right. bool_facts.
      match goal with
      | T : jstype_eqb (typeof (getProp goals "stashAmount")) TNumber = true,
        U : ltNum rt (getProp goals "stashAmount") 0 = false |- _ =>
          apply typeof_number in T; destruct T as [x T]; exists x;
          split; [exact T | ]; rewrite T in U; unfold ltNum in U; simpl in U;
          bool_facts; now apply Qle_bool_iff
      end.
Qed.

End ValidatorFacts.

(** ** The entry validator *)

(** C10: the validator returns [false] whenever the id is the number 0 or
    the method is the empty string, whatever the other fields are; an
    accepted record has a non-zero numeric id and a non-empty method
    string. *)
Theorem validateEntry_zero_id_empty_method :
  forall (rt : Runtime) (entry : option value),
    ((exists q, getProp entry "id" = Some (VNum q) /\ (q == 0)%Q)
     \/ getProp entry "method" = Some (VStr "") ->
     validateEntry rt entry = false)
    /\ (validateEntry rt entry = true ->
        exists q s,
          getProp entry "id" = Some (VNum q) /\ ~ (q == 0)%Q
          /\ getProp entry "method" = Some (VStr s) /\ s <> "").
Proof.
  intros rt entry. split.
  - intros Hbad.
    destruct (validateEntry rt entry) eqn:E; [ | reflexivity].
    destruct (validateEntry_accepted rt entry E)
      as [_ [q [Hid Hq]] _ [s [Hm Hs]] _ _].
    destruct Hbad as [[q' [Hid' Hq']] | Hm'].
    + rewrite Hid in Hid'. injection Hid' as ->. contradiction.
    + rewrite Hm in Hm'. injection Hm' as ->. contradiction.
  - intros E.
    destruct (validateEntry_accepted rt entry E)
      as [_ [q [Hid Hq]] _ [s [Hm Hs]] _ _].
    exists q, s. auto.
Qed.

(** Witness for C10: a record that is valid but for its id 0 is rejected,
    and so is one valid but for its empty method. *)
Lemma validateEntry_zero_id_empty_method_witness :
  validateEntry Data.utc
    (Some (Data.minimalEntry 0 1 "joint" "2024-03-10T08:30")) = false
  /\ validateEntry Data.utc
       (Some (Data.minimalEntry 7 1 "" "2024-03-10T08:30")) = false.
Proof.
  split.
  - apply (proj1 (validateEntry_zero_id_empty_method Data.utc _)).
    left. exists 0%Q. split; reflexivity.
  - apply (proj1 (validateEntry_zero_id_empty_method Data.utc _)).
    right. reflexivity.
Defined.

(** C9, as stated, fails: a minimal record with a numeric id, a positive
    amount, a string method and a timestamp that parses is rejected when the
    id is 0. *)
Lemma validateEntry_rejects_numeric_id_zero :
  isValidDate Data.utc (Some (VStr "2024-03-10T08:30")) = true
  /\ (0 < 1)%Q
  /\ validateEntry Data.utc
       (Some (Data.minimalEntry 0 1 "joint" "2024-03-10T08:30")) = false.
Proof.
  repeat split.
Qed.

(** C9, amended: the validator is a total function (it never throws);
    it rejects a candidate without id, with an amount that is not above 0,
    with a method that is not a string, or with a timestamp that is no valid
    date; and it accepts the record with only id, amount, method and
    timestamp for every non-zero id, every amount above 0, every non-empty
    method and every non-empty timestamp string that parses. *)
Theorem validateEntry_contract :
  forall (rt : Runtime),
    (forall entry,
        getProp entry "id" = None
        \/ (exists q, getProp entry "amount" = Some (VNum q) /\ (q <= 0)%Q)
        \/ typeof (getProp entry "method") <> TString
        \/ isValidDate rt (getProp entry "timestamp") = false ->
        validateEntry rt entry = false)
    /\ (forall (id amount : Q) (method timestamp : string),
           ~ (id == 0)%Q -> (0 < amount)%Q -> method <> "" ->
           timestamp <> "" ->
           isValidDate rt (Some (VStr timestamp)) = true ->
           validateEntry rt
             (Some (Data.minimalEntry id amount method timestamp)) = true).
Proof.
  intros rt. split.
  - intros entry Hbad.
    destruct (validateEntry rt entry) eqn:E; [ | reflexivity].
    destruct (validateEntry_accepted rt entry E)
      as [_ [q [Hid Hq]] [a [Ha Hpos]] [s [Hm Hs]] [t Ht] _].
    destruct Hbad as [Hno | [[a' [Ha' Hle]] | [Hty | Hinv]]].
    + congruence.
    + rewrite Ha in Ha'. injection Ha' as ->.
      exfalso. now apply (Qlt_not_le 0 a').
    + rewrite Hm in Hty. now elim Hty.
    + unfold isValidDate in Hinv. rewrite Ht in Hinv. discriminate.
  - intros id amount method timestamp Hid Hamount Hmethod Htime Hvalid.
    unfold validateEntry, Data.minimalEntry. simpl.
    apply Qeq_bool_false in Hid. rewrite Hid. simpl.
    assert (Ha0 : Qeq_bool amount 0 = false).
    { apply Qeq_bool_false. intros E. rewrite E in Hamount.
      now apply (Qlt_irrefl 0). }
    rewrite Ha0. simpl.
    assert (Hle : leNum rt (Some (VNum amount)) 0 = false).
    { unfold leNum. simpl. now apply Qle_bool_false. }
    rewrite Hle. simpl.
    apply String.eqb_neq in Hmethod. rewrite Hmethod. simpl.
    apply String.eqb_neq in Htime. rewrite Htime. simpl.
    rewrite Hvalid. reflexivity.
Qed.

(** Witness for C9 (amended): one rejected and one accepted record. *)
Lemma validateEntry_contract_witness :
  validateEntry Data.utc
    (Some (VObj [("id", VNum 7); ("amount", VNum 0);
                 ("method", VStr "joint");
                 ("timestamp", VStr "2024-03-10T08:30")])) = false
  /\ validateEntry Data.utc
       (Some (Data.minimalEntry 7 (1 # 2) "joint" "2024-03-10T08:30")) = true.
Proof.
  split.
  - apply (proj1 (validateEntry_contract Data.utc)).
    right. left. exists 0%Q. split; [reflexivity | ].
    apply Qle_refl.
  - apply (proj2 (validateEntry_contract Data.utc)).
    + intros E. discriminate E.
    + reflexivity.
    + discriminate.
    + discriminate.
    + reflexivity.
Defined.

(** ** Streak *)

Lemma filter_length_lt {A : Type} (f g : A -> bool) (l : list A) :
  (forall x, In x l -> f x = true -> g x = true) ->
  (exists x, In x l /\ g x = true /\ f x = false) ->
  (List.length (filter f l) < List.length (filter g l))%nat.
Proof.
  induction l as [ | a l IH]; intros Hsub [x [Hin [Hg Hf]]].
  - destruct Hin.
  - assert (Hle : (List.length (filter f l) <= List.length (filter g l))%nat).
    { clear -Hsub. induction l as [ | b l IHl]; simpl; [lia | ].
      assert (Hb := Hsub b (or_intror (or_introl eq_refl))).
      destruct (f b) eqn:Fb.
      - rewrite (Hb eq_refl). simpl.
        apply le_n_S. apply IHl. intros y Hy. apply Hsub.
        destruct Hy as [-> | Hy]; [now left | right; now right].
      - destruct (g b); simpl.
        + apply Nat.le_le_succ_r. apply IHl. intros y Hy. apply Hsub.
          destruct Hy as [-> | Hy]; [now left | right; now right].
        + apply IHl. intros y Hy. apply Hsub.
          destruct Hy as [-> | Hy]; [now left | right; now right]. }
    simpl. destruct Hin as [-> | Hin].
    + rewrite Hf, Hg. simpl. lia.
    + assert (IH' : (List.length (filter f l) < List.length (filter g l))%nat).
      { apply IH.
        - intros y Hy. apply Hsub. now right.
        - now exists x. }
      destruct (f a) eqn:Fa.
      * rewrite (Hsub a (or_introl eq_refl) Fa). simpl. lia.
      * destruct (g a); simpl; lia.
Qed.

Lemma filter_nonempty_iff {A : Type} (f : A -> bool) (l : list A) :
  (0 <? List.length (filter f l))%nat = true <-> exists x, In x l /\ f x = true.
Proof.
  rewrite Nat.ltb_lt. split.
  - intros H. destruct (filter f l) as [ | x r] eqn:E; [simpl in H; lia | ].
    exists x. apply filter_In. rewrite E. now left.
  - intros [x Hx]. apply filter_In in Hx.
    destruct (filter f l); [destruct Hx | simpl; lia].
Qed.

Section StreakFacts.

Variable rt : Runtime.

Lemma pending_decreases (this : Tracker) (day : option Z) :
  (0 <? List.length (entriesOn rt this day))%nat = true ->
  (pending rt this (setDatePrev day) < pending rt this day)%nat.
Proof.
  intros H. apply filter_nonempty_iff in H. destruct H as [e [Hin He]].
  unfold pending. apply filter_length_lt.
  - intros x _. unfold dateLe, setDatePrev, bindOpt, timeClip.
    destruct (setHours0 rt (entryDate rt x)) as [a | ]; [ | discriminate].
    destruct day as [c | ]; [ | discriminate].
    destruct (Z.abs (c - msPerDay) <=? maxTime); [ | discriminate].
    unfold msPerDay. rewrite !Z.leb_le. lia.
  - exists e. split; [exact Hin | ].
    unfold timeEq in He. unfold dateLe, setDatePrev, bindOpt, timeClip.
    destruct (setHours0 rt (entryDate rt e)) as [a | ]; [ | discriminate].
    destruct day as [c | ]; [ | discriminate].
    apply Z.eqb_eq in He. subst c. split.
    + apply Z.leb_refl.
    + destruct (Z.abs (a - msPerDay) <=? maxTime); [ | reflexivity].
      apply Z.leb_gt. unfold msPerDay. lia.
Qed.

(** The loop returns when it has one pass more than there are entries to
    meet; it returns the initial count exactly when the first day is
    empty. *)
Lemma streakLoop_terminates (this : Tracker) :
  forall (fuel : nat) (day : option Z) (c : Z),
    (pending rt this day < fuel)%nat ->
    exists n, streakLoop rt fuel this day c = Some n
              /\ c <= n
              /\ (n = c <->
                  (0 <? List.length (entriesOn rt this day))%nat = false).
Proof.
  induction fuel as [ | fuel IH]; intros day c Hfuel; [lia | ].
  simpl.
  destruct (0 <? List.length (entriesOn rt this day))%nat eqn:E.
  - assert (Hdec := pending_decreases this day E).
    destruct (IH (setDatePrev day) (c + 1)) as [n [Hn [Hle _]]]; [lia | ].
    exists n. split; [exact Hn | ]. split; [lia | ].
    split; [lia | discriminate].
  - exists c. split; [reflexivity | ]. split; [lia | ]. tauto.
Qed.

(** More passes than needed change nothing. *)
Lemma streakLoop_more_fuel (this : Tracker) :
  forall (fuel extra : nat) (day : option Z) (c n : Z),
    streakLoop rt fuel this day c = Some n ->
    streakLoop rt (fuel + extra) this day c = Some n.
Proof.
  induction fuel as [ | fuel IH]; intros extra day c n H; [discriminate | ].
  simpl in *.
  destruct (0 <? List.length (entriesOn rt this day))%nat; [ | exact H].
  now apply IH.
Qed.

Lemma calculateStreakFuel_enough (this : Tracker) (now : Z) (fuel : nat) :
  (List.length (entries this) < fuel)%nat ->
  calculateStreakFuel rt fuel this now = calculateStreak rt this now.
Proof.
  intros Hfuel. unfold calculateStreak, calculateStreakFuel.
  destruct (List.length (entries this) =? 0)%nat; [reflexivity | ].
  destruct (streakLoop_terminates this (S (List.length (entries this)))
              (setHours0 rt (Some now)) 0) as [n [Hn _]].
  { unfold pending. apply Nat.lt_succ_r. apply filter_length_le. }
  rewrite Hn.
  replace fuel
    with (S (List.length (entries this))
          + (fuel - S (List.length (entries this))))%nat by lia.
  now rewrite (streakLoop_more_fuel this _ _ _ _ _ Hn).
Qed.

Lemma setHours0_now (now : Z) :
  0 <= now <= maxTime ->
  setHours0 rt (Some now) = Some (localDay rt now * msPerDay - tzOffset rt).
Proof.
  intros Hnow. unfold setHours0, bindOpt, timeClip, localDay.
  assert (Hd := Z.div_mod (now + tzOffset rt) msPerDay).
  assert (Hm := Z.mod_pos_bound (now + tzOffset rt) msPerDay).
  unfold msPerDay, maxTime in *.
  destruct (Z.leb_spec
              (Z.abs ((now + tzOffset rt) / (24 * 60 * 60 * 1000)
                      * (24 * 60 * 60 * 1000) - tzOffset rt))
              8640000000000000) as [_ | Hgt]; [reflexivity | ].
  lia.
Qed.

Lemma on_today_iff (now : Z) (entry : value) :
  0 <= now <= maxTime ->
  timeEq (setHours0 rt (entryDate rt entry)) (setHours0 rt (Some now)) = true
  <-> onDayOf rt now entry.
Proof.
  intros Hnow. rewrite (setHours0_now now Hnow).
  unfold onDayOf, timeEq, setHours0 at 1, bindOpt, timeClip.
  destruct (entryDate rt entry) as [t | ].
  - fold (localDay rt t). split.
    + intros H. exists t. split; [reflexivity | ].
      destruct (Z.abs (localDay rt t * msPerDay - tzOffset rt) <=? maxTime);
        [ | discriminate].
      apply Z.eqb_eq in H. unfold msPerDay in H. lia.
    + intros [t' [Ht' Hday]]. injection Ht' as <-.
      rewrite Hday.
      assert (Hs := setHours0_now now Hnow).
      unfold setHours0, bindOpt, timeClip in Hs. fold (localDay rt now) in Hs.
      destruct (Z.abs (localDay rt now * msPerDay - tzOffset rt) <=? maxTime);
        [ | discriminate].
      apply Z.eqb_refl.
  - split; [discriminate | ]. intros [t [Ht _]]. discriminate.
Qed.

End StreakFacts.

(** C1: the streak calculation returns; its count is 0 exactly when no entry
    falls on the calendar day of [now]; a positive count comes with an entry
    on that day and with the label for a streak including today; the label
    for a last entry yesterday is never returned. *)
Theorem calculateStreak_zero_iff_no_entry_today :
  forall (rt : Runtime) (this : Tracker) (now : Z),
    0 <= now <= maxTime ->
    exists r,
      calculateStreak rt this now = Some r
      /\ (streakCount r = 0 <->
          forall e, In e (entries this) -> ~ onDayOf rt now e)
      /\ (0 < streakCount r ->
          (exists e, In e (entries this) /\ onDayOf rt now e)
          /\ streakType r = "day streak (including today)")
      /\ streakType r <> "day streak (last entry yesterday)".
Proof.
  intros rt this now Hnow.
  unfold calculateStreak, calculateStreakFuel.
  destruct (List.length (entries this) =? 0)%nat eqn:Elen.
  - apply Nat.eqb_eq in Elen. apply length_zero_iff_nil in Elen.
    eexists. split; [reflexivity | ]. simpl. rewrite Elen.
    split; [ | split]; [ | lia | discriminate].
    split; [ | reflexivity]. intros _ e [].
  - set (today := setHours0 rt (Some now)).
    destruct (streakLoop_terminates rt this
                (S (List.length (entries this))) today 0)
      as [n [Hn [Hle Hzero]]].
    { unfold pending. apply Nat.lt_succ_r. apply filter_length_le. }
    rewrite Hn.
    assert (Htoday :
              (0 <? List.length (entriesOn rt this today))%nat = true
              <-> exists e, In e (entries this) /\ onDayOf rt now e).
    { unfold entriesOn. rewrite filter_nonempty_iff.
      split; intros [e [Hin He]]; exists e; (split; [exact Hin | ]);
        now apply (on_today_iff rt now e Hnow). }
    destruct (0 <? List.length (entriesOn rt this today))%nat eqn:Ehas.
    + assert (Hpos : n <> 0) by (intros ->; destruct Hzero as [Hz _];
                                 now specialize (Hz eq_refl)).
      apply Z.eqb_neq in Hpos. rewrite Hpos. apply Z.eqb_neq in Hpos.
      eexists. split; [reflexivity | ]. simpl.
      destruct (proj1 Htoday eq_refl) as [e [Hin He]].
      split; [ | split]; [ | | discriminate].
      * split; [contradiction | ]. intros Hnone. elim (Hnone e Hin He).
      * intros _. split; [now exists e | reflexivity].
    + assert (Hz : n = 0) by now apply Hzero.
      subst n. simpl.
      eexists. split; [reflexivity | ]. simpl.
      split; [ | split]; [ | lia | discriminate].
      split; [ | reflexivity].
      intros _ e Hin He.
      assert (Hex : exists e, In e (entries this) /\ onDayOf rt now e)
        by now exists e.
      apply Htoday in Hex. discriminate.
Qed.

(** Witness for C1: an entry of today and one of yesterday, seen at 09:30. *)
Lemma calculateStreak_zero_iff_no_entry_today_witness :
  0 <= Data.mar10_0930 <= maxTime
  /\ exists r,
      calculateStreak Data.utc
        (Data.trackerOf [Data.entryAt 2 1 "2024-03-10T08:30";
                         Data.entryAt 1 1 "2024-03-09T22:00"])
        Data.mar10_0930 = Some r
      /\ (0 < streakCount r ->
          streakType r = "day streak (including today)").
Proof.
  split.
  - unfold Data.mar10_0930, maxTime. lia.
  - destruct (calculateStreak_zero_iff_no_entry_today Data.utc
                (Data.trackerOf [Data.entryAt 2 1 "2024-03-10T08:30";
                                 Data.entryAt 1 1 "2024-03-09T22:00"])
                Data.mar10_0930) as [r [Hr [_ [Hpos _]]]].
    + unfold Data.mar10_0930, maxTime. lia.
    + exists r. split; [exact Hr | ]. intros H. exact (proj2 (Hpos H)).
Defined.

(** The walk on concrete data: two days in a row count 2; with the last
    entry yesterday the count is 0. *)
Example calculateStreak_two_days :
  calculateStreak Data.utc
    (Data.trackerOf [Data.entryAt 2 1 "2024-03-10T08:30";
                     Data.entryAt 1 1 "2024-03-09T22:00"])
    Data.mar10_0930
  = Some {| streakCount := 2; streakType := "day streak (including today)" |}.
Proof. vm_compute. reflexivity. Qed.

Example calculateStreak_last_entry_yesterday :
  calculateStreak Data.utc
    (Data.trackerOf [Data.entryAt 1 1 "2024-03-09T22:00"])
    Data.mar10_0930
  = Some {| streakCount := 0; streakType := "No streak yet" |}.
Proof. vm_compute. reflexivity. Qed.

(** ** Numbers *)

Lemma pow2_pos (e : Z) : (0 < pow2 e)%Q.
Proof.
  unfold pow2. destruct (Z.ltb_spec e 0) as [Hneg | Hpos].
  - reflexivity.
  - change 0%Q with (inject_Z 0). rewrite <- Zlt_Qlt.
    now apply Z.pow_pos_nonneg.
Qed.

Lemma roundEven_nonneg (q : Q) : (0 <= q)%Q -> 0 <= roundEven q.
Proof.
  intros Hq. assert (Hfloor := Qfloor_resp_le 0 q Hq).
  change (Qfloor 0) with 0 in Hfloor. unfold roundEven.
  destruct ((q - inject_Z (Qfloor q)) * 2 ?= 1)%Q;
    [destruct (Z.even (Qfloor q)) | | ]; lia.
Qed.

Lemma infinityOf_positive (sign : Z) : 0 <= sign -> (0 <= infinityOf sign)%Q.
Proof.
  intros Hs. unfold infinityOf.
  destruct (Z.ltb_spec sign 0); [lia | discriminate].
Qed.

Lemma signOf_nonneg (q : Q) : (0 <= q)%Q -> 0 <= signOf q.
Proof.
  unfold signOf, Qle. simpl. intros H. apply Z.sgn_nonneg. lia.
Qed.

Lemma roundDouble_nonneg (q : Q) : (0 <= q)%Q -> (0 <= roundDouble q)%Q.
Proof.
  intros Hq. unfold roundDouble.
  destruct (Qeq_bool q 0); [apply Qle_refl | ].
  cbv zeta.
  destruct (isFinite _);
    [ | apply infinityOf_positive; now apply signOf_nonneg].
  rewrite Qred_correct.
  set (e := Z.max (mag q - 53) (-1074)).
  apply Qmult_le_0_compat.
  - change 0%Q with (inject_Z 0). rewrite <- Zle_Qle.
    apply roundEven_nonneg. apply Qle_shift_div_l; [apply pow2_pos | ].
    now rewrite Qmult_0_l.
  - apply Qlt_le_weak. apply pow2_pos.
Qed.

(** A number at or above 0 that is not finite is [Infinity]. *)
Lemma infinite_positive (q : Q) :
  (0 <= q)%Q -> isFinite q = false -> (0 < q)%Q /\ signOf q = 1.
Proof.
  intros Hq Hinf.
  assert (Hpos : (0 < q)%Q).
  { unfold isFinite in Hinf. apply Qle_bool_false in Hinf.
    rewrite Qabs_pos in Hinf by exact Hq.
    apply Qlt_trans with maxDouble; [reflexivity | exact Hinf]. }
  split; [exact Hpos | ].
  unfold signOf. unfold Qlt in Hpos. simpl in Hpos.
  apply Z.sgn_pos. lia.
Qed.

Lemma fadd_nonneg (x y : Q) :
  (0 <= x)%Q -> (0 <= y)%Q -> exists z, fadd x y = Some z /\ (0 <= z)%Q.
Proof.
  intros Hx Hy. unfold fadd.
  destruct (isFinite x) eqn:Fx, (isFinite y) eqn:Fy.
  - eexists. split; [reflexivity | ]. apply roundDouble_nonneg.
    setoid_replace 0%Q with (0 + 0)%Q by ring. now apply Qplus_le_compat.
  - eexists. split; [reflexivity | ].
    apply infinityOf_positive. now apply signOf_nonneg.
  - eexists. split; [reflexivity | ].
    apply infinityOf_positive. now apply signOf_nonneg.
  - destruct (infinite_positive x Hx Fx) as [_ Sx].
    destruct (infinite_positive y Hy Fy) as [_ Sy].
    rewrite Sx, Sy. eexists. split; [reflexivity | ].
    apply infinityOf_positive. lia.
Qed.

Lemma fmul_nonneg (x y z : Q) :
  (0 <= x)%Q -> (0 <= y)%Q -> fmul x y = Some z -> (0 <= z)%Q.
Proof.
  intros Hx Hy. unfold fmul.
  destruct (isFinite x && isFinite y).
  - intros E. injection E as <-. apply roundDouble_nonneg.
    now apply Qmult_le_0_compat.
  - destruct (Qeq_bool x 0 || Qeq_bool y 0); [discriminate | ].
    intros E. injection E as <-. apply infinityOf_positive.
    apply Z.mul_nonneg_nonneg; now apply signOf_nonneg.
Qed.

Lemma fdiv_nonneg (x y z : Q) :
  (0 <= x)%Q -> (0 <= y)%Q -> fdiv x y = Some z -> (0 <= z)%Q.
Proof.
  intros Hx Hy. unfold fdiv.
  destruct (isFinite x), (isFinite y).
  - destruct (Qeq_bool y 0) eqn:Ey.
    + destruct (Qeq_bool x 0); [discriminate | ].
      intros E. injection E as <-. apply infinityOf_positive.
      now apply signOf_nonneg.
    + intros E. injection E as <-. apply roundDouble_nonneg.
      apply Qeq_bool_false in Ey.
      apply Qle_shift_div_l; [ | now rewrite Qmult_0_l].
      apply Qle_lt_or_eq in Hy. destruct Hy as [Hy | Hy]; [exact Hy | ].
      elim Ey. now symmetry.
  - intros E. injection E as <-. apply Qle_refl.
  - intros E. injection E as <-. apply infinityOf_positive.
    destruct (Qeq_bool y 0); [now apply signOf_nonneg | ].
    apply Z.mul_nonneg_nonneg; now apply signOf_nonneg.
  - discriminate.
Qed.

(** A value whose numbers are finite is read back as it was written. *)
Lemma stringify_safe : forall v : value, jsonSafe v = true -> stringify v = v.
Proof.
  fix IH 1. intros [ | b | q | s | items | fields];
    cbn [stringify jsonSafe]; intros H; try reflexivity.
  - now rewrite H.
  - f_equal. induction items as [ | x rest IHl]; [reflexivity | ].
    cbn [forallb] in H. apply andb_true_iff in H. destruct H as [Hx Hrest].
    cbn [map]. now rewrite (IH x Hx), (IHl Hrest).
  - f_equal. induction fields as [ | [key x] rest IHl]; [reflexivity | ].
    cbn [forallb] in H. apply andb_true_iff in H. destruct H as [Hx Hrest].
    cbn [map]. now rewrite (IH x Hx), (IHl Hrest).
Qed.

Lemma written_safe (v : value) : jsonSafe v = true -> Json v = written v.
Proof. intros H. unfold written. now rewrite stringify_safe. Qed.

Lemma jsonSafe_prop (data : value) :
  jsonSafe data = true ->
  forall key v, getProp (Some data) key = Some v -> jsonSafe v = true.
Proof.
  intros Hfinite key v Hkey.
  destruct data as [ | b | q | str | l | fields]; try discriminate.
  cbn [getProp] in Hkey. cbn [jsonSafe] in Hfinite.
  induction fields as [ | [k x] rest IH]; [discriminate | ].
  cbn [forallb] in Hfinite. apply andb_true_iff in Hfinite.
  cbn [lookup] in Hkey. destruct (String.eqb key k).
  - injection Hkey as <-. exact (proj1 Hfinite).
  - exact (IH (proj2 Hfinite) Hkey).
Qed.

Lemma jsonSafe_perm (l l' : list value) :
  Permutation l l' -> jsonSafe (VArr l) = true -> jsonSafe (VArr l') = true.
Proof.
  cbn [jsonSafe]. rewrite !forallb_forall. intros Hperm H x Hx.
  apply H. exact (Permutation_in x (Permutation_sym Hperm) Hx).
Qed.

(** An amount that [addEntry] accepts and a time value are finite. *)
Lemma amount_finite (amount : Q) :
  (0 <= amount)%Q -> (amount <= 1000)%Q -> isFinite amount = true.
Proof.
  intros H0 H1. unfold isFinite. apply Qle_bool_iff.
  rewrite Qabs_pos by exact H0.
  apply Qle_trans with 1000%Q; [exact H1 | ].
  unfold maxDouble, Qle. vm_compute. discriminate.
Qed.

Lemma time_finite (t : Z) : Z.abs t <= maxTime -> isFinite (inject_Z t) = true.
Proof.
  intros H. unfold isFinite. apply Qle_bool_iff.
  change (Qabs (inject_Z t)) with (inject_Z (Z.abs t)).
  apply Qle_trans with (inject_Z maxTime).
  - rewrite <- Zle_Qle. exact H.
  - unfold maxDouble, Qle. vm_compute. discriminate.
Qed.

(** ** The today aggregate *)

Section AggregateFacts.

Variable rt : Runtime.

Lemma allValid_filter (f : value -> bool) (l : list value) :
  allValid rt l -> allValid rt (filter f l).
Proof.
  unfold allValid. rewrite !Forall_forall.
  intros H x Hx. apply filter_In in Hx. now apply H.
Qed.

Lemma valid_amount (entry : value) :
  validateEntry rt (Some entry) = true ->
  getProp (Some entry) "amount" = Some (VNum (amountOf entry))
  /\ (0 < amountOf entry)%Q.
Proof.
  intros H.
  destruct (validateEntry_accepted rt _ H) as [_ _ [q [Hq Hpos]] _ _ _].
  unfold amountOf. rewrite Hq. auto.
Qed.

(** On validated entries [reduce] adds numbers: its result is the sum of
    the amounts as the doubles add up. *)
Lemma reduceAmount_valid (l : list value) :
  allValid rt l -> reduceAmount rt l = doubleSum l.
Proof.
  intros Hvalid. unfold reduceAmount, doubleSum. generalize (Some 0%Q).
  induction Hvalid as [ | e l He Hl IH]; intros acc; [reflexivity | ].
  cbn [fold_left]. destruct (valid_amount e He) as [Ha _]. rewrite Ha.
  cbn [addNum toNumber]. rewrite IH. f_equal.
Qed.

Lemma last24HoursEntries_window (this : Tracker) (now : Z) :
  0 <= now <= maxTime ->
  last24HoursEntries rt this now = filter (inLast24h rt now) (entries this).
Proof.
  intros Hnow. unfold last24HoursEntries. apply filter_ext. intros e.
  unfold inLast24h, dateGe, dateLe, timeClip.
  destruct (Z.leb_spec (Z.abs (now - 24 * 60 * 60 * 1000)) maxTime) as [_ | Hgt].
  - destruct (entryDate rt e); reflexivity.
  - unfold maxTime in *. lia.
Qed.

Lemma validateSettings_price (settings : option value) :
  validateSettings rt settings = true ->
  exists price,
    getProp settings "pricePerGram" = Some (VNum price) /\ (0 <= price)%Q.
Proof.
  unfold validateSettings. intros H. peel H. peel H. bool_facts.
  match goal with
  | T : jstype_eqb (typeof (getProp settings "pricePerGram")) TNumber = true |- _ =>
      apply typeof_number in T; destruct T as [price T]
  end.
  exists price. split; [assumption | ].
  match goal with
  | T : getProp settings "pricePerGram" = _,
    U : ltNum rt (getProp settings "pricePerGram") 0 = false |- _ =>
      rewrite T in U; unfold ltNum in U; simpl in U; bool_facts;
      now apply Qle_bool_iff
  end.
Qed.

(** The sum of validated amounts is a number, not below 0. *)
Lemma doubleSum_nonneg (l : list value) :
  allValid rt l -> exists sum, doubleSum l = Some sum /\ (0 <= sum)%Q.
Proof.
  intros Hvalid. unfold doubleSum.
  assert (Hfrom : forall acc : Q,
             (0 <= acc)%Q ->
             exists sum,
               fold_left (fun sum entry =>
                            bindOpt sum (fun s => fadd s (amountOf entry)))
                         l (Some acc) = Some sum
               /\ (0 <= sum)%Q).
  { induction Hvalid as [ | e l He Hl IH]; intros acc Hacc.
    - now exists acc.
    - cbn [fold_left bindOpt].
      destruct (valid_amount e He) as [_ Hpos].
      destruct (fadd_nonneg acc (amountOf e) Hacc (Qlt_le_weak _ _ Hpos))
        as [z [-> Hz]].
      now apply IH. }
  apply Hfrom. apply Qle_refl.
Qed.

End AggregateFacts.

(** Below 10^21 [toFixed] prints the nearest multiple of 10^-f. *)
Lemma toFixed_nearest (rt : Runtime) (x : Q) (f : nat) :
  (0 <= x)%Q -> (x < inject_Z (10 ^ 21))%Q ->
  exists n : Z,
    (inject_Z n - (1 # 2) <= x * inject_Z (pow10 f))%Q
    /\ (x * inject_Z (pow10 f) < inject_Z n + (1 # 2))%Q
    /\ toFixed rt x f =
       decimal (n / pow10 f)
       ++ match f with
          | O => ""
          | S _ => "." ++ fixedWidth f (n mod pow10 f)
          end.
Proof.
  intros Hx Hbig.
  exists (Qfloor (x * inject_Z (pow10 f) + (1 # 2))).
  split; [ | split].
  - assert (H := Qfloor_le (x * inject_Z (pow10 f) + (1 # 2))).
    apply (Qplus_le_l _ _ (1 # 2)). ring_simplify.
    ring_simplify in H. exact H.
  - assert (H := Qlt_floor (x * inject_Z (pow10 f) + (1 # 2))).
    rewrite inject_Z_plus in H.
    apply (Qplus_lt_l _ _ (1 # 2)).
    ring_simplify. ring_simplify in H. exact H.
  - unfold toFixed.
    assert (Hfin : isFinite x = true).
    { unfold isFinite. apply Qle_bool_iff. rewrite Qabs_pos by exact Hx.
      apply Qlt_le_weak. apply Qlt_trans with (inject_Z (10 ^ 21));
        [exact Hbig | reflexivity]. }
    assert (Hn : Qlt_bool x 0 = false).
    { unfold Qlt_bool. apply negb_false_iff. now apply Qle_bool_iff. }
    assert (Hsmall : Qle_bool (inject_Z (10 ^ 21)) x = false)
      by now apply Qle_bool_false.
    rewrite Hfin, Hn, Hsmall. reflexivity.
Qed.

(** C2, as stated, fails on [script.js]: an entry of 23:00 the evening
    before lies within the 24 hours up to 01:00 but is not counted there,
    where "today" is the calendar day. *)
Lemma legacy_today_is_calendar_day :
  inLast24h Data.utc Data.mar10_0100
    (Data.entryAt 1 1 "2024-03-09T23:00") = true
  /\ todayCount
       (Legacy.updateTodayStats Data.utc
          (Data.trackerOf [Data.entryAt 1 1 "2024-03-09T23:00"])
          Data.mar10_0100) = 0%nat
  /\ todayCount
       (updateTodayStats Data.utc
          (Data.trackerOf [Data.entryAt 1 1 "2024-03-09T23:00"])
          Data.mar10_0100) = 1%nat.
Proof.
  repeat split; vm_compute; reflexivity.
Qed.

(** C2, amended: in the extended tracker the today aggregate counts exactly
    the entries with a timestamp in the closed interval from [now] less 24
    hours to [now]; on validated entries and settings its sum is the sum of
    their amounts (a double sum, taken in the order of the list), printed
    with one decimal, and its cost is the product of that sum and the price
    per gram (a double product), printed with two decimals: below 10^21 the
    cents nearest to it.  So one entry of 0.15 g at a price of 0.5 shows
    0.1g and $0.07, the doubles read from 0.15 and 0.075 being below these
    literals.  In [script.js] the entries counted are those on the local
    calendar day of [now]. *)
Theorem updateTodayStats_rolling_window :
  forall (rt : Runtime) (this : Tracker) (now : Z),
    0 <= now <= maxTime ->
    let window := filter (inLast24h rt now) (entries this) in
    todayCount (updateTodayStats rt this now) = List.length window
    /\ (allValid rt (entries this) ->
        validateSettings rt (Some (settings this)) = true ->
        exists (sum price : Q),
          doubleSum window = Some sum
          /\ (0 <= sum)%Q
          /\ getProp (Some (settings this)) "pricePerGram" = Some (VNum price)
          /\ todayAmount (updateTodayStats rt this now)
             = toFixed rt sum 1 ++ "g"
          /\ todayCost (updateTodayStats rt this now)
             = "$" ++ toFixedN rt (fmul sum price) 2
          /\ (forall cost : Q,
                 fmul sum price = Some cost ->
                 (cost < inject_Z (10 ^ 21))%Q ->
                 exists cents : Z,
                   (inject_Z cents - (1 # 2) <= cost * 100)%Q
                   /\ (cost * 100 < inject_Z cents + (1 # 2))%Q
                   /\ todayCost (updateTodayStats rt this now)
                      = "$" ++ decimal (cents / 100) ++ "."
                        ++ fixedWidth 2 (cents mod 100)))
    /\ todayCount (Legacy.updateTodayStats rt this now)
       = List.length (filter (sameLocalDay rt now) (entries this))
    /\ updateTodayStats Data.utc
         {| entries := [Data.entryAt 1 Cases.g015 "2024-03-10T08:30"];
            goals := getDefaultGoals;
            settings := Cases.halfPrice |}
         Data.mar10_0930
       = {| todayCount := 1; todayAmount := "0.1g"; todayCost := "$0.07" |}.
Proof.
  intros rt this now Hnow window.
  assert (Hwin := last24HoursEntries_window rt this now Hnow).
  split; [ | split; [ | split]].
  - unfold updateTodayStats. cbn [todayCount]. now rewrite Hwin.
  - intros Hvalid Hsettings.
    destruct (validateSettings_price rt _ Hsettings) as [price [Hprice Hp0]].
    assert (Hwindow : allValid rt window) by now apply allValid_filter.
    destruct (doubleSum_nonneg rt window Hwindow) as [sum [Hsum Hs0]].
    assert (Hamount : last24HoursAmount rt this now = Some sum).
    { unfold last24HoursAmount. rewrite Hwin. fold window.
      now rewrite (reduceAmount_valid rt window Hwindow). }
    assert (Hcost : todayCost (updateTodayStats rt this now)
                    = "$" ++ toFixedN rt (fmul sum price) 2).
    { unfold updateTodayStats. cbn [todayCost]. unfold last24HoursCost.
      rewrite Hamount, Hprice. reflexivity. }
    exists sum, price.
    split; [exact Hsum | ]. split; [exact Hs0 | ]. split; [exact Hprice | ].
    split; [ | split; [exact Hcost | ]].
    + unfold updateTodayStats. cbn [todayAmount]. now rewrite Hamount.
    + intros cost Hmul Hbig.
      assert (Hc0 : (0 <= cost)%Q)
        by exact (fmul_nonneg sum price cost Hs0 Hp0 Hmul).
      destruct (toFixed_nearest rt cost 2 Hc0 Hbig) as [cents [Hlo [Hhi Hstr]]].
      exists cents. split; [exact Hlo | ]. split; [exact Hhi | ].
      rewrite Hcost, Hmul. cbn [toFixedN]. rewrite Hstr. reflexivity.
  - unfold Legacy.updateTodayStats. cbn [todayCount].
    unfold Legacy.todayEntries. f_equal. apply filter_ext. intros e.
    unfold sameLocalDay, Legacy.toDateString, Legacy.dateStringEqb, localDay.
    destruct (entryDate rt e); reflexivity.
  - vm_compute. reflexivity.
Qed.

(** Witness for C2 (amended): two entries, one of them older than 24
    hours. *)
Lemma updateTodayStats_rolling_window_witness :
  0 <= Data.mar10_0930 <= maxTime
  /\ allValid Data.utc
       [Data.entryAt 2 (1 # 2) "2024-03-09T22:00";
        Data.entryAt 1 1 "2024-03-08T22:00"]
  /\ todayCount
       (updateTodayStats Data.utc
          (Data.trackerOf [Data.entryAt 2 (1 # 2) "2024-03-09T22:00";
                           Data.entryAt 1 1 "2024-03-08T22:00"])
          Data.mar10_0930)
     = List.length
         (filter (inLast24h Data.utc Data.mar10_0930)
                 [Data.entryAt 2 (1 # 2) "2024-03-09T22:00";
                  Data.entryAt 1 1 "2024-03-08T22:00"])
  /\ exists sum price : Q,
      doubleSum (filter (inLast24h Data.utc Data.mar10_0930)
                        [Data.entryAt 2 (1 # 2) "2024-03-09T22:00";
                         Data.entryAt 1 1 "2024-03-08T22:00"]) = Some sum
      /\ todayCost
           (updateTodayStats Data.utc
              (Data.trackerOf [Data.entryAt 2 (1 # 2) "2024-03-09T22:00";
                               Data.entryAt 1 1 "2024-03-08T22:00"])
              Data.mar10_0930)
         = "$" ++ toFixedN Data.utc (fmul sum price) 2.
Proof.
  assert (Hnow : 0 <= Data.mar10_0930 <= maxTime)
    by (unfold Data.mar10_0930, maxTime; lia).
  assert (Hvalid : allValid Data.utc
                     [Data.entryAt 2 (1 # 2) "2024-03-09T22:00";
                      Data.entryAt 1 1 "2024-03-08T22:00"])
    by (repeat constructor).
  assert (Hsettings : validateSettings Data.utc (Some getDefaultSettings)
                      = true) by reflexivity.
  split; [exact Hnow | ]. split; [exact Hvalid | ].
  destruct (updateTodayStats_rolling_window Data.utc
              (Data.trackerOf [Data.entryAt 2 (1 # 2) "2024-03-09T22:00";
                               Data.entryAt 1 1 "2024-03-08T22:00"])
              Data.mar10_0930 Hnow) as [Hcount [Hsum _]].
  split; [exact Hcount | ].
  destruct (Hsum Hvalid Hsettings) as [sum [price [Hs [_ [_ [_ [Hcost _]]]]]]].
  exists sum, price. split; [exact Hs | exact Hcost].
Defined.

Example updateTodayStats_sample :
  updateTodayStats Data.utc
    (Data.trackerOf [Data.entryAt 2 (1 # 2) "2024-03-09T22:00";
                     Data.entryAt 1 1 "2024-03-08T22:00"])
    Data.mar10_0930
  = {| todayCount := 1; todayAmount := "0.5g"; todayCost := "$5.00" |}.
Proof. vm_compute. reflexivity. Qed.

(** ** Import and export *)

Section ImportFacts.

Variable rt : Runtime.

Lemma validateGoals_record (v : value) :
  validateGoals rt (Some v) = true -> exists fields, v = VObj fields.
Proof.
  unfold validateGoals. intros H. peel H. peel H. bool_facts.
  destruct v as [ | b | q | s | l | f]; simpl in *; try discriminate.
  now exists f.
Qed.

Lemma validateSettings_record (v : value) :
  validateSettings rt (Some v) = true -> exists fields, v = VObj fields.
Proof.
  unfold validateSettings. intros H. peel H. peel H. bool_facts.
  destruct v as [ | b | q | s | l | f]; simpl in *; try discriminate.
  now exists f.
Qed.

Lemma allValid_forallb (l : list value) :
  allValid rt l <-> forallb (fun entry => validateEntry rt (Some entry)) l = true.
Proof.
  unfold allValid. rewrite forallb_forall, Forall_forall. tauto.
Qed.

(** The import validator accepts exactly the records with an array of valid
    entries, valid goals and valid settings. *)
Lemma validateImportData_iff (data : value) :
  validateImportData rt (Some data) = true
  <-> isRecord data = true
      /\ isArray (getProp (Some data) "entries") = true
      /\ validateGoals rt (getProp (Some data) "goals") = true
      /\ validateSettings rt (getProp (Some data) "settings") = true
      /\ allValid rt (arrayItems (getProp (Some data) "entries")).
Proof.
  rewrite allValid_forallb. unfold validateImportData.
  destruct data as [ | b | q | s | l | f]; simpl;
    try (split; [try rewrite orb_true_r; discriminate
                | intros [H _]; discriminate]).
  destruct (isArray (lookup "entries" f)); simpl;
      [ | split; [discriminate | intros [_ [H _]]; discriminate]].
    destruct (validateGoals rt (lookup "goals" f)); simpl;
      [ | split; [discriminate | intros [_ [_ [H _]]]; discriminate]].
    destruct (validateSettings rt (lookup "settings" f)); simpl;
      [ | split; [discriminate | intros [_ [_ [_ [H _]]]]; discriminate]].
  tauto.
Qed.

End ImportFacts.

(** C4: a document that is no record, or whose [entries] are no array, or
    whose goals or settings fail their validators, or that holds an entry
    failing the entry validator, is rejected as a whole: tracker and storage
    stay as they were, whatever the answer to the confirmation would be. *)
Theorem importData_rejects_atomically :
  forall (rt : Runtime) (this : Tracker) (ls : Storage) (data : value)
         (confirmed : bool) (now : Z),
    isRecord data = false
    \/ isArray (getProp (Some data) "entries") = false
    \/ validateGoals rt (getProp (Some data) "goals") = false
    \/ validateSettings rt (getProp (Some data) "settings") = false
    \/ (exists entry,
           In entry (arrayItems (getProp (Some data) "entries"))
           /\ validateEntry rt (Some entry) = false) ->
    validateImportData rt (Some data) = false
    /\ importData rt this ls (Json data) confirmed now
       = (this, ls,
          Some (Error "Invalid data format. Please select a valid export file.")).
Proof.
  intros rt this ls data confirmed now Hbad.
  assert (Hrej : validateImportData rt (Some data) = false).
  { destruct (validateImportData rt (Some data)) eqn:E; [ | reflexivity].
    apply validateImportData_iff in E.
    destruct E as [Hrec [Harr [Hg [Hs Hall]]]].
    destruct Hbad as [H | [H | [H | [H | [entry [Hin H]]]]]]; try congruence.
    unfold allValid in Hall. rewrite Forall_forall in Hall.
    specialize (Hall entry Hin). congruence. }
  split; [exact Hrej | ].
  unfold importData. rewrite Hrej. reflexivity.
Qed.

(** Witness for C4: the document with one entry of amount 0. *)
Lemma importData_rejects_atomically_witness :
  importData Data.utc
    (Data.trackerOf [Data.entryAt 1 1 "2024-03-09T22:00"]) []
    (Json (VObj [("entries",
                  VArr [Data.entryAt 2 1 "2024-03-10T08:30";
                        Data.entryAt 3 0 "2024-03-10T09:00"]);
                 ("goals", getDefaultGoals);
                 ("settings", getDefaultSettings)]))
    true Data.mar10_0930
  = (Data.trackerOf [Data.entryAt 1 1 "2024-03-09T22:00"], [],
     Some (Error "Invalid data format. Please select a valid export file.")).
Proof.
  apply importData_rejects_atomically.
  right. right. right. right.
  exists (Data.entryAt 3 0 "2024-03-10T09:00").
  split; [right; left; reflexivity | reflexivity].
Defined.

(** C3, as stated, fails.  An amount read from [1e999] is infinite and
    passes the entry validator, so the tracker that starts on a store with
    such an entry holds it, with goals and settings that pass their
    validators.  The export writes [null] for the amount, and the import
    refuses the exported document: another tracker does not get the
    entry. *)
Lemma export_of_infinite_amount_refused :
  let this :=
    newTracker Data.utc
      [("weedTrackerEntries",
        Json (VArr [Data.entryAt 1 infinity "2024-03-09T22:00"]))] in
  entries this = [Data.entryAt 1 infinity "2024-03-09T22:00"]
  /\ allValid Data.utc (entries this)
  /\ validateGoals Data.utc (Some (goals this)) = true
  /\ validateSettings Data.utc (Some (settings this)) = true
  /\ exists data,
      exportData Data.utc this Data.mar10_0830
      = (Some data, Success "Data exported successfully!")
      /\ getProp (Some data) "entries"
         = Some (VArr [VObj [("id", VNum 1); ("amount", VNull);
                             ("method", VStr "joint");
                             ("timestamp", VStr "2024-03-09T22:00")]])
      /\ importData Data.utc Data.noTracker [] (Json data) true
                    Data.mar10_0930
         = (Data.noTracker, [],
            Some (Error
                    "Invalid data format. Please select a valid export file."))
      /\ entries (fst (fst (importData Data.utc Data.noTracker [] (Json data)
                                       true Data.mar10_0930)))
         <> entries this.
Proof.
  cbv zeta.
  assert (Hentries :
            entries (newTracker Data.utc
                       [("weedTrackerEntries",
                         Json (VArr [Data.entryAt 1 infinity
                                                  "2024-03-09T22:00"]))])
            = [Data.entryAt 1 infinity "2024-03-09T22:00"])
    by (vm_compute; reflexivity).
  split; [exact Hentries | ].
  split; [rewrite Hentries; repeat constructor | ].
  split; [vm_compute; reflexivity | ].
  split; [vm_compute; reflexivity | ].
  eexists. split; [vm_compute; reflexivity | ].
  split; [vm_compute; reflexivity | ].
  split; [vm_compute; reflexivity | ].
  vm_compute. discriminate.
Qed.

(** C3, amended: for a state whose entries, goals and settings pass their
    validators and hold only finite numbers, the export produces a
    document, and importing that document (into any tracker, once
    confirmed) yields the entries, the goals and the settings of the
    exported state. *)
Theorem export_import_roundtrip :
  forall (rt : Runtime) (this other : Tracker) (ls : Storage) (now now' : Z),
    allValid rt (entries this) ->
    validateGoals rt (Some (goals this)) = true ->
    validateSettings rt (Some (settings this)) = true ->
    jsonSafe (VArr (entries this)) = true ->
    jsonSafe (goals this) = true ->
    jsonSafe (settings this) = true ->
    toISOString rt now <> "" ->
    isValidDate rt (Some (VStr (toISOString rt now))) = true ->
    exists data,
      fst (exportData rt this now) = Some data
      /\ entries (fst (fst (importData rt other ls (Json data) true now')))
         = entries this
      /\ goals (fst (fst (importData rt other ls (Json data) true now')))
         = goals this
      /\ settings (fst (fst (importData rt other ls (Json data) true now')))
         = settings this.
Proof.
  intros rt this other ls now now' Hentries Hgoals Hsettings
         Fentries Fgoals Fsettings Hiso Hdate.
  set (data := VObj [("entries", VArr (entries this));
                     ("goals", goals this);
                     ("settings", settings this);
                     ("exportDate", VStr (toISOString rt now))]).
  assert (Hexport : validateExportData rt (Some data) = true).
  { unfold validateExportData, data. simpl.
    rewrite Hgoals, Hsettings. simpl.
    apply String.eqb_neq in Hiso. rewrite Hiso. simpl.
    rewrite Hdate. reflexivity. }
  assert (Himport : validateImportData rt (Some data) = true).
  { apply validateImportData_iff. unfold data. simpl.
    repeat split; assumption. }
  assert (Hwritten : stringify data = data).
  { apply stringify_safe. unfold data. cbn [jsonSafe forallb] in *.
    now rewrite Fentries, Fgoals, Fsettings. }
  exists data. split.
  - unfold exportData. fold data. rewrite Hexport, Hwritten. reflexivity.
  - unfold importData. rewrite Himport. cbn [negb].
    unfold performImport. unfold data at 1 3 4. cbn [getProp lookup String.eqb Ascii.eqb Bool.eqb].
    destruct (validateGoals_record rt _ Hgoals) as [fg Hfg].
    destruct (validateSettings_record rt _ Hsettings) as [fs Hfs].
    unfold data. simpl. rewrite Hfg, Hfs. simpl. auto.
Qed.

(** Witness for C3: the tracker with two entries, exported and imported
    into an empty tracker. *)
Lemma export_import_roundtrip_witness :
  exists data,
    fst (exportData Data.utc Cases.tracker Data.mar10_0830) = Some data
    /\ entries (fst (fst (importData Data.utc Data.noTracker [] (Json data)
                                     true Data.mar10_0930)))
       = entries Cases.tracker
    /\ goals (fst (fst (importData Data.utc Data.noTracker [] (Json data)
                                   true Data.mar10_0930)))
       = goals Cases.tracker
    /\ settings (fst (fst (importData Data.utc Data.noTracker [] (Json data)
                                      true Data.mar10_0930)))
       = settings Cases.tracker.
Proof.
  apply (export_import_roundtrip Data.utc Cases.tracker Data.noTracker []
           Data.mar10_0830 Data.mar10_0930).
  - repeat constructor.
  - reflexivity.
  - reflexivity.
  - reflexivity.
  - reflexivity.
  - reflexivity.
  - discriminate.
  - reflexivity.
Defined.

(** ** Sorting *)

Section SortFacts.

Context {A : Type} (after : A -> A -> bool).

Lemma insertSorted_perm (x : A) (l : list A) :
  Permutation (insertSorted after x l) (x :: l).
Proof.
  induction l as [ | y l IH]; simpl.
  - apply Permutation_refl.
  - destruct (after x y).
    + apply Permutation_trans with (y :: x :: l).
      * now apply perm_skip.
      * apply perm_swap.
    + apply Permutation_refl.
Qed.

Lemma sortBy_perm (l : list A) : Permutation (sortBy after l) l.
Proof.
  induction l as [ | x l IH]; simpl.
  - apply perm_nil.
  - apply Permutation_trans with (x :: sortBy after l).
    + apply insertSorted_perm.
    + now apply perm_skip.
Qed.

(** Stability: a class [p] of elements that the comparator never puts one
    after the other keeps its order. *)
Lemma insertSorted_filter (p : A -> bool) (x : A) (l : list A) :
  (forall y, after x y = true -> p x = true -> p y = false) ->
  filter p (insertSorted after x l) = filter p (x :: l).
Proof.
  intros Hp. induction l as [ | y l IH]; [reflexivity | ].
  simpl. destruct (after x y) eqn:E; [ | reflexivity].
  simpl. rewrite IH. simpl.
  destruct (p x) eqn:Px; [ | reflexivity].
  now rewrite (Hp y E eq_refl).
Qed.

Lemma sortBy_filter (p : A -> bool) (l : list A) :
  (forall x y, after x y = true -> p x = true -> p y = false) ->
  filter p (sortBy after l) = filter p l.
Proof.
  intros Hp. induction l as [ | x l IH]; [reflexivity | ].
  simpl. rewrite insertSorted_filter by (intros y; apply Hp).
  simpl. now rewrite IH.
Qed.

(** Sortedness, for a comparator that agrees with a transitive order [ord]
    on the elements in [P]. *)
Variable P : A -> Prop.
Variable ord : A -> A -> Prop.

Hypothesis after_ord :
  forall x y, P x -> P y -> if after x y then ord y x else ord x y.
Hypothesis ord_trans :
  forall x y z, P x -> P y -> P z -> ord x y -> ord y z -> ord x z.

Lemma insertSorted_sorted (x : A) (l : list A) :
  P x -> Forall P l -> StronglySorted ord l ->
  StronglySorted ord (insertSorted after x l).
Proof.
  intros Px Hl Hs. induction Hs as [ | y l Hs IH Hy]; simpl.
  - constructor; constructor.
  - inversion Hl as [ | y' l' Py Pl]; subst.
    assert (Hxy := after_ord x y Px Py).
    destruct (after x y).
    + constructor; [now apply IH | ].
      apply (Permutation_Forall (Permutation_sym (insertSorted_perm x l))).
      now constructor.
    + constructor; [now constructor | ].
      constructor; [exact Hxy | ].
      rewrite Forall_forall in *. intros z Hz.
      apply (ord_trans x y z); auto.
Qed.

Lemma sortBy_sorted (l : list A) :
  Forall P l -> StronglySorted ord (sortBy after l).
Proof.
  induction 1 as [ | x l Px Pl IH]; simpl.
  - constructor.
  - apply insertSorted_sorted; [exact Px | | exact IH].
    apply (Permutation_Forall (Permutation_sym (sortBy_perm l))).
    exact Pl.
Qed.

End SortFacts.

Lemma StronglySorted_filter {A : Type} (R : A -> A -> Prop) (f : A -> bool)
      (l : list A) :
  StronglySorted R l -> StronglySorted R (filter f l).
Proof.
  induction 1 as [ | x l Hs IH Hx]; simpl.
  - constructor.
  - destruct (f x); [ | exact IH].
    constructor; [exact IH | ].
    rewrite Forall_forall in *. intros y Hy.
    apply filter_In in Hy. now apply Hx.
Qed.

Section EntryOrderFacts.

Variable rt : Runtime.

Lemma valid_hasDate (entry : value) :
  validateEntry rt (Some entry) = true -> hasDate rt entry.
Proof.
  intros H. destruct (validateEntry_accepted rt _ H) as [_ _ _ _ Ht _].
  exact Ht.
Qed.

Lemma allValid_hasDate (l : list value) :
  allValid rt l -> Forall (hasDate rt) l.
Proof.
  unfold allValid. apply Forall_impl. exact valid_hasDate.
Qed.

Lemma sortEntries_perm (l : list value) :
  Permutation (sortEntries rt l) l.
Proof. apply sortBy_perm. Qed.

Lemma sortEntries_sorted (l : list value) :
  Forall (hasDate rt) l -> sortedDesc rt (sortEntries rt l).
Proof.
  intros H. unfold sortedDesc, sortEntries.
  apply (sortBy_sorted (entryAfter rt) (hasDate rt)); [ | | exact H].
  - intros x y [tx Hx] [ty Hy]. unfold entryAfter, dateGt, dateGe.
    rewrite Hx, Hy. destruct (Z.ltb_spec tx ty); apply Z.leb_le; lia.
  - intros x y z [tx Hx] [ty Hy] [tz Hz]. unfold dateGe.
    rewrite Hx, Hy, Hz. rewrite !Z.leb_le. lia.
Qed.

Lemma sortEntries_stable (t : Z) (l : list value) :
  filter (hasTime rt t) (sortEntries rt l) = filter (hasTime rt t) l.
Proof.
  apply sortBy_filter. intros x y Hafter Hx.
  unfold entryAfter, dateGt in Hafter. unfold hasTime, timeEq in *.
  destruct (entryDate rt y) as [ty | ]; [ | reflexivity].
  destruct (entryDate rt x) as [tx | ]; [ | discriminate].
  apply Z.eqb_eq in Hx. apply Z.ltb_lt in Hafter. apply Z.eqb_neq. lia.
Qed.

Lemma sortEntries_valid (l : list value) :
  allValid rt l -> allValid rt (sortEntries rt l).
Proof.
  unfold allValid.
  apply (Permutation_Forall (Permutation_sym (sortEntries_perm l))).
Qed.

Lemma loadEntries_sorted_valid (ls : Storage) :
  sortedDesc rt (loadEntries rt ls) /\ allValid rt (loadEntries rt ls).
Proof.
  assert (Hnil : sortedDesc rt [] /\ allValid rt [])
    by (split; constructor).
  unfold loadEntries.
  destruct (getItem "weedTrackerEntries" ls) as [[parsed | ] | ]; try exact Hnil.
  destruct parsed as [ | b | q | s | items | f]; try exact Hnil.
  assert (Hv : allValid rt
                 (filter (fun entry => validateEntry rt (Some entry)) items)).
  { unfold allValid. rewrite Forall_forall. intros x Hx.
    now apply filter_In in Hx. }
  split.
  - apply sortEntries_sorted. now apply allValid_hasDate.
  - now apply sortEntries_valid.
Qed.

Lemma addEntry_success (this : Tracker) (ls : Storage) (form : FormInput)
      (now : Z) (this' : Tracker) (ls' : Storage) (message : string) :
  addEntry rt this ls form now = (this', ls', Success message) ->
  exists entry,
    validateEntry rt (Some entry) = true
    /\ getProp (Some entry) "timestamp" = Some (VStr (formTime form))
    /\ entries this' = sortEntries rt (app (entries this) [entry]).
Proof.
  unfold addEntry. intros H.
  destruct (formAmount form) as [amount | ]; [ | discriminate].
  repeat match type of H with
         | (if ?c then _ else _) = _ => destruct c eqn:?; [discriminate | ]
         end.
  match goal with
  | Ev : negb (validateEntry rt (Some ?e)) = false |- _ =>
      exists e; apply negb_false_iff in Ev; split; [exact Ev | ]
  end.
  injection H as <- _ _.
  split; reflexivity.
Qed.

End EntryOrderFacts.

Section MutationFacts.

Variable rt : Runtime.

Lemma addEntry_cases (this : Tracker) (ls : Storage) (form : FormInput)
      (now : Z) :
  (exists message, addEntry rt this ls form now = (this, ls, Error message))
  \/ (exists this' ls' message,
         addEntry rt this ls form now = (this', ls', Success message)).
Proof.
  unfold addEntry.
  destruct (formAmount form) as [amount | ]; [ | left; eexists; reflexivity].
  repeat match goal with
         | |- context [if ?c then (this, ls, Error _) else _] =>
             destruct c; [left; eexists; reflexivity | ]
         end.
  right. do 3 eexists. reflexivity.
Qed.

Lemma deleteEntry_entries (this : Tracker) (ls : Storage) (id : option value) :
  entries (fst (fst (deleteEntry this ls id))) = entries this
  \/ exists n,
      entries (fst (fst (deleteEntry this ls id)))
      = filter (fun entry => strictNeNum (getProp (Some entry) "id") n)
               (entries this).
Proof.
  unfold deleteEntry.
  destruct id as [[ | b | n | s | l | f] | ]; try (left; reflexivity).
  destruct (Qeq_bool n 0); [left; reflexivity | ].
  right. exists n.
  match goal with
  | |- context [if ?c then _ else _] => destruct c
  end; reflexivity.
Qed.

(** The validated entries stay validated under every mutation, the import
    included. *)
Lemma importData_valid (this : Tracker) (ls : Storage) (file : stored)
      (confirmed : bool) (now : Z) :
  allValid rt (entries this) ->
  allValid rt (entries (fst (fst (importData rt this ls file confirmed now)))).
Proof.
  intros Hv. unfold importData.
  destruct file as [data | ]; [ | exact Hv].
  destruct (validateImportData rt (Some data)) eqn:E; [ | exact Hv].
  cbn [negb]. destruct confirmed; [ | exact Hv].
  apply validateImportData_iff in E.
  destruct E as [_ [Harr [_ [_ Hall]]]].
  unfold performImport.
  destruct (getProp (Some data) "entries") as [[ | b | q | s | items | f] | ];
    try discriminate.
  exact Hall.
Qed.

Lemma step_valid (state : Tracker * Storage) (a : Action) :
  allValid rt (entries (fst state)) ->
  allValid rt (entries (fst (step rt state a))).
Proof.
  intros Hv. destruct a as [form now | id | file confirmed now | ];
    cbn [step].
  - destruct (addEntry_cases (fst state) (snd state) form now)
      as [[m Hm] | [this' [ls' [m Hm]]]]; rewrite Hm; [exact Hv | ].
    destruct (addEntry_success rt _ _ _ _ _ _ _ Hm) as [entry [He [_ Heq]]].
    cbn [fst]. rewrite Heq. apply sortEntries_valid.
    unfold allValid. apply Forall_app. split; [exact Hv | ].
    constructor; [exact He | constructor].
  - destruct (deleteEntry_entries (fst state) (snd state) id) as [-> | [n ->]];
      [exact Hv | now apply allValid_filter].
  - now apply importData_valid.
  - constructor.
Qed.

(** Whatever the user does, the entries in memory are validated ones. *)
Lemma run_valid (ls : Storage) (actions : list Action) :
  allValid rt (entries (fst (run rt ls actions))).
Proof.
  unfold run.
  assert (H0 : allValid rt (entries (fst (newTracker rt ls, ls))))
    by apply loadEntries_sorted_valid.
  revert H0. generalize (newTracker rt ls, ls).
  induction actions as [ | a actions IH]; intros state H0; [exact H0 | ].
  cbn [fold_left]. apply IH. now apply step_valid.
Qed.

Lemma step_sorted (state : Tracker * Storage) (a : Action) :
  isImport a = false ->
  allValid rt (entries (fst state)) ->
  sortedDesc rt (entries (fst state)) ->
  sortedDesc rt (entries (fst (step rt state a))).
Proof.
  intros Ha Hv Hs. destruct a as [form now | id | file confirmed now | ];
    cbn [step]; try discriminate.
  - destruct (addEntry_cases (fst state) (snd state) form now)
      as [[m Hm] | [this' [ls' [m Hm]]]]; rewrite Hm; [exact Hs | ].
    destruct (addEntry_success rt _ _ _ _ _ _ _ Hm) as [entry [He [_ Heq]]].
    cbn [fst]. rewrite Heq. apply sortEntries_sorted.
    apply allValid_hasDate. unfold allValid. apply Forall_app.
    split; [exact Hv | ]. constructor; [exact He | constructor].
  - destruct (deleteEntry_entries (fst state) (snd state) id) as [-> | [n ->]];
      [exact Hs | now apply StronglySorted_filter].
  - constructor.
Qed.

(** As long as nothing is imported, the entries in memory are sorted
    descending by timestamp. *)
Lemma run_sorted (ls : Storage) (actions : list Action) :
  forallb (fun a => negb (isImport a)) actions = true ->
  sortedDesc rt (entries (fst (run rt ls actions))).
Proof.
  unfold run.
  assert (H0 : sortedDesc rt (entries (fst (newTracker rt ls, ls)))
               /\ allValid rt (entries (fst (newTracker rt ls, ls))))
    by apply loadEntries_sorted_valid.
  revert H0. generalize (newTracker rt ls, ls).
  induction actions as [ | a actions IH]; intros state [Hs Hv] Hno;
    [exact Hs | ].
  cbn [forallb] in Hno. apply andb_true_iff in Hno. destruct Hno as [Ha Hno].
  apply negb_true_iff in Ha.
  cbn [fold_left]. apply IH; [ | exact Hno].
  split; [now apply step_sorted | now apply step_valid].
Qed.

(** What [addEntry] returns: on an accepted form the old entries with the
    record of the form behind them, sorted; on a refused one the tracker and
    the store as they were. *)
Lemma addEntry_result (this : Tracker) (ls : Storage) (form : FormInput)
      (now : Z) :
  match snd (addEntry rt this ls form now) with
  | Success _ =>
      exists amount,
        formAmount form = Some amount
        /\ validateEntry rt (Some (entryOfForm rt form amount now)) = true
        /\ entries (fst (fst (addEntry rt this ls form now)))
           = sortEntries rt (app (entries this)
                                 [entryOfForm rt form amount now])
  | Error _ => fst (addEntry rt this ls form now) = (this, ls)
  end.
Proof.
  unfold addEntry.
  destruct (formAmount form) as [amount | ]; [ | reflexivity].
  fold (entryOfForm rt form amount now).
  repeat match goal with
         | |- context [if ?c then (this, ls, Error _) else _] =>
             destruct c eqn:?; [reflexivity | ]
         end.
  cbn [fst snd entries]. exists amount. split; [reflexivity | ].
  split; [ | reflexivity].
  match goal with
  | E : negb (validateEntry rt _) = false |- _ =>
      now apply negb_false_iff in E
  end.
Qed.

End MutationFacts.

(** C5, as stated, fails on [script.js]: a backdated entry is put in front
    of a later one. *)
Lemma legacy_addEntry_breaks_order :
  sortedDesc Data.utc
    (entries (Data.trackerOf [Data.entryAt 1 1 "2024-03-10T08:30"]))
  /\ ~ sortedDesc Data.utc
         (entries
            (fst (fst (Legacy.addEntry Data.utc
                         (Data.trackerOf [Data.entryAt 1 1 "2024-03-10T08:30"])
                         [] 1 "joint" "" "" "2024-03-09T22:00"
                         Data.mar10_0930)))).
Proof.
  split.
  - repeat constructor.
  - intros H. simpl in H. inversion H as [ | a l Hs Hall]; subst.
    inversion Hall as [ | b l' Hab _]; subst.
    vm_compute in Hab. discriminate.
Qed.

(** C5, amended: in the extended tracker
    - loading yields the entries of the stored array that pass the entry
      validator, sorted descending by timestamp, those of one timestamp in
      their stored order;
    - on validated entries, which the entries in memory always are, an
      accepted [addEntry] yields the old entries and the record of the form,
      whatever its timestamp, sorted descending (also when the old entries
      were not), those of one timestamp in their old order with the new one
      last; a refused [addEntry] changes nothing;
    - [deleteEntry] keeps a sorted list sorted;
    - so the entries are sorted after every load, [addEntry], [deleteEntry]
      and clearing, as long as nothing was imported;
    - the sort rearranges the list and keeps entries of one timestamp in
      their order.
    In [script.js], [addEntry] puts the new entry in front. *)
Theorem entries_sorted_after_load_add_delete :
  forall (rt : Runtime),
    (forall ls,
        sortedDesc rt (loadEntries rt ls)
        /\ allValid rt (loadEntries rt ls)
        /\ forall items,
            getItem "weedTrackerEntries" ls = Some (Json (VArr items)) ->
            let validEntries :=
              filter (fun entry => validateEntry rt (Some entry)) items in
            Permutation (loadEntries rt ls) validEntries
            /\ forall t,
                filter (hasTime rt t) (loadEntries rt ls)
                = filter (hasTime rt t) validEntries)
    /\ (forall ls actions, allValid rt (entries (fst (run rt ls actions))))
    /\ (forall this ls form now,
           allValid rt (entries this) ->
           match snd (addEntry rt this ls form now) with
           | Success _ =>
               let entries' :=
                 entries (fst (fst (addEntry rt this ls form now))) in
               sortedDesc rt entries'
               /\ exists amount,
                   formAmount form = Some amount
                   /\ Permutation entries'
                        (entryOfForm rt form amount now :: entries this)
                   /\ forall t,
                       filter (hasTime rt t) entries'
                       = filter (hasTime rt t)
                           (app (entries this)
                                [entryOfForm rt form amount now])
           | Error _ => fst (addEntry rt this ls form now) = (this, ls)
           end)
    /\ (forall this ls id,
           sortedDesc rt (entries this) ->
           sortedDesc rt (entries (fst (fst (deleteEntry this ls id)))))
    /\ (forall ls actions,
           forallb (fun a => negb (isImport a)) actions = true ->
           sortedDesc rt (entries (fst (run rt ls actions))))
    /\ (forall l,
           Permutation (sortEntries rt l) l
           /\ (Forall (hasDate rt) l -> sortedDesc rt (sortEntries rt l))
           /\ forall t,
               filter (hasTime rt t) (sortEntries rt l)
               = filter (hasTime rt t) l)
    /\ (forall this ls amount method notes mood timestamp now,
           exists entry,
             getProp (Some entry) "timestamp" = Some (VStr timestamp)
             /\ entries (fst (fst (Legacy.addEntry rt this ls amount method
                                     notes mood timestamp now)))
                = entry :: entries this).
Proof.
  intros rt.
  split; [ | split; [ | split; [ | split; [ | split; [ | split]]]]].
  - intros ls.
    split; [apply loadEntries_sorted_valid | ].
    split; [apply loadEntries_sorted_valid | ].
    intros items Hitems validEntries.
    assert (Hload : loadEntries rt ls = sortEntries rt validEntries)
      by (unfold loadEntries; now rewrite Hitems).
    rewrite Hload. split.
    + apply sortEntries_perm.
    + intros t. apply sortEntries_stable.
  - apply run_valid.
  - intros this ls form now Hv.
    assert (H := addEntry_result rt this ls form now).
    destruct (snd (addEntry rt this ls form now)) as [m | m]; [ | exact H].
    destruct H as [amount [Hamount [Hentry Heq]]]. cbv zeta. rewrite Heq.
    assert (Hall : allValid rt (app (entries this)
                                    [entryOfForm rt form amount now])).
    { unfold allValid. apply Forall_app. split; [exact Hv | ].
      constructor; [exact Hentry | constructor]. }
    split.
    + apply sortEntries_sorted. now apply allValid_hasDate.
    + exists amount. split; [exact Hamount | ]. split.
      * apply Permutation_trans
          with (app (entries this) [entryOfForm rt form amount now]).
        -- apply sortEntries_perm.
        -- apply Permutation_sym. apply Permutation_cons_append.
      * intros t. apply sortEntries_stable.
  - intros this ls id Hs.
    destruct (deleteEntry_entries this ls id) as [-> | [n ->]].
    + exact Hs.
    + now apply StronglySorted_filter.
  - intros ls actions. apply run_sorted.
  - intros l. split; [apply sortEntries_perm | ].
    split; [apply sortEntries_sorted | ].
    intros t. apply sortEntries_stable.
  - intros this ls amount method notes mood timestamp now.
    eexists. split; [ | reflexivity]. reflexivity.
Qed.

(** Witness for C5 (amended): a backdated entry added to two validated
    entries that are not in order, and an entry deleted from a sorted
    list. *)
Lemma entries_sorted_after_load_add_delete_witness :
  allValid Data.utc (entries (Data.trackerOf (rev Cases.twoEntries)))
  /\ snd (addEntry Data.utc (Data.trackerOf (rev Cases.twoEntries)) []
                   (Data.formAt 1 "2024-03-09T23:00") Data.mar10_0930)
     = Success "Entry added successfully!"
  /\ sortedDesc Data.utc
       (entries
          (fst (fst (addEntry Data.utc (Data.trackerOf (rev Cases.twoEntries))
                              [] (Data.formAt 1 "2024-03-09T23:00")
                              Data.mar10_0930))))
  /\ sortedDesc Data.utc
       (entries (fst (fst (deleteEntry Cases.tracker [] (Some (VNum 2)))))).
Proof.
  assert (Hvalid : allValid Data.utc
                     (entries (Data.trackerOf (rev Cases.twoEntries))))
    by (repeat constructor).
  assert (Hsuccess :
            snd (addEntry Data.utc (Data.trackerOf (rev Cases.twoEntries)) []
                          (Data.formAt 1 "2024-03-09T23:00") Data.mar10_0930)
            = Success "Entry added successfully!")
    by (vm_compute; reflexivity).
  split; [exact Hvalid | ]. split; [exact Hsuccess | ].
  destruct (entries_sorted_after_load_add_delete Data.utc)
    as [_ [_ [Hadd [Hdelete _]]]].
  split.
  - specialize (Hadd (Data.trackerOf (rev Cases.twoEntries)) []
                     (Data.formAt 1 "2024-03-09T23:00") Data.mar10_0930
                     Hvalid).
    rewrite Hsuccess in Hadd. exact (proj1 Hadd).
  - apply Hdelete. repeat constructor.
Defined.

(** The order that the extended [addEntry] gives these three entries. *)
Example addEntry_sorts_unordered :
  map (fun entry => getProp (Some entry) "timestamp")
      (entries
         (fst (fst (addEntry Data.utc (Data.trackerOf (rev Cases.twoEntries))
                             [] (Data.formAt 1 "2024-03-09T23:00")
                             Data.mar10_0930))))
  = [Some (VStr "2024-03-10T08:30"); Some (VStr "2024-03-09T23:00");
     Some (VStr "2024-03-09T22:00")].
Proof. vm_compute. reflexivity. Qed.

(** The extended [addEntry] on the data of the counterexample: the
    backdated entry goes behind the later one. *)
Example addEntry_backdated :
  map (fun entry => getProp (Some entry) "timestamp")
      (entries
         (fst (fst (addEntry Data.utc
                      (Data.trackerOf [Data.entryAt 1 1 "2024-03-10T08:30"])
                      [] (Data.formAt 1 "2024-03-09T22:00")
                      Data.mar10_0930))))
  = [Some (VStr "2024-03-10T08:30"); Some (VStr "2024-03-09T22:00")].
Proof. vm_compute. reflexivity. Qed.

(** [performImport] takes the entries in the order of the document; they
    are not sorted before the next load or [addEntry]. *)
Example performImport_keeps_document_order :
  map (fun entry => getProp (Some entry) "timestamp")
      (entries
         (fst (fst (importData Data.utc (Data.trackerOf []) []
                      (Json (VObj [("entries",
                                    VArr [Data.entryAt 1 1 "2024-03-09T22:00";
                                          Data.entryAt 2 1 "2024-03-10T08:30"]);
                                   ("goals", getDefaultGoals);
                                   ("settings", getDefaultSettings)]))
                      true Data.mar10_0930))))
  = [Some (VStr "2024-03-09T22:00"); Some (VStr "2024-03-10T08:30")].
Proof. vm_compute. reflexivity. Qed.

(** ** Stash progress *)

Section ProgressFacts.

Variable rt : Runtime.

(** The width of the bar: the minimum of used/budget x 100 and 100.  On a
    budget above 0 and a sum that is not below 0 it is, when it is a number,
    between 0 and 100. *)
Lemma clamped_width (used budget pct : Q) :
  (0 <= used)%Q -> (0 < budget)%Q ->
  minNum (mulNum (fdiv used budget) (Some 100%Q)) (Some 100%Q) = Some pct ->
  (0 <= pct)%Q /\ (pct <= 100)%Q.
Proof.
  intros Hused Hbudget.
  destruct (fdiv used budget) as [ratio | ] eqn:Ediv; [ | discriminate].
  assert (Hratio : (0 <= ratio)%Q)
    by exact (fdiv_nonneg used budget ratio Hused (Qlt_le_weak _ _ Hbudget) Ediv).
  cbn [mulNum liftNum].
  destruct (fmul ratio 100) as [scaled | ] eqn:Emul; [ | discriminate].
  assert (Hscaled : (0 <= scaled)%Q)
    by exact (fmul_nonneg ratio 100 scaled Hratio ltac:(discriminate) Emul).
  cbn [minNum liftNum]. intros E. injection E as <-. split.
  - apply Q.min_glb; [exact Hscaled | discriminate].
  - apply Q.le_min_r.
Qed.

End ProgressFacts.

(** C6: for a stash goal, an amount of 0 or less (or none) gives 0% and the
    prompt.  Otherwise the total used is the sum of the amounts of the
    entries from the stash start date on (from [now] on when that date is
    [null]), the remainder is the stash amount less that total, the bar
    shows the minimum of used/stash x 100 and 100, and the text tells what
    is left when the remainder is above 0 and by how much the stash is
    depleted otherwise, with one decimal.  Sum, difference, quotient and
    product are those of the doubles.  This is stated for the entries and
    goals that the tracker holds: entries that pass the entry validator, and
    a stash amount that is absent or a number, as it is in goals that pass
    the goal validator.  A stash of 10 of which 7 and 5 were used shows 100
    and "Stash depleted by 2.0g"; a stash of 0.8 of which 0.7 and 0.1 were
    used shows "0.0g left in stash", the sum of the two doubles being below
    the double 0.8. *)
Theorem updateGoalProgress_stash :
  forall (rt : Runtime) (this : Tracker) (now : Z),
    getProp (Some (goals this)) "goalType" = Some (VStr "stash") ->
    ((getProp (Some (goals this)) "stashAmount" = None
      \/ getProp (Some (goals this)) "stashAmount" = Some VNull
      \/ exists stash : Q,
          getProp (Some (goals this)) "stashAmount" = Some (VNum stash)
          /\ (stash <= 0)%Q) ->
     updateGoalProgress rt this now
     = {| progress := Some 0%Q;
          goalText := "Set a stash goal to track your weed supply" |})
    /\ (forall stash : Q,
           getProp (Some (goals this)) "stashAmount" = Some (VNum stash) ->
           (0 < stash)%Q ->
           allValid rt (entries this) ->
           exists totalUsed : Q,
             doubleSum (filter (usedSince rt (stashStart rt this now))
                               (entries this))
             = Some totalUsed
             /\ (0 <= totalUsed)%Q
             /\ progress (updateGoalProgress rt this now)
                = minNum (mulNum (fdiv totalUsed stash) (Some 100%Q))
                         (Some 100%Q)
             /\ (forall pct : Q,
                    progress (updateGoalProgress rt this now) = Some pct ->
                    (0 <= pct)%Q /\ (pct <= 100)%Q)
             /\ goalText (updateGoalProgress rt this now)
                = match fsub stash totalUsed with
                  | Some remaining =>
                      if Qlt_bool 0 remaining
                      then toFixed rt remaining 1 ++ "g left in stash"
                      else "Stash depleted by "
                           ++ toFixed rt (Qabs remaining) 1 ++ "g"
                  | None => "Stash depleted by NaNg"
                  end)
    /\ ((getProp (Some (goals this)) "stashStartDate" = Some VNull
         \/ getProp (Some (goals this)) "stashStartDate" = None ->
         stashStart rt this now = Some now)
        /\ forall s,
            getProp (Some (goals this)) "stashStartDate" = Some (VStr s) ->
            s <> "" ->
            stashStart rt this now = newDate rt (Some (VStr s)))
    /\ (validateGoals rt (Some (goals this)) = true ->
        getProp (Some (goals this)) "stashAmount" = None
        \/ exists stash : Q,
            getProp (Some (goals this)) "stashAmount" = Some (VNum stash)
            /\ (0 <= stash)%Q)
    /\ updateGoalProgress Data.utc
         (Data.stashTracker 10 [Data.entryAt 2 7 "2024-03-10T08:30";
                                Data.entryAt 1 5 "2024-03-09T22:00"])
         Data.mar10_0930
       = {| progress := Some 100%Q; goalText := "Stash depleted by 2.0g" |}
    /\ updateGoalProgress Data.utc
         (Data.stashTracker Cases.g08
            [Data.entryAt 2 Cases.g07 "2024-03-10T08:30";
             Data.entryAt 1 Cases.g01 "2024-03-09T22:00"])
         Data.mar10_0930
       = {| progress := Some (7036874417766399 # 70368744177664);
            goalText := "0.0g left in stash" |}.
Proof.
  intros rt this now Htype.
  unfold updateGoalProgress. rewrite Htype. cbn [strictEqStr].
  rewrite String.eqb_refl.
  split; [ | split; [ | split; [ | split;
    [ | split; vm_compute; reflexivity]]]].
  - unfold updateStashProgress.
    intros [Hnone | [Hnull | [stash [Hstash Hle]]]].
    + now rewrite Hnone.
    + now rewrite Hnull.
    + rewrite Hstash. cbn [truthy]. unfold leNum. cbn [toNumber].
      apply Qle_bool_iff in Hle. rewrite Hle. now rewrite orb_true_r.
  - intros stash Hstash Hpos Hvalid.
    unfold updateStashProgress. rewrite Hstash.
    cbn [truthy]. unfold leNum. cbn [toNumber].
    assert (Hnz : Qeq_bool stash 0 = false).
    { apply Qeq_bool_false. intros E. rewrite E in Hpos.
      now apply (Qlt_irrefl 0). }
    assert (Hnle : Qle_bool stash 0 = false) by now apply Qle_bool_false.
    rewrite Hnz, Hnle. cbn [negb orb].
    assert (Hdate :
              (if truthy (getProp (Some (goals this)) "stashStartDate")
               then newDate rt (getProp (Some (goals this)) "stashStartDate")
               else Some now) = stashStart rt this now).
    { unfold stashStart.
      now destruct (getProp (Some (goals this)) "stashStartDate"). }
    rewrite Hdate.
    assert (Hfilter :
              filter (fun entry =>
                        dateGe (entryDate rt entry) (stashStart rt this now))
                     (entries this)
              = filter (usedSince rt (stashStart rt this now)) (entries this))
      by reflexivity.
    rewrite Hfilter.
    set (since := filter (usedSince rt (stashStart rt this now))
                         (entries this)).
    assert (Hsince : allValid rt since) by now apply allValid_filter.
    destruct (doubleSum_nonneg rt since Hsince) as [totalUsed [Hsum Hused]].
    rewrite (reduceAmount_valid rt since Hsince), Hsum.
    exists totalUsed. cbn [progress goalText].
    split; [reflexivity | ]. split; [exact Hused | ].
    split; [reflexivity | ]. split.
    + intros pct Hpct.
      exact (clamped_width totalUsed stash pct Hused Hpos Hpct).
    + cbn [subNum liftNum]. destruct (fsub stash totalUsed); reflexivity.
  - unfold stashStart. split.
    + intros [-> | ->]; reflexivity.
    + intros s -> Hne. cbn [truthy]. apply String.eqb_neq in Hne.
      now rewrite Hne.
  - intros Hgoals. exact (proj2 (proj2 (validateGoals_inv rt _ Hgoals))).
Qed.

(** Witness for C6: a stash of 10 g of which 12 g were used. *)
Lemma updateGoalProgress_stash_witness :
  (0 < 10)%Q
  /\ exists totalUsed : Q,
      doubleSum
        (filter (usedSince Data.utc (Some 1709251200000))
                [Data.entryAt 2 7 "2024-03-10T08:30";
                 Data.entryAt 1 5 "2024-03-09T22:00"]) = Some totalUsed
      /\ progress
           (updateGoalProgress Data.utc
              (Data.stashTracker 10 [Data.entryAt 2 7 "2024-03-10T08:30";
                                     Data.entryAt 1 5 "2024-03-09T22:00"])
              Data.mar10_0930)
         = minNum (mulNum (fdiv totalUsed 10) (Some 100%Q)) (Some 100%Q)
      /\ goalText
           (updateGoalProgress Data.utc
              (Data.stashTracker 10 [Data.entryAt 2 7 "2024-03-10T08:30";
                                     Data.entryAt 1 5 "2024-03-09T22:00"])
              Data.mar10_0930)
         = match fsub 10 totalUsed with
           | Some remaining =>
               if Qlt_bool 0 remaining
               then toFixed Data.utc remaining 1 ++ "g left in stash"
               else "Stash depleted by "
                    ++ toFixed Data.utc (Qabs remaining) 1 ++ "g"
           | None => "Stash depleted by NaNg"
           end.
Proof.
  split; [reflexivity | ].
  assert (Hvalid : allValid Data.utc
                     (entries
                        (Data.stashTracker 10
                           [Data.entryAt 2 7 "2024-03-10T08:30";
                            Data.entryAt 1 5 "2024-03-09T22:00"])))
    by (repeat constructor).
  destruct (proj1 (proj2 (updateGoalProgress_stash Data.utc
                     (Data.stashTracker 10
                        [Data.entryAt 2 7 "2024-03-10T08:30";
                         Data.entryAt 1 5 "2024-03-09T22:00"])
                     Data.mar10_0930 eq_refl))
                  10%Q eq_refl eq_refl Hvalid)
    as [totalUsed [Hsum [_ [Hprogress [_ Htext]]]]].
  exists totalUsed.
  split; [exact Hsum | ]. split; [exact Hprogress | exact Htext].
Defined.

(** With 2.5 g used the bar is at 25%. *)
Example updateGoalProgress_stash_left :
  updateGoalProgress Data.utc
    (Data.stashTracker 10 [Data.entryAt 1 (5 # 2) "2024-03-09T22:00"])
    Data.mar10_0930
  = {| progress := Some 25%Q; goalText := "7.5g left in stash" |}.
Proof. vm_compute. reflexivity. Qed.

(** ** Time since the last entry *)

Section TimeSinceFacts.

Variable rt : Runtime.

(** The scan ends on an entry of the list with the greatest time value. *)
Lemma mostRecent_scan (l : list value) :
  Forall (hasDate rt) l ->
  forall (e0 : value) (t0 : Z),
    exists e t,
      fold_left (fun acc entry =>
                   if dateGt (entryDate rt entry) (snd acc)
                   then (entry, entryDate rt entry) else acc)
                l (e0, Some t0) = (e, Some t)
      /\ (e = e0 /\ t = t0 \/ In e l /\ entryDate rt e = Some t)
      /\ t0 <= t
      /\ (forall e' t', In e' l -> entryDate rt e' = Some t' -> t' <= t).
Proof.
  induction 1 as [ | x l [tx Hx] Hl IH]; intros e0 t0.
  - exists e0, t0. simpl.
    split; [reflexivity | ]. split; [now left | ]. split; [lia | ].
    intros e' t' [].
  - cbn [fold_left snd]. rewrite Hx. cbn [dateGt].
    destruct (Z.ltb_spec t0 tx) as [Hlt | Hge].
    + destruct (IH x tx) as [e [t [Hfold [Hin [Hle Hmax]]]]].
      exists e, t. split; [exact Hfold | ]. split; [ | split].
      * right. destruct Hin as [[-> ->] | [Hin He]].
        -- split; [now left | exact Hx].
        -- split; [now right | exact He].
      * lia.
      * intros e' t' [<- | Hin'] He'.
        -- rewrite Hx in He'. injection He' as <-. exact Hle.
        -- now apply (Hmax e').
    + destruct (IH e0 t0) as [e [t [Hfold [Hin [Hle Hmax]]]]].
      exists e, t. split; [exact Hfold | ]. split; [ | split].
      * destruct Hin as [Hin | [Hin He]]; [now left | ].
        right. split; [now right | exact He].
      * exact Hle.
      * intros e' t' [<- | Hin'] He'.
        -- rewrite Hx in He'. injection He' as <-. lia.
        -- now apply (Hmax e').
Qed.

Lemma mostRecent_latest (first : value) (rest : list value) :
  Forall (hasDate rt) (first :: rest) ->
  exists e t,
    mostRecent rt first (first :: rest) = (e, Some t)
    /\ In e (first :: rest)
    /\ entryDate rt e = Some t
    /\ (forall e' t',
           In e' (first :: rest) -> entryDate rt e' = Some t' -> t' <= t).
Proof.
  intros H. inversion H as [ | x l [t0 H0] _]; subst.
  unfold mostRecent. rewrite H0.
  destruct (mostRecent_scan (first :: rest) H first t0)
    as [e [t [Hfold [Hin [Hle Hmax]]]]].
  exists e, t. split; [exact Hfold | ].
  destruct Hin as [[-> ->] | [Hin He]].
  - split; [now left | ]. split; [exact H0 | exact Hmax].
  - split; [exact Hin | ]. split; [exact He | exact Hmax].
Qed.

Lemma floor_months (d : Z) : Qfloor (inject_Z d / (3044 # 100)) = d * 100 / 3044.
Proof. reflexivity. Qed.

Lemma floor_years (d : Z) : Qfloor (inject_Z d / (36525 # 100)) = d * 100 / 36525.
Proof. reflexivity. Qed.

End TimeSinceFacts.

(** C7, for an entry dated after [now].  [addEntry] accepts a form whose
    time lies two days ahead.  The whole counts of years, months, days,
    hours and minutes since that entry are -1, -1, -2, -48 and -2880, none
    of them zero, so the coarsest unit with a non-zero count is the year.
    The code tests each count for being above 0, takes none of the coarser
    units and shows -2880 minutes: not the coarsest unit with a non-zero
    count, and four digits where the comment in the code says "no more than
    2 digits". *)
Lemma calculateTimeSinceLastJoint_future_entry :
  snd (addEntry Data.utc Data.noTracker []
                (Data.formAt 1 "2024-03-12T09:30") Data.mar10_0930)
  = Success "Entry added successfully!"
  /\ map (entryDate Data.utc)
         (entries (fst (fst (addEntry Data.utc Data.noTracker []
                                      (Data.formAt 1 "2024-03-12T09:30")
                                      Data.mar10_0930))))
     = [Some (Data.mar10_0930 + 2 * msPerDay)]
  /\ unitCounts (Data.mar10_0930 - (Data.mar10_0930 + 2 * msPerDay))
     = [("years", -1); ("months", -1); ("days", -2); ("hours", -48);
        ("minutes", -2880)]
  /\ coarsestUnit (fun c => negb (c =? 0))
       (Data.mar10_0930 - (Data.mar10_0930 + 2 * msPerDay)) = ("years", -1)
  /\ calculateTimeSinceLastJoint Data.utc
       (fst (fst (addEntry Data.utc Data.noTracker []
                           (Data.formAt 1 "2024-03-12T09:30")
                           Data.mar10_0930)))
       Data.mar10_0930
     = {| tsValue := Some (-2880); tsUnit := "minutes";
          tsText := "Last usage: 1g Joint at 09:30" |}.
Proof.
  repeat split; vm_compute; reflexivity.
Qed.

(** The time since the last entry when no entry is dated after [now].
    Without entries the result is 0 hours, "No usage yet".  With validated
    entries, in any order, the entry used is one with the greatest
    timestamp, and the unit shown is the coarsest of years (days / 365.25),
    months (days / 30.44), days, hours and minutes whose whole count is
    above 0, the minutes when there is none; the value shown is that count,
    99 at most. *)
Theorem calculateTimeSinceLastJoint_coarsest_positive :
  forall (rt : Runtime) (this : Tracker) (now : Z),
    (entries this = [] ->
     calculateTimeSinceLastJoint rt this now
     = {| tsValue := Some 0; tsUnit := "hours"; tsText := "No usage yet" |})
    /\ (entries this <> [] ->
        allValid rt (entries this) ->
        exists latest t,
          In latest (entries this)
          /\ entryDate rt latest = Some t
          /\ (forall e t',
                 In e (entries this) -> entryDate rt e = Some t' -> t' <= t)
          /\ tsUnit (calculateTimeSinceLastJoint rt this now)
             = fst (coarsestUnit (fun c => 0 <? c) (now - t))
          /\ tsValue (calculateTimeSinceLastJoint rt this now)
             = Some (Z.min (snd (coarsestUnit (fun c => 0 <? c) (now - t))) 99)).
Proof.
  intros rt this now. split.
  - intros Hnil. unfold calculateTimeSinceLastJoint. now rewrite Hnil.
  - intros Hne Hvalid.
    unfold calculateTimeSinceLastJoint.
    destruct (entries this) as [ | first rest] eqn:E; [contradiction | ].
    destruct (mostRecent_latest rt first rest (allValid_hasDate rt _ Hvalid))
      as [latest [t [Hscan [Hin [Hdate Hmax]]]]].
    exists latest, t.
    split; [exact Hin | ]. split; [exact Hdate | ]. split; [exact Hmax | ].
    rewrite Hscan. cbn [mapOpt gtZeroZ minZ99].
    rewrite floor_months, floor_years.
    unfold coarsestUnit, unitCounts. cbn [find snd].
    change ((now - t) / (1000 * 60 * 60 * 24)) with (wholeDays (now - t)).
    change ((now - t) / (1000 * 60 * 60)) with (wholeHours (now - t)).
    change ((now - t) / (1000 * 60)) with (wholeMinutes (now - t)).
    change (wholeDays (now - t) * 100 / 36525) with (wholeYears (now - t)).
    change (wholeDays (now - t) * 100 / 3044) with (wholeMonths (now - t)).
    destruct (0 <? wholeYears (now - t)); [split; reflexivity | ].
    destruct (0 <? wholeMonths (now - t)); [split; reflexivity | ].
    destruct (0 <? wholeDays (now - t)); [split; reflexivity | ].
    destruct (0 <? wholeHours (now - t)); [split; reflexivity | ].
    destruct (0 <? wholeMinutes (now - t)); split; reflexivity.
Qed.

(** Two entries, the later one second. *)
Lemma calculateTimeSinceLastJoint_coarsest_positive_witness :
  allValid Data.utc [Data.entryAt 1 1 "2024-03-09T22:00";
                     Data.entryAt 2 1 "2024-03-10T08:30"]
  /\ exists latest t,
      In latest [Data.entryAt 1 1 "2024-03-09T22:00";
                 Data.entryAt 2 1 "2024-03-10T08:30"]
      /\ entryDate Data.utc latest = Some t
      /\ tsUnit (calculateTimeSinceLastJoint Data.utc
                   (Data.trackerOf [Data.entryAt 1 1 "2024-03-09T22:00";
                                    Data.entryAt 2 1 "2024-03-10T08:30"])
                   Data.mar10_0930)
         = fst (coarsestUnit (fun c => 0 <? c) (Data.mar10_0930 - t)).
Proof.
  assert (Hvalid : allValid Data.utc
                     [Data.entryAt 1 1 "2024-03-09T22:00";
                      Data.entryAt 2 1 "2024-03-10T08:30"])
    by (repeat constructor).
  split; [exact Hvalid | ].
  destruct (proj2 (calculateTimeSinceLastJoint_coarsest_positive Data.utc
                     (Data.trackerOf [Data.entryAt 1 1 "2024-03-09T22:00";
                                      Data.entryAt 2 1 "2024-03-10T08:30"])
                     Data.mar10_0930)
                  ltac:(discriminate) Hvalid)
    as [latest [t [Hin [Hdate [_ [Hunit _]]]]]].
  exists latest, t. repeat split; assumption.
Defined.

Example calculateTimeSinceLastJoint_one_hour :
  calculateTimeSinceLastJoint Data.utc
    (Data.trackerOf [Data.entryAt 1 1 "2024-03-09T22:00";
                     Data.entryAt 2 (1 # 2) "2024-03-10T08:30"])
    Data.mar10_0930
  = {| tsValue := Some 1; tsUnit := "hours";
       tsText := "Last usage: 0.5g Joint at 08:30" |}.
Proof. vm_compute. reflexivity. Qed.

Example calculateTimeSinceLastJoint_capped :
  calculateTimeSinceLastJoint Data.utc
    (Data.trackerOf [Data.entryAt 1 1 "2023-11-01T08:30"])
    Data.mar10_0930
  = {| tsValue := Some 4; tsUnit := "months";
       tsText := "Last usage: 1g Joint at 08:30" |}.
Proof. vm_compute. reflexivity. Qed.

(** ** Backups *)

(** *** Decimal keys and their order *)

Lemma ascii_compare_refl (c : ascii) : Ascii.compare c c = Eq.
Proof. unfold Ascii.compare. apply N.compare_refl. Qed.

Lemma compare_append_same (p a b : string) :
  String.compare (p ++ a) (p ++ b) = String.compare a b.
Proof.
  induction p as [ | c p IH]; simpl; [reflexivity | ].
  now rewrite ascii_compare_refl.
Qed.

Lemma prefix_append (p s : string) : String.prefix p (p ++ s) = true.
Proof.
  induction p as [ | c p IH]; simpl.
  - now destruct s.
  - destruct (ascii_dec c c) as [_ | Hne]; [exact IH | now elim Hne].
Qed.

Lemma digitChar_compare (a b : Z) :
  0 <= a <= 9 -> 0 <= b <= 9 ->
  Ascii.compare (digitChar a) (digitChar b) = (a ?= b).
Proof.
  intros Ha Hb.
  assert (Ea : a = 0 \/ a = 1 \/ a = 2 \/ a = 3 \/ a = 4 \/ a = 5 \/ a = 6
               \/ a = 7 \/ a = 8 \/ a = 9) by lia.
  assert (Eb : b = 0 \/ b = 1 \/ b = 2 \/ b = 3 \/ b = 4 \/ b = 5 \/ b = 6
               \/ b = 7 \/ b = 8 \/ b = 9) by lia.
  repeat match goal with
         | H : _ \/ _ |- _ => destruct H as [-> | H]
         end; subst; reflexivity.
Qed.

Lemma pow10_pos (w : nat) : 0 < pow10 w.
Proof. unfold pow10. apply Z.pow_pos_nonneg; lia. Qed.

Lemma pow10_succ (w : nat) : pow10 (S w) = 10 * pow10 w.
Proof.
  unfold pow10. rewrite Nat2Z.inj_succ. rewrite Z.pow_succ_r; lia.
Qed.

(** Strings of digits of one width are ordered like the numbers. *)
Lemma fixedWidth_compare (w : nat) :
  forall a b,
    0 <= a < pow10 w -> 0 <= b < pow10 w ->
    String.compare (fixedWidth w a) (fixedWidth w b) = (a ?= b).
Proof.
  induction w as [ | w IH]; intros a b Ha Hb.
  - unfold pow10 in *. simpl in *.
    assert (a = 0) by lia. assert (b = 0) by lia. subst. reflexivity.
  - rewrite pow10_succ in Ha, Hb.
    assert (Hp := pow10_pos w).
    assert (Da := Z.div_mod a (pow10 w) ltac:(lia)).
    assert (Db := Z.div_mod b (pow10 w) ltac:(lia)).
    assert (Ma := Z.mod_pos_bound a (pow10 w) Hp).
    assert (Mb := Z.mod_pos_bound b (pow10 w) Hp).
    assert (Qa : 0 <= a / pow10 w <= 9).
    { split; [apply Z.div_pos; lia | ].
      apply Z.lt_succ_r. apply Z.div_lt_upper_bound; lia. }
    assert (Qb : 0 <= b / pow10 w <= 9).
    { split; [apply Z.div_pos; lia | ].
      apply Z.lt_succ_r. apply Z.div_lt_upper_bound; lia. }
    cbn [fixedWidth String.compare].
    rewrite (digitChar_compare _ _ Qa Qb).
    rewrite (IH _ _ Ma Mb).
    destruct (Z.compare_spec (a / pow10 w) (b / pow10 w)) as [E | L | G].
    + destruct (Z.compare_spec (a mod pow10 w) (b mod pow10 w)) as [E' | L' | G'];
        symmetry.
      * apply Z.compare_eq_iff. congruence.
      * apply Z.compare_lt_iff. rewrite Da, Db, E. lia.
      * apply Z.compare_gt_iff. rewrite Da, Db, E. lia.
    + symmetry. apply Z.compare_lt_iff. rewrite Da, Db. nia.
    + symmetry. apply Z.compare_gt_iff. rewrite Da, Db. nia.
Qed.

Lemma numDigitsFrom_target (n : Z) (k : nat) :
  forall (fuel w : nat),
    (w <= k)%nat -> (k - w <= fuel)%nat ->
    (forall j, (w <= j < k)%nat -> pow10 j <= n) ->
    n < pow10 k ->
    numDigitsFrom fuel w n = k.
Proof.
  induction fuel as [ | fuel IH]; intros w Hw Hfuel Hlow Hhigh.
  - simpl. lia.
  - simpl. destruct (Z.ltb_spec n (pow10 w)) as [Hlt | Hge].
    + destruct (Nat.eq_dec w k) as [-> | Hne]; [reflexivity | ].
      specialize (Hlow w ltac:(lia)). lia.
    + apply IH; try lia.
      * destruct (Nat.eq_dec w k) as [-> | Hne]; lia.
      * intros j Hj. apply Hlow. lia.
Qed.

Lemma thirteenDigits_decimal (t : Z) :
  thirteenDigits t -> intToString t = fixedWidth 13 t.
Proof.
  unfold thirteenDigits. intros Ht.
  unfold intToString.
  destruct (Z.ltb_spec t 0) as [Hneg | _]; [lia | ].
  unfold decimal. f_equal. unfold numDigits.
  apply numDigitsFrom_target.
  - lia.
  - assert (Hlog : Z.log2 (10 ^ 12) <= Z.log2 t) by (apply Z.log2_le_mono; lia).
    change (Z.log2 (10 ^ 12)) with 39 in Hlog. lia.
  - intros j Hj.
    apply Z.le_trans with (pow10 12); [ | unfold pow10; simpl; lia].
    unfold pow10. apply Z.pow_le_mono_r; lia.
  - unfold pow10. simpl. lia.
Qed.

Lemma backupKey_compare (a b : Z) :
  thirteenDigits a -> thirteenDigits b ->
  String.compare (backupKey a) (backupKey b) = (a ?= b).
Proof.
  intros Ha Hb. unfold backupKey.
  rewrite compare_append_same.
  rewrite (thirteenDigits_decimal a Ha), (thirteenDigits_decimal b Hb).
  unfold thirteenDigits in *.
  apply fixedWidth_compare; unfold pow10; simpl; lia.
Qed.

Lemma backupKey_inj (a b : Z) :
  thirteenDigits a -> thirteenDigits b -> backupKey a = backupKey b -> a = b.
Proof.
  intros Ha Hb E. apply Z.compare_eq_iff.
  rewrite <- (backupKey_compare a b Ha Hb). rewrite E.
  clear. induction (backupKey b) as [ | c s IH]; simpl; [reflexivity | ].
  now rewrite ascii_compare_refl.
Qed.

Lemma strAfter_backupKey (a b : Z) :
  thirteenDigits a -> thirteenDigits b ->
  strAfter (backupKey a) (backupKey b) = (b <? a).
Proof.
  intros Ha Hb. unfold strAfter, String.ltb.
  rewrite (backupKey_compare b a Hb Ha). unfold Z.ltb.
  destruct (b ?= a); reflexivity.
Qed.

(** *** The keys in the store *)

Lemma filter_all {A : Type} (f : A -> bool) (l : list A) :
  (forall x, f x = true) -> filter f l = l.
Proof.
  intros H. induction l as [ | x l IH]; simpl; [reflexivity | ].
  now rewrite H, IH.
Qed.

Lemma backupKeysOf_cons (k : string) (v : stored) (ls : Storage) :
  backupKeysOf ((k, v) :: ls)
  = if isBackupKey k then k :: backupKeysOf ls else backupKeysOf ls.
Proof. reflexivity. Qed.

Lemma isBackupKey_backupKey (t : Z) : isBackupKey (backupKey t) = true.
Proof.
  unfold isBackupKey, backupKey. rewrite prefix_append. reflexivity.
Qed.

Lemma backupKeysOf_setItem_other (k : string) (v : stored) (ls : Storage) :
  isBackupKey k = false ->
  backupKeysOf (setItem k v ls) = backupKeysOf ls.
Proof.
  intros Hk. induction ls as [ | [k' v'] ls IH]; simpl.
  - rewrite backupKeysOf_cons, Hk. reflexivity.
  - destruct (String.eqb_spec k k') as [<- | Hne].
    + now rewrite !backupKeysOf_cons, Hk.
    + rewrite !backupKeysOf_cons, IH. reflexivity.
Qed.

Lemma backupKeysOf_setItem_new (k : string) (v : stored) (ls : Storage) :
  isBackupKey k = true ->
  ~ In k (backupKeysOf ls) ->
  backupKeysOf (setItem k v ls) = app (backupKeysOf ls) [k].
Proof.
  intros Hk. induction ls as [ | [k' v'] ls IH]; intros Hnew; simpl.
  - rewrite backupKeysOf_cons, Hk. reflexivity.
  - rewrite backupKeysOf_cons in Hnew.
    destruct (String.eqb_spec k k') as [<- | Hne].
    + rewrite Hk in Hnew. elim Hnew. now left.
    + rewrite !backupKeysOf_cons.
      destruct (isBackupKey k').
      * simpl. f_equal. apply IH. intros Hin. apply Hnew. now right.
      * now apply IH.
Qed.

Lemma backupKeysOf_removeItem (k : string) (ls : Storage) :
  backupKeysOf (removeItem k ls)
  = filter (fun key => negb (String.eqb k key)) (backupKeysOf ls).
Proof.
  induction ls as [ | [k' v'] ls IH]; [reflexivity | ].
  unfold removeItem in *. cbn [filter fst].
  destruct (String.eqb k k') eqn:E; cbn [negb].
  - rewrite backupKeysOf_cons, IH.
    destruct (isBackupKey k'); [ | reflexivity].
    cbn [filter]. now rewrite E.
  - rewrite !backupKeysOf_cons, IH.
    destruct (isBackupKey k'); [ | reflexivity].
    cbn [filter]. now rewrite E.
Qed.

Lemma backupKeysOf_removeAll (removed : list string) :
  forall ls,
    backupKeysOf (fold_left (fun store key => removeItem key store) removed ls)
    = filter (fun key => negb (existsb (fun r => String.eqb r key) removed))
             (backupKeysOf ls).
Proof.
  induction removed as [ | r removed IH]; intros ls; cbn [fold_left existsb].
  - symmetry. apply filter_all. reflexivity.
  - rewrite IH, backupKeysOf_removeItem.
    induction (backupKeysOf ls) as [ | k l IHl]; [reflexivity | ].
    cbn [filter]. destruct (String.eqb r k); cbn [negb orb filter].
    + exact IHl.
    + destruct (existsb (fun r0 => String.eqb r0 k) removed); cbn [negb];
        now rewrite IHl.
Qed.

Lemma filter_length_perm {A : Type} (f : A -> bool) (l l' : list A) :
  Permutation l l' ->
  List.length (filter f l) = List.length (filter f l').
Proof.
  induction 1 as [ | x l l' _ IH | x y l | l l' l'' _ IH1 _ IH2]; simpl.
  - reflexivity.
  - destruct (f x); simpl; congruence.
  - destruct (f x), (f y); reflexivity.
  - congruence.
Qed.

(** Whatever the store holds, at most 5 backup keys are left by the
    cleanup. *)
Lemma cleanupOldBackups_at_most_5 (ls : Storage) :
  (List.length (backupKeysOf (cleanupOldBackups ls)) <= 5)%nat.
Proof.
  unfold cleanupOldBackups. rewrite backupKeysOf_removeAll.
  set (sorted := rev (sortBy strAfter (backupKeysOf ls))).
  assert (Hperm : Permutation (backupKeysOf ls) sorted).
  { unfold sorted. apply Permutation_trans with (sortBy strAfter (backupKeysOf ls)).
    - apply Permutation_sym. apply sortBy_perm.
    - apply Permutation_rev. }
  rewrite (filter_length_perm _ _ _ Hperm).
  set (kept := fun key =>
                 negb (existsb (fun r => String.eqb r key) (skipn 5 sorted))).
  replace (filter kept sorted)
    with (filter kept (app (firstn 5 sorted) (skipn 5 sorted)))
    by now rewrite firstn_skipn.
  rewrite filter_app, length_app. unfold kept.
  assert (Hgone :
            filter (fun key =>
                      negb (existsb (fun r => String.eqb r key) (skipn 5 sorted)))
                   (skipn 5 sorted) = []).
  { generalize (skipn 5 sorted). intros removed.
    assert (H : forall l,
               (forall x, In x l -> In x removed) ->
               filter (fun key =>
                         negb (existsb (fun r => String.eqb r key) removed)) l
               = []).
    { induction l as [ | x l IH]; intros Hsub; [reflexivity | ].
      cbn [filter].
      assert (Hx : existsb (fun r => String.eqb r x) removed = true).
      { apply existsb_exists. exists x. split.
        - apply Hsub. now left.
        - apply String.eqb_refl. }
      rewrite Hx. cbn [negb]. apply IH. intros y Hy. apply Hsub. now right. }
    apply H. auto. }
  rewrite Hgone. cbn [List.length]. rewrite Nat.add_0_r.
  apply Nat.le_trans with (List.length (firstn 5 sorted)).
  - apply filter_length_le.
  - apply firstn_le_length.
Qed.

(** *** A series of imports *)

Lemma sortBy_sorted_id {A : Type} (after : A -> A -> bool) (l : list A) :
  StronglySorted (fun x y => after x y = false) l -> sortBy after l = l.
Proof.
  induction 1 as [ | x l Hs IH Hx]; [reflexivity | ].
  simpl. rewrite IH.
  destruct l as [ | y l]; [reflexivity | ].
  simpl. inversion Hx as [ | y' l' Hxy _]; subst. now rewrite Hxy.
Qed.

Lemma lastn_snoc (l : list Z) (t : Z) :
  lastn 5 (app l [t]) = keep5 (lastn 5 l) t.
Proof.
  unfold lastn, keep5. rewrite length_app. cbn [List.length].
  rewrite length_skipn.
  destruct (Nat.le_gt_cases (List.length l) 4) as [Hshort | Hlong].
  - replace (List.length l + 1 - 5)%nat with 0%nat by lia.
    replace (List.length l - 5)%nat with 0%nat by lia.
    cbn [skipn]. rewrite Nat.sub_0_r.
    destruct (Nat.ltb_spec (List.length l) 5); [reflexivity | lia].
  - destruct (Nat.ltb_spec (List.length l - (List.length l - 5)) 5) as [H | _];
      [lia | ].
    replace (List.length l + 1 - 5)%nat with (S (List.length l - 5)) by lia.
    rewrite skipn_app.
    replace (S (List.length l - 5) - List.length l)%nat with 0%nat by lia.
    cbn [skipn]. f_equal.
    generalize (List.length l - 5)%nat. clear.
    induction l as [ | x l IH]; intros n; destruct n; try reflexivity.
    simpl. apply IH.
Qed.

Lemma fold_keep5_lastn (times : list Z) :
  fold_left keep5 times [] = lastn 5 times.
Proof.
  induction times as [ | t times IH] using rev_ind; [reflexivity | ].
  rewrite fold_left_app. cbn [fold_left]. rewrite IH.
  symmetry. apply lastn_snoc.
Qed.

Section BackupFacts.

Variable rt : Runtime.

(** The store after a committed import: the snapshot is written under the
    key of the time, the imported state is saved, the old backups are
    cleaned up. *)
Lemma importData_store (this : Tracker) (ls : Storage) (data : value) (now : Z) :
  validateImportData rt (Some data) = true ->
  exists snapshot this',
    snd (fst (importData rt this ls (Json data) true now))
    = cleanupOldBackups
        (saveSettings this'
           (saveGoals this'
              (saveEntries this'
                 (setItem (backupKey now) (Json snapshot) ls)))).
Proof.
  intros Hvalid. unfold importData. rewrite Hvalid. cbn [negb].
  apply validateImportData_iff in Hvalid.
  destruct Hvalid as [_ [Harr _]].
  unfold performImport.
  destruct (getProp (Some data) "entries") as [[ | b | q | s | items | f] | ];
    try discriminate.
  do 2 eexists. reflexivity.
Qed.

Lemma backupKeysOf_saves (this : Tracker) (ls : Storage) :
  backupKeysOf (saveSettings this (saveGoals this (saveEntries this ls)))
  = backupKeysOf ls.
Proof.
  unfold saveSettings, saveGoals, saveEntries.
  now rewrite !backupKeysOf_setItem_other by reflexivity.
Qed.

Lemma sorted_keys (q : list Z) :
  Forall thirteenDigits q -> StronglySorted Z.lt q ->
  StronglySorted (fun x y => strAfter x y = false) (map backupKey q).
Proof.
  intros Hd Hs. induction Hs as [ | a q Hs IH Ha]; simpl; [constructor | ].
  inversion Hd as [ | a' q' Da Dq]; subst.
  constructor; [now apply IH | ].
  rewrite Forall_forall in *. intros k Hk.
  apply in_map_iff in Hk. destruct Hk as [b [<- Hb]].
  rewrite strAfter_backupKey by auto.
  apply Z.ltb_ge. specialize (Ha b Hb). lia.
Qed.

(** One committed import at a time later than the backups in the store. *)
Lemma importData_backups (this : Tracker) (ls : Storage) (data : value)
      (q : list Z) (t : Z) :
  validateImportData rt (Some data) = true ->
  backupKeysOf ls = map backupKey q ->
  Forall thirteenDigits (app q [t]) ->
  StronglySorted Z.lt (app q [t]) ->
  (List.length q <= 5)%nat ->
  backupKeysOf (snd (fst (importData rt this ls (Json data) true t)))
  = map backupKey (keep5 q t).
Proof.
  intros Hvalid Hkeys Hdigits Hsorted Hlen.
  destruct (importData_store this ls data t Hvalid) as [snapshot [this' ->]].
  assert (Hq : Forall thirteenDigits q /\ thirteenDigits t).
  { apply Forall_app in Hdigits. destruct Hdigits as [Hq Ht].
    split; [exact Hq | now inversion Ht]. }
  destruct Hq as [Hq Ht].
  assert (Hbelow : forall a, In a q -> a < t).
  { clear -Hsorted. induction q as [ | b q IH]; intros a []; simpl in Hsorted;
      inversion Hsorted as [ | b' l Hs Hall]; subst.
    - rewrite Forall_forall in Hall. apply Hall. apply in_or_app.
      right. now left.
    - now apply IH. }
  assert (Hnew : ~ In (backupKey t) (backupKeysOf ls)).
  { rewrite Hkeys. intros Hin. apply in_map_iff in Hin.
    destruct Hin as [a [Ha Hin]].
    rewrite Forall_forall in Hq.
    apply backupKey_inj in Ha; auto.
    specialize (Hbelow a Hin). lia. }
  set (ls2 := saveSettings this'
                (saveGoals this'
                   (saveEntries this'
                      (setItem (backupKey t) (Json snapshot) ls)))).
  assert (Hk2 : backupKeysOf ls2 = map backupKey (app q [t])).
  { unfold ls2. rewrite backupKeysOf_saves.
    rewrite backupKeysOf_setItem_new
      by (auto using isBackupKey_backupKey).
    rewrite Hkeys, map_app. reflexivity. }
  unfold cleanupOldBackups. rewrite backupKeysOf_removeAll, Hk2.
  rewrite (sortBy_sorted_id strAfter) by now apply sorted_keys.
  unfold keep5.
  destruct (Nat.ltb_spec (List.length q) 5) as [Hshort | Hfull].
  - rewrite skipn_all2
      by (rewrite length_rev, length_map, length_app; simpl; lia).
    apply filter_all. reflexivity.
  - destruct q as [ | a [ | b [ | c [ | d [ | e [ | f q]]]]]];
      simpl in Hlen, Hfull; try lia.
    assert (Ha : thirteenDigits a /\ thirteenDigits b /\ thirteenDigits c
                 /\ thirteenDigits d /\ thirteenDigits e).
    { rewrite Forall_forall in Hq. repeat split; apply Hq; simpl; auto 10. }
    destruct Ha as [Da [Db [Dc [Dd De]]]].
    assert (Hord : a < b /\ a < c /\ a < d /\ a < e /\ a < t).
    { simpl in Hsorted. inversion Hsorted as [ | x l _ Hall]; subst.
      rewrite Forall_forall in Hall.
      repeat split; apply Hall; simpl; auto 10. }
    destruct Hord as [Hab [Hac [Had [Hae Hat]]]].
    assert (Hne : forall x, thirteenDigits x -> a < x ->
                            String.eqb (backupKey a) (backupKey x) = false).
    { intros x Dx Hx. apply String.eqb_neq. intros E.
      apply backupKey_inj in E; auto. lia. }
    cbn [app map rev skipn existsb filter tl].
    rewrite String.eqb_refl.
    rewrite (Hne b Db Hab), (Hne c Dc Hac), (Hne d Dd Had), (Hne e De Hae),
      (Hne t Ht Hat).
    reflexivity.
Qed.

(** A series of committed imports at increasing 13-digit times leaves the
    backups of the five latest. *)
Lemma importAll_backups (jobs : list (value * Z)) :
  forall (this : Tracker) (ls : Storage) (q : list Z),
    backupKeysOf ls = map backupKey q ->
    (List.length q <= 5)%nat ->
    Forall (fun job => validateImportData rt (Some (fst job)) = true) jobs ->
    Forall thirteenDigits (app q (map snd jobs)) ->
    StronglySorted Z.lt (app q (map snd jobs)) ->
    backupKeysOf (snd (importAll rt (this, ls) jobs))
    = map backupKey (fold_left keep5 (map snd jobs) q).
Proof.
  induction jobs as [ | [data t] jobs IH];
    intros this ls q Hkeys Hlen Hvalid Hdigits Hsorted.
  - exact Hkeys.
  - inversion Hvalid as [ | j js Hdata Hrest]; subst. cbn [fst] in Hdata.
    cbn [map snd] in Hdigits, Hsorted.
    assert (Hsplit : app q (t :: map snd jobs)
                     = app (app q [t]) (map snd jobs))
      by now rewrite <- app_assoc.
    rewrite Hsplit in Hdigits, Hsorted.
    assert (Hd1 : Forall thirteenDigits (app q [t]))
      by (apply Forall_app in Hdigits; tauto).
    assert (Hs1 : StronglySorted Z.lt (app q [t])).
    { clear -Hsorted. revert Hsorted. generalize (map snd jobs).
      generalize (app q [t]). intros l l'.
      induction l as [ | x l IHl]; intros H; [constructor | ].
      simpl in H. inversion H as [ | y m Hs Hall]; subst.
      constructor; [now apply IHl | ].
      apply Forall_app in Hall. tauto. }
    assert (Hstep := importData_backups this ls data q t
                       Hdata Hkeys Hd1 Hs1 Hlen).
    unfold importAll. cbn [fold_left fst snd map].
    destruct (importData rt this ls (Json data) true t)
      as [[this1 ls1] notice] eqn:E.
    cbn [fst snd] in *.
    apply (IH this1 ls1 (keep5 q t)); auto.
    + unfold keep5. destruct (Nat.ltb_spec (List.length q) 5).
      * rewrite length_app. simpl. lia.
      * rewrite length_app. simpl. destruct q; simpl in *; lia.
    + unfold keep5. destruct (List.length q <? 5)%nat; [exact Hdigits | ].
      destruct q as [ | a q]; [exact Hdigits | ].
      simpl in Hdigits |- *. now inversion Hdigits.
    + unfold keep5. destruct (List.length q <? 5)%nat; [exact Hsorted | ].
      destruct q as [ | a q]; [exact Hsorted | ].
      simpl in Hsorted |- *. now inversion Hsorted.
Qed.

End BackupFacts.

(** C8, with the clock at 2000-01-01 for the first of seven imports.  The
    cleanup, whose comment says "Sort by timestamp (newest first) and keep
    only last 5", sorts the keys as strings.  The key of the first import
    has 12 digits and sorts above the keys of 2024 with 13: of the seven
    backups the oldest is kept and the backup of the third import, a later
    one, is deleted, so the five left are not the five most recent. *)
Lemma cleanup_keeps_oldest_backup :
  backupKeysOf
    (snd (importAll Data.utc (Data.noTracker, []) Data.sevenImportsClockReset))
  = map backupKey
        [946684800000; 1710063180000; 1710063240000; 1710063300000;
         1710063360000]
  /\ map snd Data.sevenImportsClockReset
     = [946684800000; 1710063060000; 1710063120000; 1710063180000;
        1710063240000; 1710063300000; 1710063360000].
Proof.
  split; vm_compute; reflexivity.
Qed.

(** The backups when the keys have one length.  A committed import writes
    the snapshot under the key of its time, saves the imported state and
    cleans up, and at most 5 backup keys are left in the store.  When the
    store held no backup and the imports come at increasing times of 13
    digits, the keys left are those of the five latest imports: exactly 5
    after 7 imports. *)
Theorem backups_after_imports :
  forall (rt : Runtime),
    (forall this ls data now,
        validateImportData rt (Some data) = true ->
        (exists snapshot this',
            snd (fst (importData rt this ls (Json data) true now))
            = cleanupOldBackups
                (saveSettings this'
                   (saveGoals this'
                      (saveEntries this'
                         (setItem (backupKey now) (Json snapshot) ls)))))
        /\ (List.length
              (backupKeysOf
                 (snd (fst (importData rt this ls (Json data) true now))))
            <= 5)%nat)
    /\ (forall this ls jobs,
           backupKeysOf ls = [] ->
           Forall (fun job => validateImportData rt (Some (fst job)) = true) jobs ->
           Forall thirteenDigits (map snd jobs) ->
           StronglySorted Z.lt (map snd jobs) ->
           backupKeysOf (snd (importAll rt (this, ls) jobs))
           = map backupKey (lastn 5 (map snd jobs))
           /\ (List.length jobs = 7%nat ->
               List.length (backupKeysOf (snd (importAll rt (this, ls) jobs)))
               = 5%nat)).
Proof.
  intros rt. split.
  - intros this ls data now Hvalid.
    destruct (importData_store rt this ls data now Hvalid)
      as [snapshot [this' Hstore]].
    split; [now exists snapshot, this' | ].
    rewrite Hstore. apply cleanupOldBackups_at_most_5.
  - intros this ls jobs Hempty Hvalid Hdigits Hsorted.
    assert (Hkeys :
              backupKeysOf (snd (importAll rt (this, ls) jobs))
              = map backupKey (lastn 5 (map snd jobs))).
    { rewrite <- fold_keep5_lastn.
      apply importAll_backups.
      - exact Hempty.
      - simpl. lia.
      - exact Hvalid.
      - exact Hdigits.
      - exact Hsorted. }
    split; [exact Hkeys | ].
    intros Hseven. rewrite Hkeys, length_map. unfold lastn.
    rewrite length_skipn, length_map, Hseven. reflexivity.
Qed.

(** Seven imports a minute apart. *)
Lemma backups_after_imports_witness :
  Forall thirteenDigits (map snd Data.sevenImports)
  /\ backupKeysOf
       (snd (importAll Data.utc (Data.noTracker, []) Data.sevenImports))
     = map backupKey (lastn 5 (map snd Data.sevenImports)).
Proof.
  assert (Hdigits : Forall thirteenDigits (map snd Data.sevenImports)).
  { unfold Data.sevenImports. cbn [map snd].
    repeat (apply Forall_cons; [unfold thirteenDigits; lia | ]).
    apply Forall_nil. }
  split; [exact Hdigits | ].
  apply (proj2 (backups_after_imports Data.utc)).
  - reflexivity.
  - repeat constructor.
  - exact Hdigits.
  - repeat constructor.
Defined.

Example backups_of_seven_imports :
  backupKeysOf
    (snd (importAll Data.utc (Data.noTracker, []) Data.sevenImports))
  = ["weedTrackerBackup_1710063120000"; "weedTrackerBackup_1710063180000";
     "weedTrackerBackup_1710063240000"; "weedTrackerBackup_1710063300000";
     "weedTrackerBackup_1710063360000"].
Proof. vm_compute. reflexivity. Qed.

(** * Further properties *)

(** ** The store *)

Lemma getItem_setItem_same (k : string) (v : stored) (ls : Storage) :
  getItem k (setItem k v ls) = Some v.
Proof.
  induction ls as [ | [k' v'] ls IH]; simpl.
  - now rewrite String.eqb_refl.
  - destruct (String.eqb k k') eqn:E; simpl.
    + now rewrite String.eqb_refl.
    + now rewrite E.
Qed.

Lemma getItem_setItem_other (k k' : string) (v : stored) (ls : Storage) :
  k <> k' -> getItem k' (setItem k v ls) = getItem k' ls.
Proof.
  intros Hne. induction ls as [ | [k0 v0] ls IH]; simpl.
  - apply String.eqb_neq in Hne. rewrite String.eqb_sym. now rewrite Hne.
  - destruct (String.eqb_spec k k0) as [<- | Hk]; simpl.
    + apply not_eq_sym in Hne. apply String.eqb_neq in Hne. now rewrite Hne.
    + now rewrite IH.
Qed.

Lemma getItem_removeItem_other (k k' : string) (ls : Storage) :
  k <> k' -> getItem k' (removeItem k ls) = getItem k' ls.
Proof.
  intros Hne. unfold removeItem.
  induction ls as [ | [k0 v0] ls IH]; simpl; [reflexivity | ].
  destruct (String.eqb_spec k k0) as [<- | Hk]; simpl.
  - apply not_eq_sym in Hne. apply String.eqb_neq in Hne. now rewrite Hne.
  - now rewrite IH.
Qed.

Lemma getItem_removeItem_same (k : string) (ls : Storage) :
  getItem k (removeItem k ls) = None.
Proof.
  unfold removeItem.
  induction ls as [ | [k0 v0] ls IH]; simpl; [reflexivity | ].
  destruct (String.eqb k k0) eqn:E; simpl; [exact IH | ].
  now rewrite E.
Qed.

Lemma filter_all_in {A : Type} (f : A -> bool) (l : list A) :
  (forall x, In x l -> f x = true) -> filter f l = l.
Proof.
  induction l as [ | x l IH]; intros H; simpl; [reflexivity | ].
  rewrite (H x (or_introl eq_refl)). f_equal. apply IH.
  intros y Hy. apply H. now right.
Qed.

Lemma filter_length_incl {A : Type} (f g : A -> bool) (l : list A) :
  (forall x, In x l -> f x = true -> g x = true) ->
  (List.length (filter f l) <= List.length (filter g l))%nat.
Proof.
  induction l as [ | x l IH]; intros H; simpl; [lia | ].
  assert (IH' : (List.length (filter f l) <= List.length (filter g l))%nat).
  { apply IH. intros y Hy. apply H. now right. }
  destruct (f x) eqn:Fx.
  - rewrite (H x (or_introl eq_refl) Fx). simpl. lia.
  - destruct (g x); simpl; lia.
Qed.

(** ** Loading and saving *)

(** X1: whatever the store holds under their keys (nothing, a text that
    does not parse, a document of the wrong shape), the entries, goals,
    settings and alternatives that are loaded pass their validators. *)
Theorem loaded_state_is_valid :
  forall (rt : Runtime) (ls : Storage),
    allValid rt (entries (newTracker rt ls))
    /\ validateGoals rt (Some (goals (newTracker rt ls))) = true
    /\ validateSettings rt (Some (settings (newTracker rt ls))) = true
    /\ validateAlternatives (Some (loadAlternatives ls)) = true.
Proof.
  intros rt ls. split; [ | split; [ | split]].
  - apply loadEntries_sorted_valid.
  - cbn [newTracker goals]. unfold loadGoals.
    destruct (getItem "weedTrackerGoals" ls) as [[parsed | ] | ];
      try reflexivity.
    destruct (validateGoals rt (Some parsed)) eqn:E; [exact E | reflexivity].
  - cbn [newTracker settings]. unfold loadSettings.
    destruct (getItem "weedTrackerSettings" ls) as [[parsed | ] | ];
      try reflexivity.
    destruct (validateSettings rt (Some parsed)) eqn:E; [exact E | reflexivity].
  - unfold loadAlternatives.
    destruct (getItem "weedTrackerAlternatives" ls) as [[parsed | ] | ];
      try reflexivity.
    destruct (validateAlternatives (Some parsed)) eqn:E; [exact E | reflexivity].
Qed.

Section PersistenceFacts.

Variable rt : Runtime.

Lemma sortedDesc_sort_id (l : list value) :
  sortedDesc rt l -> sortEntries rt l = l.
Proof.
  intros Hs. unfold sortEntries. apply sortBy_sorted_id.
  unfold sortedDesc in Hs.
  induction Hs as [ | a l Hs IH Ha]; constructor; [exact IH | ].
  rewrite Forall_forall in *. intros b Hb. specialize (Ha b Hb).
  unfold entryAfter, dateGt, dateGe in *.
  destruct (entryDate rt a) as [ta | ]; [ | discriminate].
  destruct (entryDate rt b) as [tb | ]; [ | discriminate].
  apply Z.leb_le in Ha. apply Z.ltb_ge. exact Ha.
Qed.

Lemma loadEntries_saved (this : Tracker) (ls : Storage) :
  allValid rt (entries this) ->
  loadEntries rt (saveEntries this ls) = sortEntries rt (entries this).
Proof.
  intros Hv. unfold loadEntries, saveEntries.
  rewrite getItem_setItem_same. f_equal.
  apply filter_all_in. unfold allValid in Hv.
  now rewrite Forall_forall in Hv.
Qed.

End PersistenceFacts.

(** X2: entries that are validated, sorted descending by timestamp and
    hold only finite numbers are written to the store as they are, and a
    reload reads them back exactly as they were saved. *)
Theorem saveEntries_loadEntries_roundtrip :
  forall (rt : Runtime) (this : Tracker) (ls : Storage),
    allValid rt (entries this) ->
    sortedDesc rt (entries this) ->
    jsonSafe (VArr (entries this)) = true ->
    getItem "weedTrackerEntries" (saveEntries this ls)
    = Some (written (VArr (entries this)))
    /\ loadEntries rt (saveEntries this ls) = entries this.
Proof.
  intros rt this ls Hv Hs Hfinite. split.
  - unfold saveEntries. rewrite getItem_setItem_same.
    now rewrite (written_safe _ Hfinite).
  - rewrite (loadEntries_saved rt this ls Hv).
    now apply sortedDesc_sort_id.
Qed.

Lemma saveEntries_loadEntries_roundtrip_witness :
  allValid Data.utc (entries Cases.tracker)
  /\ getItem "weedTrackerEntries" (saveEntries Cases.tracker [])
     = Some (written (VArr (entries Cases.tracker)))
  /\ loadEntries Data.utc (saveEntries Cases.tracker []) = entries Cases.tracker.
Proof.
  assert (Hv : allValid Data.utc (entries Cases.tracker))
    by (repeat constructor).
  split; [exact Hv | ].
  apply saveEntries_loadEntries_roundtrip;
    [exact Hv | repeat constructor | reflexivity].
Defined.

(** X3: goals and settings whose numbers are finite are written to the
    store as they are.  Those that pass their validators come back from the
    store as they were saved; those that do not pass are replaced by the
    defaults on loading. *)
Theorem saveGoals_saveSettings_roundtrip :
  forall (rt : Runtime) (this : Tracker) (ls : Storage),
    (jsonSafe (goals this) = true ->
     getItem "weedTrackerGoals" (saveGoals this ls)
     = Some (written (goals this))
     /\ (validateGoals rt (Some (goals this)) = true ->
         loadGoals rt (saveGoals this ls) = goals this)
     /\ (validateGoals rt (Some (goals this)) = false ->
         loadGoals rt (saveGoals this ls) = getDefaultGoals))
    /\ (jsonSafe (settings this) = true ->
        getItem "weedTrackerSettings" (saveSettings this ls)
        = Some (written (settings this))
        /\ (validateSettings rt (Some (settings this)) = true ->
            loadSettings rt (saveSettings this ls) = settings this)
        /\ (validateSettings rt (Some (settings this)) = false ->
            loadSettings rt (saveSettings this ls) = getDefaultSettings)).
Proof.
  intros rt this ls.
  unfold loadGoals, saveGoals, loadSettings, saveSettings.
  rewrite !getItem_setItem_same.
  split; intros Hfinite; rewrite (written_safe _ Hfinite);
    repeat split; intros H; now rewrite H.
Qed.

Lemma saveGoals_saveSettings_roundtrip_witness :
  loadGoals Data.utc (saveGoals (Data.stashTracker 10 []) [])
  = Data.stashGoal 10
  /\ loadSettings Data.utc
       (saveSettings
          {| entries := []; goals := getDefaultGoals; settings := VNull |} [])
     = getDefaultSettings.
Proof.
  split.
  - apply (proj1 (saveGoals_saveSettings_roundtrip Data.utc
                    (Data.stashTracker 10 []) []));
      reflexivity.
  - apply (proj2 (saveGoals_saveSettings_roundtrip Data.utc
                    {| entries := []; goals := getDefaultGoals;
                       settings := VNull |} []));
      reflexivity.
Defined.

(** Goals with an infinite stash pass the validator; the text written for
    them holds [null] for the stash, which fails it. *)
Example goals_with_infinite_stash :
  validateGoals Data.utc (Some (Data.stashGoal infinity)) = true
  /\ validateGoals Data.utc (Some (stringify (Data.stashGoal infinity)))
     = false.
Proof. split; vm_compute; reflexivity. Qed.

(** ** Adding and deleting *)

Lemma inject_Z_zero (z : Z) : Qeq_bool (inject_Z z) 0 = false <-> z <> 0.
Proof.
  rewrite Qeq_bool_false. unfold Qeq. simpl. lia.
Qed.

(** X4: [addEntry] accepts the form exactly when the amount is a number
    above 0 and at most 1000, the method is one of the seven methods, the time
    is a non-empty string that is a valid date, the mood is empty or one of
    the five moods, and the clock (which gives the id) is not at 0. *)
Theorem addEntry_accepts_iff :
  forall (rt : Runtime) (this : Tracker) (ls : Storage) (form : FormInput)
         (now : Z),
    (exists this' ls' message,
        addEntry rt this ls form now = (this', ls', Success message))
    <-> ((exists amount,
             formAmount form = Some amount
             /\ (0 < amount)%Q /\ (amount <= 1000)%Q)
         /\ In (formMethod form) methods
         /\ formTime form <> ""
         /\ isValidDate rt (Some (VStr (formTime form))) = true
         /\ (formMood form = "" \/ In (formMood form) moods)
         /\ now <> 0).
Proof.
  intros rt this ls form now. split.
  - intros [this' [ls' [message H]]]. unfold addEntry in H.
    destruct (formAmount form) as [amount | ]; [ | discriminate].
    destruct (Qeq_bool amount 0 || Qle_bool amount 0 || Qlt_bool 1000 amount)
      eqn:G1; [discriminate | ].
    destruct (String.eqb (formMethod form) ""
              || negb (includesStr methods (Some (VStr (formMethod form)))))
      eqn:G2; [discriminate | ].
    destruct (String.eqb (formTime form) ""
              || negb (isValidDate rt (Some (VStr (formTime form)))))
      eqn:G3; [discriminate | ].
    destruct (negb (String.eqb (formMood form) "")
              && negb (includesStr moods (Some (VStr (formMood form)))))
      eqn:G4; [discriminate | ].
    match type of H with
    | (if negb (validateEntry rt ?e) then _ else _) = _ =>
        destruct (validateEntry rt e) eqn:G5; [ | discriminate]
    end.
    bool_facts.
    split; [ | split; [ | split; [ | split; [ | split]]]].
    + exists amount. split; [reflexivity | ]. split.
      * match goal with
        | T : Qle_bool amount 0 = false |- _ => now apply Qle_bool_false in T
        end.
      * match goal with
        | T : Qlt_bool 1000 amount = false |- _ =>
            unfold Qlt_bool in T; apply negb_false_iff in T;
            now apply Qle_bool_iff in T
        end.
    + now apply includesStr_In.
    + match goal with
      | T : String.eqb (formTime form) "" = false |- _ =>
          now apply String.eqb_neq in T
      end.
    + assumption.
    + apply andb_false_iff in G4. destruct G4 as [G4 | G4];
        apply negb_false_iff in G4.
      * left. now apply String.eqb_eq.
      * right. now apply includesStr_In.
    + destruct (validateEntry_accepted rt _ G5) as [_ [q [Hid Hq]] _ _ _ _].
      simpl in Hid. injection Hid as <-.
      intros ->. apply Hq. reflexivity.
  - intros [[amount [Ha [Hpos Hmax]]] [Hmethod [Htime [Hvalid [Hmood Hnow]]]]].
    unfold addEntry. rewrite Ha.
    assert (Ha0 : Qeq_bool amount 0 = false).
    { apply Qeq_bool_false. intros E. rewrite E in Hpos.
      now apply (Qlt_irrefl 0). }
    assert (Hle : Qle_bool amount 0 = false) by now apply Qle_bool_false.
    assert (Hgt : Qlt_bool 1000 amount = false).
    { unfold Qlt_bool. apply negb_false_iff. now apply Qle_bool_iff. }
    rewrite Ha0, Hle, Hgt. cbn [orb].
    assert (Hm : formMethod form <> "").
    { intros E. rewrite E in Hmethod. simpl in Hmethod.
      repeat destruct Hmethod as [Hmethod | Hmethod]; try discriminate.
      exact Hmethod. }
    apply String.eqb_neq in Hm. rewrite Hm.
    apply includesStr_In in Hmethod. rewrite Hmethod. cbn [negb orb].
    apply String.eqb_neq in Htime. rewrite Htime, Hvalid. cbn [negb orb].
    assert (G4 : negb (String.eqb (formMood form) "")
                 && negb (includesStr moods (Some (VStr (formMood form))))
                 = false).
    { destruct Hmood as [-> | Hin]; [reflexivity | ].
      apply includesStr_In in Hin. rewrite Hin. apply andb_false_r. }
    rewrite G4.
    assert (G5 : validateEntry rt
                   (Some (VObj [("id", VNum (inject_Z now));
                                ("amount", VNum amount);
                                ("method", VStr (formMethod form));
                                ("notes", VStr (formNotes form));
                                ("mood", VStr (formMood form));
                                ("timestamp", VStr (formTime form));
                                ("createdAt", VStr (toISOString rt now))]))
                 = true).
    { unfold validateEntry. simpl.
      apply inject_Z_zero in Hnow. rewrite Hnow. simpl.
      rewrite Ha0. simpl.
      assert (Hl : leNum rt (Some (VNum amount)) 0 = false)
        by (unfold leNum; simpl; exact Hle).
      rewrite Hl. simpl. rewrite Hm. simpl.
      rewrite !andb_false_r. rewrite Htime. simpl.
      now rewrite Hvalid. }
    rewrite G5. cbn [negb]. do 3 eexists. reflexivity.
Qed.

Lemma addEntry_accepts_iff_witness :
  exists this' ls' message,
    addEntry Data.utc Cases.tracker [] (Data.formAt (1 # 2) "2024-03-10T09:00")
             Data.mar10_0930
    = (this', ls', Success message).
Proof.
  apply (proj2 (addEntry_accepts_iff Data.utc Cases.tracker []
                  (Data.formAt (1 # 2) "2024-03-10T09:00") Data.mar10_0930)).
  split; [ | split; [ | split; [ | split; [ | split]]]].
  - exists (1 # 2)%Q. split; [reflexivity | ]. split; [reflexivity | ].
    intros E. discriminate E.
  - left. reflexivity.
  - discriminate.
  - reflexivity.
  - left. reflexivity.
  - discriminate.
Defined.

(** X5: after [addEntry] on validated entries with finite numbers, at a
    time of the clock that is a time value, the store and the memory agree:
    an accepted entry is written with the whole list, whose numbers are
    finite again, and a reload gives the list back as it is in memory; a
    refused form changes neither tracker nor store. *)
Theorem addEntry_persists :
  forall (rt : Runtime) (this : Tracker) (ls : Storage) (form : FormInput)
         (now : Z) (this' : Tracker) (ls' : Storage) (notice : Notice),
    allValid rt (entries this) ->
    jsonSafe (VArr (entries this)) = true ->
    Z.abs now <= maxTime ->
    addEntry rt this ls form now = (this', ls', notice) ->
    match notice with
    | Success _ =>
        jsonSafe (VArr (entries this')) = true
        /\ getItem "weedTrackerEntries" ls'
           = Some (written (VArr (entries this')))
        /\ loadEntries rt ls' = entries this'
    | Error _ => this' = this /\ ls' = ls
    end.
Proof.
  intros rt this ls form now this' ls' notice Hv Hfinite Hnow H.
  destruct (addEntry_cases rt this ls form now)
    as [[m Hm] | [this1 [ls1 [m Hm]]]]; rewrite Hm in H;
    injection H as <- <- <-.
  - split; reflexivity.
  - destruct (addEntry_success rt _ _ _ _ _ _ _ Hm) as [entry [He [_ Heq]]].
    assert (Hall : allValid rt (app (entries this) [entry])).
    { unfold allValid. apply Forall_app. split; [exact Hv | ].
      constructor; [exact He | constructor]. }
    assert (Hres := addEntry_result rt this ls form now).
    rewrite Hm in Hres. cbn [fst snd] in Hres.
    destruct Hres as [amount [Hamount [_ Heq']]].
    assert (Hls : ls1 = saveEntries this1 ls
                  /\ (0 <= amount)%Q /\ (amount <= 1000)%Q).
    { unfold addEntry in Hm. rewrite Hamount in Hm.
      destruct (Qeq_bool amount 0 || Qle_bool amount 0 || Qlt_bool 1000 amount)
        eqn:Erange; [discriminate | ].
      apply orb_false_iff in Erange. destruct Erange as [Erange Hle].
      apply orb_false_iff in Erange. destruct Erange as [_ Hpos].
      repeat match type of Hm with
             | (if ?c then _ else _) = _ => destruct c; [discriminate | ]
             end.
      injection Hm as <- <- _. split; [reflexivity | ].
      unfold Qlt_bool in Hle. apply negb_false_iff in Hle.
      apply Qle_bool_iff in Hle.
      split; [ | exact Hle].
      apply Qlt_le_weak. now apply Qle_bool_false. }
    destruct Hls as [-> [Hpos Hle]].
    assert (Hsafe : jsonSafe (VArr (entries this1)) = true).
    { rewrite Heq'.
      apply (jsonSafe_perm (app (entries this) [entryOfForm rt form amount now])).
      - apply Permutation_sym. apply sortEntries_perm.
      - cbn [jsonSafe] in *. rewrite forallb_app, Hfinite.
        cbn [forallb entryOfForm jsonSafe andb].
        now rewrite (time_finite now Hnow), (amount_finite amount Hpos Hle). }
    split; [exact Hsafe | ]. split.
    + unfold saveEntries. rewrite getItem_setItem_same.
      now rewrite (written_safe _ Hsafe).
    + rewrite (loadEntries_saved rt this1 ls).
      * apply sortedDesc_sort_id. rewrite Heq.
        apply sortEntries_sorted. now apply allValid_hasDate.
      * rewrite Heq. now apply sortEntries_valid.
Qed.

Lemma addEntry_persists_witness :
  allValid Data.utc (entries Cases.tracker)
  /\ loadEntries Data.utc
       (snd (fst (addEntry Data.utc Cases.tracker []
                    (Data.formAt (1 # 2) "2024-03-10T09:00") Data.mar10_0930)))
     = entries
         (fst (fst (addEntry Data.utc Cases.tracker []
                      (Data.formAt (1 # 2) "2024-03-10T09:00")
                      Data.mar10_0930))).
Proof.
  assert (Hv : allValid Data.utc (entries Cases.tracker))
    by (repeat constructor).
  assert (Hfinite : jsonSafe (VArr (entries Cases.tracker)) = true)
    by reflexivity.
  assert (Hnow : Z.abs Data.mar10_0930 <= maxTime)
    by (vm_compute; discriminate).
  split; [exact Hv | ].
  destruct (addEntry Data.utc Cases.tracker []
              (Data.formAt (1 # 2) "2024-03-10T09:00") Data.mar10_0930)
    as [[this' ls'] notice] eqn:E.
  assert (H := addEntry_persists Data.utc Cases.tracker [] _ _ _ _ _
                 Hv Hfinite Hnow E).
  destruct notice as [m | m].
  - exact (proj2 (proj2 H)).
  - vm_compute in E. discriminate E.
Defined.




(** ** Week statistics and goal progress *)

Section WeekFacts.

Variable rt : Runtime.

Lemma weekEntries_window (this : Tracker) (now : Z) :
  0 <= now <= maxTime ->
  weekEntries rt this now
  = filter (inLast rt (7 * msPerDay) now) (entries this).
Proof.
  intros Hnow. unfold weekEntries. apply filter_ext. intros e.
  unfold inLast, dateGe, dateLe, timeClip.
  destruct (Z.leb_spec (Z.abs (now - 7 * 24 * 60 * 60 * 1000)) maxTime)
    as [_ | Hgt].
  - destruct (entryDate rt e); reflexivity.
  - unfold maxTime in *. lia.
Qed.

End WeekFacts.

(** X7: the week statistics count exactly the entries of the 7 days up to
    [now] (both ends included), so never fewer than the today statistics; on
    validated entries the amount shown is their sum (a double sum, in the
    order of the list) and the average shown is that sum divided by 7, both
    with one decimal (the average is 0 without entries).  One entry of 0.15,
    a double below that literal, shows 0.1g. *)
Theorem updateWeekStats_window :
  forall (rt : Runtime) (this : Tracker) (now : Z),
    0 <= now <= maxTime ->
    let window := filter (inLast rt (7 * msPerDay) now) (entries this) in
    weekCount (updateWeekStats rt this now) = List.length window
    /\ (todayCount (updateTodayStats rt this now)
        <= weekCount (updateWeekStats rt this now))%nat
    /\ (allValid rt (entries this) ->
        exists sum : Q,
          doubleSum window = Some sum
          /\ (0 <= sum)%Q
          /\ weekAmount (updateWeekStats rt this now) = toFixed rt sum 1 ++ "g"
          /\ weekAvg (updateWeekStats rt this now)
             = toFixedN rt (if (0 <? List.length window)%nat
                            then fdiv sum 7 else Some 0%Q) 1
               ++ "g")
    /\ updateWeekStats Data.utc
         (Data.trackerOf [Data.entryAt 1 Cases.g015 "2024-03-10T08:30"])
         Data.mar10_0930
       = {| weekCount := 1; weekAmount := "0.1g"; weekAvg := "0.0g" |}.
Proof.
  intros rt this now Hnow window.
  assert (Hwin := weekEntries_window rt this now Hnow).
  split; [ | split; [ | split; [ | vm_compute; reflexivity]]].
  - unfold updateWeekStats. cbn [weekCount]. now rewrite Hwin.
  - unfold updateWeekStats. cbn [weekCount]. rewrite Hwin. fold window.
    unfold updateTodayStats. cbn [todayCount].
    rewrite (last24HoursEntries_window rt this now Hnow).
    unfold window. apply filter_length_incl. intros e _.
    unfold inLast24h, inLast.
    destruct (entryDate rt e) as [t | ]; [ | discriminate].
    rewrite !andb_true_iff, !Z.leb_le. unfold msPerDay. lia.
  - intros Hvalid.
    assert (Hwindow : allValid rt window) by now apply allValid_filter.
    destruct (doubleSum_nonneg rt window Hwindow) as [sum [Hsum Hs0]].
    exists sum. split; [exact Hsum | ]. split; [exact Hs0 | ].
    unfold updateWeekStats. cbn [weekAmount weekAvg].
    rewrite Hwin. fold window.
    rewrite (reduceAmount_valid rt window Hwindow), Hsum.
    split; [reflexivity | ].
    destruct (0 <? List.length window)%nat; reflexivity.
Qed.

Lemma updateWeekStats_window_witness :
  0 <= Data.mar10_0930 <= maxTime
  /\ allValid Data.utc (entries Cases.tracker)
  /\ (todayCount (updateTodayStats Data.utc Cases.tracker Data.mar10_0930)
      <= weekCount (updateWeekStats Data.utc Cases.tracker Data.mar10_0930))%nat
  /\ exists sum : Q,
      weekAmount (updateWeekStats Data.utc Cases.tracker Data.mar10_0930)
      = toFixed Data.utc sum 1 ++ "g".
Proof.
  assert (Hnow : 0 <= Data.mar10_0930 <= maxTime)
    by (unfold Data.mar10_0930, maxTime; lia).
  assert (Hvalid : allValid Data.utc (entries Cases.tracker))
    by (repeat constructor).
  split; [exact Hnow | ]. split; [exact Hvalid | ].
  destruct (updateWeekStats_window Data.utc Cases.tracker Data.mar10_0930 Hnow)
    as [_ [Hcount [Hsum _]]].
  split; [exact Hcount | ].
  destruct (Hsum Hvalid) as [sum [_ [_ [Hamount _]]]].
  exists sum. exact Hamount.
Defined.

(** The scenario of two entries a day apart, seen an hour after the second:
    count 2, sum 3, average 3/7. *)
Example updateWeekStats_two_entries :
  updateWeekStats Data.utc
    (Data.trackerOf [Data.entryAt 2 2 "2024-03-10T08:30";
                     Data.entryAt 1 1 "2024-03-09T08:30"])
    Data.mar10_0930
  = {| weekCount := 2; weekAmount := "3.0g"; weekAvg := "0.4g" |}.
Proof. vm_compute. reflexivity. Qed.

(** X8: the weekly goal.  For a goal that is no stash goal with a numeric
    weekly amount: an amount of 0 or less gives 0% and the prompt; otherwise,
    on validated entries, the bar shows the minimum of weekSum/weeklyAmount x
    100 and 100, where weekSum is the sum of the 7 days up to [now], and the
    text tells what remains when the remainder is above 0 and by how much
    the goal is exceeded otherwise, with one decimal.  Sum, difference,
    quotient and product are those of the doubles: a goal of 0.8 with 0.7
    and 0.1 used shows "0.0g remaining this week". *)
Theorem updateGoalProgress_weekly :
  forall (rt : Runtime) (this : Tracker) (now : Z) (weekly : Q),
    0 <= now <= maxTime ->
    strictEqStr (getProp (Some (goals this)) "goalType") "stash" = false ->
    getProp (Some (goals this)) "weeklyAmount" = Some (VNum weekly) ->
    ((weekly <= 0)%Q ->
     updateGoalProgress rt this now
     = {| progress := Some 0%Q;
          goalText := "Set a weekly goal to track progress" |})
    /\ ((0 < weekly)%Q ->
        allValid rt (entries this) ->
        exists weekSum : Q,
          doubleSum (filter (inLast rt (7 * msPerDay) now) (entries this))
          = Some weekSum
          /\ (0 <= weekSum)%Q
          /\ progress (updateGoalProgress rt this now)
             = minNum (mulNum (fdiv weekSum weekly) (Some 100%Q)) (Some 100%Q)
          /\ goalText (updateGoalProgress rt this now)
             = match fsub weekly weekSum with
               | Some remaining =>
                   if Qlt_bool 0 remaining
                   then toFixed rt remaining 1 ++ "g remaining this week"
                   else "Goal exceeded by "
                        ++ toFixed rt (Qabs remaining) 1 ++ "g"
               | None => "Goal exceeded by NaNg"
               end)
    /\ updateGoalProgress Data.utc
         (Cases.weeklyTracker Cases.g08
            [Data.entryAt 2 Cases.g07 "2024-03-10T08:30";
             Data.entryAt 1 Cases.g01 "2024-03-09T22:00"])
         Data.mar10_0930
       = {| progress := Some (7036874417766399 # 70368744177664);
            goalText := "0.0g remaining this week" |}.
Proof.
  intros rt this now weekly Hnow Htype Hweekly.
  split; [ | split; [ | vm_compute; reflexivity]].
  - intros Hle. unfold updateGoalProgress. rewrite Htype, Hweekly.
    cbn [truthy]. unfold leNum. cbn [toNumber].
    apply Qle_bool_iff in Hle. rewrite Hle. now rewrite orb_true_r.
  - intros Hpos Hvalid.
    unfold updateGoalProgress. rewrite Htype, Hweekly.
    cbn [truthy]. unfold leNum. cbn [toNumber].
    assert (Hnz : Qeq_bool weekly 0 = false).
    { apply Qeq_bool_false. intros E. rewrite E in Hpos.
      now apply (Qlt_irrefl 0). }
    assert (Hnle : Qle_bool weekly 0 = false) by now apply Qle_bool_false.
    rewrite Hnz, Hnle. cbn [negb orb].
    rewrite (weekEntries_window rt this now Hnow).
    set (window := filter (inLast rt (7 * msPerDay) now) (entries this)).
    assert (Hwindow : allValid rt window) by now apply allValid_filter.
    destruct (doubleSum_nonneg rt window Hwindow) as [weekSum [Hsum Hs0]].
    rewrite (reduceAmount_valid rt window Hwindow), Hsum.
    exists weekSum. cbn [progress goalText].
    split; [reflexivity | ]. split; [exact Hs0 | ]. split; [reflexivity | ].
    cbn [subNum liftNum]. destruct (fsub weekly weekSum); reflexivity.
Qed.

Lemma updateGoalProgress_weekly_witness :
  0 <= Data.mar10_0930 <= maxTime
  /\ (0 < 2)%Q
  /\ exists weekSum : Q,
      doubleSum (filter (inLast Data.utc (7 * msPerDay) Data.mar10_0930)
                        Cases.twoEntries) = Some weekSum
      /\ progress (updateGoalProgress Data.utc
                     (Cases.weeklyTracker 2 Cases.twoEntries) Data.mar10_0930)
         = minNum (mulNum (fdiv weekSum 2) (Some 100%Q)) (Some 100%Q).
Proof.
  assert (Hnow : 0 <= Data.mar10_0930 <= maxTime)
    by (unfold Data.mar10_0930, maxTime; lia).
  assert (Hvalid : allValid Data.utc
                     (entries (Cases.weeklyTracker 2 Cases.twoEntries)))
    by (repeat constructor).
  split; [exact Hnow | ]. split; [reflexivity | ].
  destruct (proj1 (proj2 (updateGoalProgress_weekly Data.utc
                     (Cases.weeklyTracker 2 Cases.twoEntries)
                     Data.mar10_0930 2%Q Hnow eq_refl eq_refl))
                  eq_refl Hvalid)
    as [weekSum [Hsum [_ [Hprogress _]]]].
  exists weekSum. split; [exact Hsum | exact Hprogress].
Defined.

Example updateGoalProgress_weekly_exceeded :
  updateGoalProgress Data.utc
    (Cases.weeklyTracker 2 Cases.twoEntries) Data.mar10_0930
  = {| progress := Some 100%Q; goalText := "Goal exceeded by 0.5g" |}.
Proof. vm_compute. reflexivity. Qed.

Section BarFacts.

Variable rt : Runtime.

Lemma zero_finite (q : Q) : Qeq_bool q 0 = true -> isFinite q = true.
Proof.
  intros E. apply Qeq_bool_iff in E. unfold isFinite.
  apply Qle_bool_iff. rewrite E. discriminate.
Qed.

(** With a finite budget above 0 the width of the bar is a number. *)
Lemma width_defined (used budget : Q) :
  (0 < budget)%Q -> isFinite budget = true ->
  exists pct,
    minNum (mulNum (fdiv used budget) (Some 100%Q)) (Some 100%Q) = Some pct.
Proof.
  intros Hpos Hfin.
  assert (Hnz : Qeq_bool budget 0 = false).
  { apply Qeq_bool_false. intros E. rewrite E in Hpos.
    now apply (Qlt_irrefl 0). }
  assert (Hdiv : exists ratio, fdiv used budget = Some ratio).
  { unfold fdiv. rewrite Hfin, Hnz.
    destruct (isFinite used); eexists; reflexivity. }
  destruct Hdiv as [ratio ->]. cbn [mulNum liftNum].
  assert (Hmul : exists scaled, fmul ratio 100 = Some scaled).
  { unfold fmul. destruct (isFinite ratio) eqn:Fr.
    - change (isFinite 100) with true. cbn [andb]. eexists. reflexivity.
    - cbn [andb]. destruct (Qeq_bool ratio 0) eqn:Ez.
      + apply zero_finite in Ez. congruence.
      + change (Qeq_bool 100 0) with false. cbn [orb]. eexists. reflexivity. }
  destruct Hmul as [scaled ->]. cbn [minNum liftNum]. eexists. reflexivity.
Qed.

(** What the goal card computes on validated entries and goals: the prompt
    with 0, or the clamped percentage of a sum against a budget above 0. *)
Lemma updateGoalProgress_width (this : Tracker) (now : Z) :
  allValid rt (entries this) ->
  validateGoals rt (Some (goals this)) = true ->
  progress (updateGoalProgress rt this now) = Some 0%Q
  \/ exists used budget : Q,
      (0 <= used)%Q /\ (0 < budget)%Q
      /\ (getProp (Some (goals this)) "stashAmount" = Some (VNum budget)
          \/ getProp (Some (goals this)) "weeklyAmount" = Some (VNum budget))
      /\ progress (updateGoalProgress rt this now)
         = minNum (mulNum (fdiv used budget) (Some 100%Q)) (Some 100%Q).
Proof.
  intros Hvalid Hgoals.
  destruct (validateGoals_inv rt _ Hgoals)
    as [[w [Hw Hw0]] [_ Hstash]].
  unfold updateGoalProgress.
  destruct (strictEqStr (getProp (Some (goals this)) "goalType") "stash").
  - unfold updateStashProgress.
    destruct Hstash as [Hnone | [s [Hs Hs0]]].
    + rewrite Hnone. now left.
    + rewrite Hs. cbn [truthy]. unfold leNum. cbn [toNumber].
      destruct (Qeq_bool s 0) eqn:Ez; [now left | ].
      destruct (Qle_bool s 0) eqn:El; [now left | ].
      cbn [negb orb progress]. right.
      match goal with
      | |- context [reduceAmount rt (filter ?f (entries this))] =>
          destruct (doubleSum_nonneg rt _ (allValid_filter rt f _ Hvalid))
            as [total [Hsum Htotal]];
          rewrite (reduceAmount_valid rt _ (allValid_filter rt f _ Hvalid)),
            Hsum
      end.
      exists total, s. split; [exact Htotal | ].
      split; [now apply Qle_bool_false | ]. split; [now left | reflexivity].
  - rewrite Hw. cbn [truthy]. unfold leNum. cbn [toNumber].
    destruct (Qeq_bool w 0) eqn:Ez; [now left | ].
    destruct (Qle_bool w 0) eqn:El; [now left | ].
    cbn [negb orb progress]. right.
    unfold weekEntries.
    match goal with
    | |- context [reduceAmount rt (filter ?f (entries this))] =>
        destruct (doubleSum_nonneg rt _ (allValid_filter rt f _ Hvalid))
          as [total [Hsum Htotal]];
        rewrite (reduceAmount_valid rt _ (allValid_filter rt f _ Hvalid)),
          Hsum
    end.
    exists total, w. split; [exact Htotal | ].
    split; [now apply Qle_bool_false | ]. split; [now right | reflexivity].
Qed.

End BarFacts.

(** X9: with validated entries and goals that pass the goal validator, of
    whatever type, the width of the progress bar, when it is a number, is
    between 0 and 100; and it is a number when the amounts of the goal are
    finite.  (It is [NaN] for an infinite amount in the goal with an
    infinite sum of the entries.) *)
Theorem updateGoalProgress_bar_in_range :
  forall (rt : Runtime) (this : Tracker) (now : Z),
    allValid rt (entries this) ->
    validateGoals rt (Some (goals this)) = true ->
    (forall p : Q,
        progress (updateGoalProgress rt this now) = Some p ->
        (0 <= p)%Q /\ (p <= 100)%Q)
    /\ ((forall key amount,
            getProp (Some (goals this)) key = Some (VNum amount) ->
            isFinite amount = true) ->
        exists p : Q, progress (updateGoalProgress rt this now) = Some p).
Proof.
  intros rt this now Hvalid Hgoals.
  destruct (updateGoalProgress_width rt this now Hvalid Hgoals)
    as [Hzero | [used [budget [Hused [Hbudget [Hkey Hwidth]]]]]].
  - rewrite Hzero. split.
    + intros p E. injection E as <-. split; discriminate.
    + intros _. now exists 0%Q.
  - rewrite Hwidth. split.
    + intros p Hp. exact (clamped_width used budget p Hused Hbudget Hp).
    + intros Hfinite. apply width_defined; [exact Hbudget | ].
      destruct Hkey as [Hkey | Hkey]; exact (Hfinite _ _ Hkey).
Qed.

Lemma updateGoalProgress_bar_in_range_witness :
  allValid Data.utc (entries (Data.stashTracker 10 Cases.twoEntries))
  /\ exists p : Q,
      progress (updateGoalProgress Data.utc
                  (Data.stashTracker 10 Cases.twoEntries) Data.mar10_0930)
      = Some p
      /\ (0 <= p)%Q /\ (p <= 100)%Q.
Proof.
  assert (Hvalid : allValid Data.utc
                     (entries (Data.stashTracker 10 Cases.twoEntries)))
    by (repeat constructor).
  assert (Hgoals : validateGoals Data.utc
                     (Some (goals (Data.stashTracker 10 Cases.twoEntries)))
                   = true) by reflexivity.
  split; [exact Hvalid | ].
  destruct (updateGoalProgress_bar_in_range Data.utc
              (Data.stashTracker 10 Cases.twoEntries) Data.mar10_0930
              Hvalid Hgoals) as [Hrange Hdefined].
  destruct Hdefined as [p Hp].
  - intros key amount Hkey. cbn in Hkey.
    repeat match type of Hkey with
           | (if ?c then _ else _) = _ => destruct c
           end;
      try discriminate; injection Hkey as <-; reflexivity.
  - exists p. split; [exact Hp | exact (Hrange p Hp)].
Defined.

(** An infinite stash (read from 1e999) with an infinite amount used. *)
Example updateGoalProgress_not_a_number :
  progress (updateGoalProgress Data.utc
              (Data.stashTracker infinity
                 [Data.entryAt 1 infinity "2024-03-09T22:00"])
              Data.mar10_0930) = None.
Proof. vm_compute. reflexivity. Qed.

(** ** Chart data and the list of entries *)

Section ChartFacts.

Variable rt : Runtime.

Lemma local_hour_range (t : Z) :
  0 <= (t + tzOffset rt) mod msPerDay / 3600000 < 24.
Proof.
  assert (H := Z.mod_pos_bound (t + tzOffset rt) msPerDay ltac:(reflexivity)).
  unfold msPerDay in *. split.
  - apply Z.div_pos; lia.
  - apply Z.div_lt_upper_bound; lia.
Qed.

Lemma countHour_slot (entry : value) (c0 c1 c2 c3 : Z) :
  countHour rt (c0, c1, c2, c3) entry
  = (c0 + (if slotOf rt entry =? 0 then 1 else 0),
     c1 + (if slotOf rt entry =? 1 then 1 else 0),
     c2 + (if slotOf rt entry =? 2 then 1 else 0),
     c3 + (if slotOf rt entry =? 3 then 1 else 0)).
Proof.
  unfold countHour, slotOf, getHours, mapOpt.
  destruct (entryDate rt entry) as [t | ].
  - assert (H := local_hour_range t).
    change (60 * 60 * 1000) with 3600000.
    set (hour := (t + tzOffset rt) mod msPerDay / 3600000) in *.
    destruct (Z.leb_spec 0 hour) as [_ | ?]; [ | lia].
    destruct (Z.ltb_spec hour 6); cbn [andb].
    { simpl. now rewrite !Z.add_0_r. }
    destruct (Z.leb_spec 6 hour) as [_ | ?]; [ | lia].
    destruct (Z.ltb_spec hour 12); cbn [andb].
    { simpl. now rewrite !Z.add_0_r. }
    destruct (Z.leb_spec 12 hour) as [_ | ?]; [ | lia].
    destruct (Z.ltb_spec hour 18); cbn [andb].
    { simpl. now rewrite !Z.add_0_r. }
    simpl. now rewrite !Z.add_0_r.
  - simpl. now rewrite !Z.add_0_r.
Qed.

Lemma countSlot_cons (slot : Z) (entry : value) (l : list value) :
  countSlot rt slot (entry :: l)
  = (if slotOf rt entry =? slot then 1 else 0) + countSlot rt slot l.
Proof.
  unfold countSlot. cbn [filter].
  destruct (slotOf rt entry =? slot); cbn [List.length]; lia.
Qed.

Lemma fold_countHour (l : list value) :
  forall c0 c1 c2 c3,
    fold_left (countHour rt) l (c0, c1, c2, c3)
    = (c0 + countSlot rt 0 l, c1 + countSlot rt 1 l,
       c2 + countSlot rt 2 l, c3 + countSlot rt 3 l).
Proof.
  induction l as [ | e l IH]; intros c0 c1 c2 c3.
  - unfold countSlot. simpl. now rewrite !Z.add_0_r.
  - cbn [fold_left]. rewrite countHour_slot, IH, !countSlot_cons.
    now rewrite !Z.add_assoc.
Qed.

Lemma slots_cover (l : list value) :
  countSlot rt 0 l + countSlot rt 1 l + countSlot rt 2 l + countSlot rt 3 l
  = Z.of_nat (List.length l).
Proof.
  induction l as [ | e l IH]; [reflexivity | ].
  rewrite !countSlot_cons. cbn [List.length]. rewrite Nat2Z.inj_succ.
  assert (Hslot : slotOf rt e = 0 \/ slotOf rt e = 1
                  \/ slotOf rt e = 2 \/ slotOf rt e = 3).
  { unfold slotOf. destruct (entryDate rt e); [ | auto].
    repeat match goal with
           | |- context [if ?c then _ else _] => destruct c
           end; auto. }
  destruct Hslot as [-> | [-> | [-> | ->]]];
    change (0 =? 0) with true; change (1 =? 1) with true;
    change (2 =? 2) with true; change (3 =? 3) with true;
    cbv [Z.eqb Pos.eqb]; lia.
Qed.

Lemma StronglySorted_app_order {A : Type} (R : A -> A -> Prop)
      (l1 l2 : list A) :
  StronglySorted R (app l1 l2) ->
  forall x y, In x l1 -> In y l2 -> R x y.
Proof.
  induction l1 as [ | a l1 IH]; intros Hs x y Hx Hy; [destruct Hx | ].
  simpl in Hs. inversion Hs as [ | a' l Hs' Hall]; subst.
  destruct Hx as [<- | Hx].
  - rewrite Forall_forall in Hall. apply Hall. apply in_or_app. now right.
  - now apply IH.
Qed.

End ChartFacts.

(** X10: the four values of the time-of-day chart are the numbers of
    entries in the four slots of the local day (entries without a valid
    timestamp counting as evening); together they are as many as there are
    entries. *)
Theorem getTimeOfDayData_counts :
  forall (rt : Runtime) (this : Tracker),
    values (getTimeOfDayData rt this)
    = [countSlot rt 0 (entries this); countSlot rt 1 (entries this);
       countSlot rt 2 (entries this); countSlot rt 3 (entries this)]
    /\ fold_right Z.add 0 (values (getTimeOfDayData rt this))
       = Z.of_nat (List.length (entries this))
    /\ List.length (labels (getTimeOfDayData rt this)) = 4%nat.
Proof.
  intros rt this.
  assert (Hvalues :
            values (getTimeOfDayData rt this)
            = [countSlot rt 0 (entries this); countSlot rt 1 (entries this);
               countSlot rt 2 (entries this); countSlot rt 3 (entries this)]).
  { unfold getTimeOfDayData. rewrite fold_countHour. cbn [Z.add].
    destruct (forallb (fun count => count =? 0)
                [countSlot rt 0 (entries this); countSlot rt 1 (entries this);
                 countSlot rt 2 (entries this); countSlot rt 3 (entries this)])
      eqn:E; [ | reflexivity].
    cbn [forallb] in E. bool_facts.
    repeat match goal with
           | H : (_ =? 0) = true |- _ => apply Z.eqb_eq in H; rewrite H
           end.
    reflexivity. }
  split; [exact Hvalues | ]. split.
  - rewrite Hvalues. cbn [fold_right]. rewrite <- (slots_cover rt). lia.
  - unfold getTimeOfDayData.
    destruct (fold_left (countHour rt) (entries this) (0, 0, 0, 0))
      as [[[c0 c1] c2] c3].
    destruct (forallb (fun count => count =? 0) [c0; c1; c2; c3]); reflexivity.
Qed.

Example getTimeOfDayData_sample :
  values (getTimeOfDayData Data.utc
            (Data.trackerOf [Data.entryAt 3 1 "2024-03-10T08:30";
                             Data.entryAt 2 1 "2024-03-09T22:00";
                             Data.entryAt 1 1 "2024-03-09T03:15"]))
  = [1; 1; 0; 1].
Proof. vm_compute. reflexivity. Qed.

(** X11: the points of the 48-hour chart are the entries with a timestamp
    in the 48 hours up to [now], each with its date and amount, in ascending
    order of time. *)
Theorem getDailyData_chronological :
  forall (rt : Runtime) (this : Tracker) (now : Z),
    0 <= now <= maxTime ->
    exists recent,
      getDailyData rt this now
      = map (fun entry => (entryDate rt entry, getProp (Some entry) "amount"))
            recent
      /\ Permutation recent
           (filter (inLast rt (2 * msPerDay) now) (entries this))
      /\ sortedAsc rt recent.
Proof.
  intros rt this now Hnow.
  set (window := filter (inLast rt (2 * msPerDay) now) (entries this)).
  assert (Hwin :
            filter (fun entry =>
                      dateGe (entryDate rt entry)
                             (timeClip (now - 48 * 60 * 60 * 1000))
                      && dateLe (entryDate rt entry) (Some now))
                   (entries this) = window).
  { unfold window. apply filter_ext. intros e.
    unfold inLast, dateGe, dateLe, timeClip.
    destruct (Z.leb_spec (Z.abs (now - 48 * 60 * 60 * 1000)) maxTime)
      as [_ | Hgt].
    - destruct (entryDate rt e); reflexivity.
    - unfold maxTime in *. lia. }
  exists (sortBy (chronologicalAfter rt) window).
  split; [ | split].
  - unfold getDailyData. now rewrite Hwin.
  - apply sortBy_perm.
  - unfold sortedAsc.
    apply (sortBy_sorted (chronologicalAfter rt) (hasDate rt)).
    + intros x y [tx Hx] [ty Hy]. unfold chronologicalAfter, dateGt, dateLe.
      rewrite Hx, Hy. destruct (Z.ltb_spec ty tx); apply Z.leb_le; lia.
    + intros x y z [tx Hx] [ty Hy] [tz Hz]. unfold dateLe.
      rewrite Hx, Hy, Hz. rewrite !Z.leb_le. lia.
    + unfold window. rewrite Forall_forall. intros e He.
      apply filter_In in He. destruct He as [_ He].
      unfold inLast in He. unfold hasDate.
      destruct (entryDate rt e) as [t | ]; [now exists t | discriminate].
Qed.

Lemma getDailyData_chronological_witness :
  0 <= Data.mar10_0930 <= maxTime
  /\ exists recent,
      getDailyData Data.utc Cases.tracker Data.mar10_0930
      = map (fun entry =>
               (entryDate Data.utc entry, getProp (Some entry) "amount"))
            recent
      /\ sortedAsc Data.utc recent.
Proof.
  assert (Hnow : 0 <= Data.mar10_0930 <= maxTime)
    by (unfold Data.mar10_0930, maxTime; lia).
  split; [exact Hnow | ].
  destruct (getDailyData_chronological Data.utc Cases.tracker
              Data.mar10_0930 Hnow) as [recent [Hdata [_ Hsorted]]].
  exists recent. split; assumption.
Defined.

Example getDailyData_sample :
  getDailyData Data.utc Cases.tracker Data.mar10_0930
  = [(Some 1710021600000, Some (VNum (3 # 2)));
     (Some 1710059400000, Some (VNum 1))].
Proof. vm_compute. reflexivity. Qed.

(** X12: the list of entries shows the placeholder exactly when there is no
    entry; otherwise it shows validated entries only, at most 20, sorted
    descending by timestamp, and every validated entry that is not shown is
    no later than each one shown. *)
Theorem renderEntries_most_recent_20 :
  forall (rt : Runtime) (this : Tracker),
    match renderEntries rt this with
    | None => entries this = []
    | Some shown =>
        entries this <> []
        /\ (List.length shown <= 20)%nat
        /\ allValid rt shown
        /\ sortedDesc rt shown
        /\ (forall entry, In entry shown -> In entry (entries this))
        /\ (forall entry other,
               In entry shown -> In other (entries this) ->
               validateEntry rt (Some other) = true -> ~ In other shown ->
               dateGe (entryDate rt entry) (entryDate rt other) = true)
    end.
Proof.
  intros rt this. unfold renderEntries.
  destruct (Nat.eqb_spec (List.length (entries this)) 0) as [E | E].
  - now apply length_zero_iff_nil.
  - set (valid := filter (fun entry => validateEntry rt (Some entry))
                         (entries this)).
    assert (Hvalid : allValid rt valid).
    { unfold allValid, valid. rewrite Forall_forall. intros x Hx.
      now apply filter_In in Hx. }
    assert (Hsorted : sortedDesc rt (sortEntries rt valid))
      by (apply sortEntries_sorted; now apply allValid_hasDate).
    assert (Hsplit : sortEntries rt valid
                     = app (firstn 20 (sortEntries rt valid))
                           (skipn 20 (sortEntries rt valid)))
      by (symmetry; apply firstn_skipn).
    split; [ | split; [ | split; [ | split; [ | split]]]].
    + intros Hnil. rewrite Hnil in E. now elim E.
    + apply firstn_le_length.
    + assert (Hall := sortEntries_valid rt valid Hvalid).
      unfold allValid in *. rewrite Forall_forall in *.
      intros x Hx. apply Hall. rewrite Hsplit. apply in_or_app. now left.
    + unfold sortedDesc in *. rewrite Hsplit in Hsorted.
      clear -Hsorted. revert Hsorted.
      generalize (firstn 20 (sortEntries rt valid)).
      generalize (skipn 20 (sortEntries rt valid)). intros l2 l1.
      induction l1 as [ | a l1 IH]; intros H; [constructor | ].
      simpl in H. inversion H as [ | a' l Hs Hall]; subst.
      constructor; [now apply IH | ].
      apply Forall_app in Hall. tauto.
    + intros entry Hin.
      assert (Hin' : In entry (sortEntries rt valid))
        by (rewrite Hsplit; apply in_or_app; now left).
      apply (Permutation_in _ (sortEntries_perm rt valid)) in Hin'.
      unfold valid in Hin'. now apply filter_In in Hin'.
    + intros entry other Hin Hother Hval Hnot.
      assert (Hin' : In other (sortEntries rt valid)).
      { apply (Permutation_in _ (Permutation_sym (sortEntries_perm rt valid))).
        unfold valid. apply filter_In. now split. }
      rewrite Hsplit in Hin'. apply in_app_or in Hin'.
      destruct Hin' as [Hin' | Hin']; [contradiction | ].
      unfold sortedDesc in Hsorted. rewrite Hsplit in Hsorted.
      exact (StronglySorted_app_order _ _ _ Hsorted entry other Hin Hin').
Qed.

Lemma renderEntries_most_recent_20_witness :
  In (Data.entryAt 2 1 "2024-03-10T08:30") (entries Cases.tracker).
Proof.
  assert (H := renderEntries_most_recent_20 Data.utc Cases.tracker).
  assert (E : renderEntries Data.utc Cases.tracker = Some Cases.twoEntries)
    by (vm_compute; reflexivity).
  rewrite E in H.
  apply (proj1 (proj2 (proj2 (proj2 (proj2 H))))).
  left. reflexivity.
Defined.

Example renderEntries_sample :
  renderEntries Data.utc
    (Data.trackerOf [Data.entryAt 1 1 "2024-03-09T22:00";
                     Data.entryAt 0 1 "2024-03-10T09:00";
                     Data.entryAt 2 1 "2024-03-10T08:30"])
  = Some [Data.entryAt 2 1 "2024-03-10T08:30";
          Data.entryAt 1 1 "2024-03-09T22:00"].
Proof. vm_compute. reflexivity. Qed.

(** ** Goals *)

Section GoalFacts.

Variable rt : Runtime.




End GoalFacts.



Example saveGoal_weekly_zero_refused :
  saveGoal Data.utc Cases.tracker Cases.store
    {| formGoalType := "quit"; formStashAmount := None;
       formWeeklyGoal := Some 0%Q |} Data.mar10_0930
  = (Cases.tracker, Cases.store,
     Error "Please enter a valid weekly goal amount (0 or greater).").
Proof. vm_compute. reflexivity. Qed.

(** ** Clearing, resetting and importing *)

Lemma getItem_removeAll (removed : list string) :
  forall (ls : Storage) (k : string),
    getItem k (fold_left (fun store key => removeItem key store) removed ls)
    = if existsb (fun r => String.eqb r k) removed then None
      else getItem k ls.
Proof.
  induction removed as [ | r removed IH]; intros ls k;
    cbn [fold_left existsb]; [reflexivity | ].
  rewrite IH. destruct (String.eqb_spec r k) as [-> | Hne]; cbn [orb].
  - rewrite getItem_removeItem_same.
    now destruct (existsb (fun r => String.eqb r k) removed).
  - now rewrite getItem_removeItem_other.
Qed.

Lemma removed_are_backups (ls : Storage) (k : string) :
  existsb (fun r => String.eqb r k)
          (skipn 5 (rev (sortBy strAfter (backupKeysOf ls)))) = true ->
  isBackupKey k = true.
Proof.
  intros H. apply existsb_exists in H. destruct H as [r [Hr E]].
  apply String.eqb_eq in E. subst r.
  assert (Hin : In k (backupKeysOf ls)).
  { apply (Permutation_in _ (sortBy_perm strAfter (backupKeysOf ls))).
    apply in_rev.
    rewrite <- (firstn_skipn 5 (rev (sortBy strAfter (backupKeysOf ls)))).
    apply in_or_app. now right. }
  unfold backupKeysOf in Hin. apply filter_In in Hin. exact (proj2 Hin).
Qed.

Lemma getItem_cleanup_other (ls : Storage) (k : string) :
  isBackupKey k = false ->
  getItem k (cleanupOldBackups ls) = getItem k ls.
Proof.
  intros Hk. unfold cleanupOldBackups. rewrite getItem_removeAll.
  destruct (existsb (fun r => String.eqb r k)
                    (skipn 5 (rev (sortBy strAfter (backupKeysOf ls)))))
    eqn:E; [ | reflexivity].
  apply removed_are_backups in E. congruence.
Qed.


Lemma backupKeysOf_without (ls : Storage) (k : string) :
  isBackupKey k = false ->
  filter (fun key => negb (String.eqb k key)) (backupKeysOf ls)
  = backupKeysOf ls.
Proof.
  intros Hk. apply filter_all_in. intros key Hkey.
  apply negb_true_iff. apply String.eqb_neq. intros <-.
  unfold backupKeysOf in Hkey. apply filter_In in Hkey.
  destruct Hkey as [_ Hkey]. unfold isBackupKey in Hk. congruence.
Qed.

(** X14: clearing all data empties the entries and puts the default goals
    and alternatives in place, in the tracker and in the store, so that a
    reload starts from them; the settings are kept, and so is everything
    else in the store: every backup written by an import is still there. *)
Theorem clearData_keeps_settings_and_backups :
  forall (rt : Runtime) (this : Tracker) (ls : Storage),
    let this' := fst (fst (clearData this ls)) in
    let ls' := snd (fst (clearData this ls)) in
    this' = {| entries := []; goals := getDefaultGoals;
               settings := settings this |}
    /\ loadEntries rt ls' = []
    /\ loadGoals rt ls' = getDefaultGoals
    /\ loadAlternatives ls' = getDefaultAlternatives
    /\ loadSettings rt ls' = loadSettings rt ls
    /\ backupKeysOf ls' = backupKeysOf ls
    /\ (forall key,
           key <> "weedTrackerEntries" -> key <> "weedTrackerGoals" ->
           key <> "weedTrackerAlternatives" ->
           getItem key ls' = getItem key ls).
Proof.
  intros rt this ls. unfold clearData. cbn [fst snd].
  unfold saveGoals, saveEntries. cbn [entries goals].
  split; [reflexivity | ]. split; [ | split; [ | split; [ | split; [ | split]]]].
  - unfold loadEntries.
    rewrite !getItem_setItem_other by discriminate.
    now rewrite getItem_setItem_same.
  - unfold loadGoals.
    rewrite getItem_setItem_other by discriminate.
    now rewrite getItem_setItem_same.
  - unfold loadAlternatives. now rewrite getItem_setItem_same.
  - unfold loadSettings.
    rewrite !getItem_setItem_other by discriminate.
    now rewrite !getItem_removeItem_other by discriminate.
  - rewrite !backupKeysOf_setItem_other by reflexivity.
    rewrite !backupKeysOf_removeItem.
    now rewrite !backupKeysOf_without by reflexivity.
  - intros key H1 H2 H3.
    rewrite !getItem_setItem_other by auto.
    now rewrite !getItem_removeItem_other by auto.
Qed.

Lemma clearData_keeps_settings_and_backups_witness :
  getItem "weedTrackerSettings" (snd (fst (clearData Cases.tracker Cases.store)))
  = getItem "weedTrackerSettings" Cases.store.
Proof.
  apply (proj2 (proj2 (proj2 (proj2 (proj2 (proj2
           (clearData_keeps_settings_and_backups Data.utc Cases.tracker
              Cases.store)))))));
    discriminate.
Defined.

Example clearData_after_import :
  backupKeysOf
    (snd (fst (clearData
                 (fst (importAll Data.utc (Data.noTracker, [])
                         Data.sevenImports))
                 (snd (importAll Data.utc (Data.noTracker, [])
                         Data.sevenImports)))))
  = map backupKey (lastn 5 (map snd Data.sevenImports)).
Proof. vm_compute. reflexivity. Qed.

(** X15: resetting the goal puts the default goals in place and saves them:
    a reload reads the default goals, the goal card asks for a weekly goal,
    and entries, settings and the rest of the store stay as they were. *)
Theorem resetGoal_restores_defaults :
  forall (rt : Runtime) (this : Tracker) (ls : Storage) (now : Z),
    let this' := fst (fst (resetGoal this ls)) in
    let ls' := snd (fst (resetGoal this ls)) in
    this' = {| entries := entries this; goals := getDefaultGoals;
               settings := settings this |}
    /\ loadGoals rt ls' = getDefaultGoals
    /\ updateGoalProgress rt this' now
       = {| progress := Some 0%Q;
            goalText := "Set a weekly goal to track progress" |}
    /\ (forall key, key <> "weedTrackerGoals" ->
                    getItem key ls' = getItem key ls).
Proof.
  intros rt this ls now. unfold resetGoal. cbn [fst snd].
  unfold saveGoals. cbn [goals].
  split; [reflexivity | ]. split; [ | split].
  - unfold loadGoals. now rewrite getItem_setItem_same.
  - reflexivity.
  - intros key Hkey. now rewrite getItem_setItem_other by auto.
Qed.

Lemma resetGoal_restores_defaults_witness :
  getItem "weedTrackerEntries" (snd (fst (resetGoal Cases.tracker Cases.store)))
  = getItem "weedTrackerEntries" Cases.store.
Proof.
  apply (proj2 (proj2 (proj2
           (resetGoal_restores_defaults Data.utc Cases.tracker Cases.store
              Data.mar10_0930))));
    discriminate.
Defined.

Section ImportStoreFacts.

Variable rt : Runtime.

Lemma objSpread_goals (v : option value) :
  validateGoals rt v = true -> exists w, v = Some w /\ objSpread v = w.
Proof.
  destruct v as [w | ]; [ | discriminate].
  intros H. destruct (validateGoals_record rt w H) as [fields ->].
  now exists (VObj fields).
Qed.

Lemma objSpread_settings (v : option value) :
  validateSettings rt v = true -> exists w, v = Some w /\ objSpread v = w.
Proof.
  destruct v as [w | ]; [ | discriminate].
  intros H. destruct (validateSettings_record rt w H) as [fields ->].
  now exists (VObj fields).
Qed.

End ImportStoreFacts.

(** X16: a committed import of a document that passes the import validator
    and holds only finite numbers takes over the entries in the order of the
    document, its goals and its settings, and saves them as they are: a
    reload reads the same goals and settings, and the entries sorted
    descending by timestamp. *)
Theorem importData_persists :
  forall (rt : Runtime) (this : Tracker) (ls : Storage) (data : value)
         (now : Z),
    validateImportData rt (Some data) = true ->
    jsonSafe data = true ->
    let this' := fst (fst (importData rt this ls (Json data) true now)) in
    let ls' := snd (fst (importData rt this ls (Json data) true now)) in
    entries this' = arrayItems (getProp (Some data) "entries")
    /\ getProp (Some data) "goals" = Some (goals this')
    /\ getProp (Some data) "settings" = Some (settings this')
    /\ getItem "weedTrackerEntries" ls' = Some (written (VArr (entries this')))
    /\ getItem "weedTrackerGoals" ls' = Some (written (goals this'))
    /\ getItem "weedTrackerSettings" ls' = Some (written (settings this'))
    /\ newTracker rt ls'
       = {| entries := sortEntries rt (entries this');
            goals := goals this';
            settings := settings this' |}.
Proof.
  intros rt this ls data now Hvalid Hfinite.
  assert (Hpart := jsonSafe_prop data Hfinite).
  assert (Hparts := proj1 (validateImportData_iff rt data) Hvalid).
  destruct Hparts as [_ [Harr [Hgoals [Hsettings Hall]]]].
  destruct (objSpread_goals rt _ Hgoals) as [g [Hg Hg']].
  destruct (objSpread_settings rt _ Hsettings) as [s [Hs Hs']].
  unfold importData. rewrite Hvalid. cbn [negb]. unfold performImport.
  destruct (getProp (Some data) "entries")
    as [[ | b | q | str | items | f] | ] eqn:Hitems;
    try discriminate.
  cbn [fst snd entries goals settings arrayItems] in *.
  rewrite Hg', Hs'. split; [reflexivity | ].
  split; [exact Hg | ]. split; [exact Hs | ].
  rewrite <- (written_safe _ (Hpart "entries" _ Hitems)).
  rewrite <- (written_safe _ (Hpart "goals" _ Hg)).
  rewrite <- (written_safe _ (Hpart "settings" _ Hs)).
  unfold newTracker, loadEntries, loadGoals, loadSettings.
  rewrite !getItem_cleanup_other by reflexivity.
  unfold saveSettings, saveGoals, saveEntries. cbn [entries goals settings].
  rewrite getItem_setItem_same.
  rewrite (getItem_setItem_other "weedTrackerSettings" "weedTrackerGoals")
    by discriminate.
  rewrite getItem_setItem_same.
  rewrite !(getItem_setItem_other _ "weedTrackerEntries") by discriminate.
  rewrite getItem_setItem_same.
  split; [reflexivity | ]. split; [reflexivity | ]. split; [reflexivity | ].
  rewrite Hg in Hgoals. rewrite Hs in Hsettings.
  rewrite Hgoals, Hsettings. f_equal. f_equal.
  apply filter_all_in. unfold allValid in Hall.
  now rewrite Forall_forall in Hall.
Qed.

Lemma importData_persists_witness :
  validateImportData Data.utc (Some (Cases.documentOf (rev Cases.twoEntries)))
  = true
  /\ newTracker Data.utc
       (snd (fst (importData Data.utc Data.noTracker []
                    (Json (Cases.documentOf (rev Cases.twoEntries))) true
                    Data.mar10_0930)))
     = {| entries :=
            sortEntries Data.utc
              (entries (fst (fst (importData Data.utc Data.noTracker []
                                    (Json (Cases.documentOf
                                             (rev Cases.twoEntries)))
                                    true Data.mar10_0930))));
          goals :=
            goals (fst (fst (importData Data.utc Data.noTracker []
                               (Json (Cases.documentOf (rev Cases.twoEntries)))
                               true Data.mar10_0930)));
          settings :=
            settings (fst (fst (importData Data.utc Data.noTracker []
                                  (Json (Cases.documentOf
                                           (rev Cases.twoEntries)))
                                  true Data.mar10_0930))) |}.
Proof.
  assert (Hvalid :
            validateImportData Data.utc
              (Some (Cases.documentOf (rev Cases.twoEntries))) = true)
    by reflexivity.
  split; [exact Hvalid | ].
  apply (importData_persists Data.utc Data.noTracker []
           (Cases.documentOf (rev Cases.twoEntries)) Data.mar10_0930 Hvalid).
  reflexivity.
Defined.

Example import_then_reload_sorts :
  entries (fst (fst (importData Data.utc Data.noTracker []
                       (Json (Cases.documentOf (rev Cases.twoEntries))) true
                       Data.mar10_0930)))
  = rev Cases.twoEntries
  /\ entries (newTracker Data.utc
                (snd (fst (importData Data.utc Data.noTracker []
                             (Json (Cases.documentOf (rev Cases.twoEntries)))
                             true Data.mar10_0930))))
     = Cases.twoEntries.
Proof. split; vm_compute; reflexivity. Qed.



(** ** Alternatives *)






Example markSuggestionAsTried_twice :
  markSuggestionAsTried getDefaultAlternatives [] "walk"
  = Some (VObj [("triedItems", VArr [VStr "walk"]); ("lastRefresh", VNull)],
          [("weedTrackerAlternatives",
            Json (VObj [("triedItems", VArr [VStr "walk"]);
                        ("lastRefresh", VNull)]))],
          Some (Success "Great job trying an alternative!"))
  /\ markSuggestionAsTried
       (VObj [("triedItems", VArr [VStr "walk"]); ("lastRefresh", VNull)])
       [] "walk"
     = Some (VObj [("triedItems", VArr [VStr "walk"]); ("lastRefresh", VNull)],
             [], None).
Proof. split; reflexivity. Qed.

(** ** Sanitizing text *)

Lemma noAngles_removeAngles (s : string) : noAngles (removeAngles s) = true.
Proof.
  unfold noAngles, chars. induction s as [ | c s IH]; [reflexivity | ].
  simpl. destruct (isAngle c) eqn:E; [exact IH | ].
  simpl. now rewrite E.
Qed.

Lemma removeAngles_noAngles (s : string) :
  noAngles s = true -> removeAngles s = s.
Proof.
  unfold noAngles, chars. induction s as [ | c s IH]; [reflexivity | ].
  simpl. intros H. apply andb_true_iff in H. destruct H as [Hc Hs].
  apply negb_true_iff in Hc. rewrite Hc. f_equal. now apply IH.
Qed.

Lemma noAngles_substring (m : nat) :
  forall s, noAngles s = true -> noAngles (substring 0 m s) = true.
Proof.
  unfold noAngles, chars. induction m as [ | m IH]; intros [ | c s];
    simpl; try reflexivity.
  intros H. apply andb_true_iff in H. destruct H as [Hc Hs].
  rewrite Hc. now apply IH.
Qed.

Lemma noAngles_trimStart (s : string) :
  noAngles s = true -> noAngles (trimStart s) = true.
Proof.
  unfold noAngles, chars. induction s as [ | c s IH]; [reflexivity | ].
  simpl. intros H. destruct (isWhiteSpace c); [ | exact H].
  apply andb_true_iff in H. now apply IH.
Qed.

Lemma noAngles_trimEnd (s : string) :
  noAngles s = true -> noAngles (trimEnd s) = true.
Proof.
  unfold noAngles, chars. induction s as [ | c s IH]; [reflexivity | ].
  simpl. intros H. apply andb_true_iff in H. destruct H as [Hc Hs].
  destruct (isWhiteSpace c && String.eqb (trimEnd s) ""); [reflexivity | ].
  simpl. rewrite Hc. now apply IH.
Qed.

Lemma length_substring_le (m : nat) :
  forall s, (String.length (substring 0 m s) <= m)%nat.
Proof.
  induction m as [ | m IH]; intros [ | c s]; simpl; try lia.
  specialize (IH s). lia.
Qed.

Lemma substring_short (m : nat) :
  forall s, (String.length s <= m)%nat -> substring 0 m s = s.
Proof.
  induction m as [ | m IH]; intros [ | c s]; simpl; intros H;
    try reflexivity; try lia.
  f_equal. apply IH. lia.
Qed.

Lemma length_trimStart_le (s : string) :
  (String.length (trimStart s) <= String.length s)%nat.
Proof.
  induction s as [ | c s IH]; simpl; [lia | ].
  destruct (isWhiteSpace c); simpl; lia.
Qed.

Lemma length_trimEnd_le (s : string) :
  (String.length (trimEnd s) <= String.length s)%nat.
Proof.
  induction s as [ | c s IH]; simpl; [lia | ].
  destruct (isWhiteSpace c && String.eqb (trimEnd s) ""); simpl; lia.
Qed.

Lemma trimEnd_idempotent (s : string) : trimEnd (trimEnd s) = trimEnd s.
Proof.
  induction s as [ | c s IH]; [reflexivity | ].
  simpl. destruct (isWhiteSpace c && String.eqb (trimEnd s) "") eqn:E;
    [reflexivity | ].
  simpl. now rewrite IH, E.
Qed.

(** A string that is empty or starts with a character that is no white
    space. *)
Lemma trimStart_head (s : string) :
  trimStart s = ""
  \/ exists c rest, trimStart s = String c rest /\ isWhiteSpace c = false.
Proof.
  induction s as [ | c s IH]; [now left | ].
  simpl. destruct (isWhiteSpace c) eqn:E; [exact IH | ].
  right. now exists c, s.
Qed.

Lemma last_cons {A : Type} (l : list A) :
  forall a d, last (a :: l) d = last l a.
Proof.
  induction l as [ | b l IH]; intros a d; [reflexivity | ].
  change (last (a :: b :: l) d) with (last (b :: l) d).
  now rewrite !IH.
Qed.

Lemma trimEnd_last (s : string) :
  match chars (trimEnd s) with
  | [] => True
  | c :: rest => isWhiteSpace (last rest c) = false
  end.
Proof.
  unfold chars. induction s as [ | c s IH]; [exact I | ].
  simpl. destruct (isWhiteSpace c && String.eqb (trimEnd s) "") eqn:E;
    [exact I | ].
  simpl. destruct (trimEnd s) as [ | c' rest] eqn:Et.
  - simpl. rewrite andb_true_r in E. exact E.
  - simpl in IH. change (list_ascii_of_string (String c' rest))
      with (c' :: list_ascii_of_string rest).
    now rewrite last_cons.
Qed.

Lemma trim_trimmed (s : string) :
  trimmed (trim s) = true /\ trim (trim s) = trim s.
Proof.
  unfold trim.
  assert (Hlast := trimEnd_last (trimStart s)).
  destruct (trimStart_head s) as [E | [c [rest [E Hc]]]];
    rewrite E in *; [now split | ].
  assert (Hstep : forall r, trimEnd (String c r) = String c (trimEnd r))
    by (intros r; simpl; now rewrite Hc).
  rewrite Hstep in *. unfold chars in Hlast.
  change (list_ascii_of_string (String c (trimEnd rest)))
    with (c :: list_ascii_of_string (trimEnd rest)) in Hlast.
  cbv beta iota in Hlast.
  split.
  - unfold trimmed, chars.
    change (list_ascii_of_string (String c (trimEnd rest)))
      with (c :: list_ascii_of_string (trimEnd rest)).
    cbv beta iota. now rewrite Hc, Hlast.
  - assert (Hstart : trimStart (String c (trimEnd rest))
                     = String c (trimEnd rest))
      by (simpl; now rewrite Hc).
    now rewrite Hstart, Hstep, trimEnd_idempotent.
Qed.

(** X19: whatever the input, the sanitized text holds no angle bracket, is
    at most [maxLength] characters long and neither starts nor ends with
    white space; sanitizing it again changes nothing, and an input that is no
    string gives the empty text. *)
Theorem sanitizeInput_clean :
  forall (input : option value) (maxLength : nat),
    noAngles (sanitizeInput input maxLength) = true
    /\ (String.length (sanitizeInput input maxLength) <= maxLength)%nat
    /\ trimmed (sanitizeInput input maxLength) = true
    /\ sanitizeInput (Some (VStr (sanitizeInput input maxLength))) maxLength
       = sanitizeInput input maxLength
    /\ (typeof input <> TString -> sanitizeInput input maxLength = "").
Proof.
  intros input maxLength.
  assert (Hempty : noAngles "" = true /\ (String.length "" <= maxLength)%nat
                   /\ trimmed "" = true
                   /\ sanitizeInput (Some (VStr "")) maxLength = "").
  { repeat split; simpl; try lia. now destruct maxLength. }
  destruct input as [[ | b | q | s | l | f] | ];
    try (cbn [sanitizeInput typeof];
         destruct Hempty as [H1 [H2 [H3 H4]]]; repeat split; assumption).
  clear Hempty. cbn [sanitizeInput].
  set (cut := substring 0 maxLength (removeAngles s)).
  assert (Hangles : noAngles (trim cut) = true).
  { unfold trim. apply noAngles_trimEnd, noAngles_trimStart.
    apply noAngles_substring, noAngles_removeAngles. }
  assert (Hlen : (String.length (trim cut) <= maxLength)%nat).
  { unfold trim.
    assert (H1 := length_trimEnd_le (trimStart cut)).
    assert (H2 := length_trimStart_le cut).
    assert (H3 := length_substring_le maxLength (removeAngles s)).
    fold cut in H3. lia. }
  destruct (trim_trimmed cut) as [Htrimmed Htrim].
  repeat split; try assumption.
  - rewrite (removeAngles_noAngles _ Hangles).
    rewrite (substring_short _ _ Hlen). exact Htrim.
  - intros H. now elim H.
Qed.

Lemma sanitizeInput_clean_witness : sanitizeInput (Some (VNum 5)) 20 = "".
Proof.
  apply (proj2 (proj2 (proj2 (proj2 (sanitizeInput_clean (Some (VNum 5)) 20))))).
  discriminate.
Defined.

Example sanitizeInput_sample :
  sanitizeInput (Some (VStr "  <b>with friends</b>  after work ")) 20
  = "bwith friends/b  a"
  /\ sanitizeInput (Some (VNum 5)) 20 = "".
Proof. split; reflexivity. Qed.

(** ** The unit of the time since the last entry *)

Lemma unit_thresholds (diff : Z) :
  0 <= diff ->
  (0 <? wholeYears diff) = (366 <=? wholeDays diff)
  /\ (0 <? wholeMonths diff) = (31 <=? wholeDays diff)
  /\ (0 <? wholeDays diff) = (1 <=? wholeDays diff)
  /\ (0 <? wholeHours diff) = (3600000 <=? diff)
  /\ 0 <= wholeYears diff /\ 0 <= wholeMonths diff /\ 0 <= wholeDays diff
  /\ 0 <= wholeHours diff /\ 0 <= wholeMinutes diff.
Proof.
  intros Hdiff.
  unfold wholeYears, wholeMonths, wholeHours, wholeMinutes.
  assert (Hdays : 0 <= wholeDays diff)
    by (unfold wholeDays; apply Z.div_pos; lia).
  generalize dependent (wholeDays diff). intros days Hdays.
  repeat split; try assumption;
    try (apply Z.div_pos; lia);
    try (apply Bool.eq_true_iff_eq; rewrite Z.ltb_lt, Z.leb_le;
         Z.to_euclidean_division_equations; lia).
Qed.

(** X21: for validated entries none of which is later than [now], the time
    since the latest one is shown in years from 366 whole days on, in months
    from 31 whole days on, in days from one whole day on, in hours from one
    whole hour on and in minutes below that; the value is between 0 and
    99. *)
Theorem calculateTimeSinceLastJoint_unit_by_days :
  forall (rt : Runtime) (this : Tracker) (now t : Z),
    allValid rt (entries this) ->
    latestTime rt (entries this) t ->
    t <= now ->
    tsUnit (calculateTimeSinceLastJoint rt this now) = unitByDays (now - t)
    /\ exists v,
        tsValue (calculateTimeSinceLastJoint rt this now) = Some v
        /\ 0 <= v <= 99
        /\ v = Z.min (snd (coarsestUnit (fun c => 0 <? c) (now - t))) 99.
Proof.
  intros rt this now t Hvalid [[e0 [Hin0 Ht0]] Hmax0] Hpast.
  unfold calculateTimeSinceLastJoint.
  destruct (entries this) as [ | first rest] eqn:E; [destruct Hin0 | ].
  destruct (mostRecent_latest rt first rest (allValid_hasDate rt _ Hvalid))
    as [latest [t1 [Hscan [Hin [Hdate Hmax]]]]].
  assert (Hsame : t1 = t).
  { specialize (Hmax e0 t Hin0 Ht0). specialize (Hmax0 latest t1 Hin Hdate).
    lia. }
  subst t1. rewrite Hscan. cbn [mapOpt gtZeroZ minZ99].
  rewrite floor_months, floor_years.
  unfold coarsestUnit, unitCounts, unitByDays. cbn [find snd].
  change ((now - t) / (1000 * 60 * 60 * 24)) with (wholeDays (now - t)).
  change ((now - t) / (1000 * 60 * 60)) with (wholeHours (now - t)).
  change ((now - t) / (1000 * 60)) with (wholeMinutes (now - t)).
  change (wholeDays (now - t) * 100 / 36525) with (wholeYears (now - t)).
  change (wholeDays (now - t) * 100 / 3044) with (wholeMonths (now - t)).
  destruct (unit_thresholds (now - t) ltac:(lia))
    as [Hy [Hm [Hd [Hh [Py [Pm [Pd [Ph Pmin]]]]]]]].
  rewrite <- Hy, <- Hm, <- Hd, <- Hh.
  destruct (0 <? wholeYears (now - t));
    [split; [reflexivity | eexists; split; [reflexivity | ]; cbn [snd]; lia] | ].
  destruct (0 <? wholeMonths (now - t));
    [split; [reflexivity | eexists; split; [reflexivity | ]; cbn [snd]; lia] | ].
  destruct (0 <? wholeDays (now - t));
    [split; [reflexivity | eexists; split; [reflexivity | ]; cbn [snd]; lia] | ].
  destruct (0 <? wholeHours (now - t));
    [split; [reflexivity | eexists; split; [reflexivity | ]; cbn [snd]; lia] | ].
  destruct (0 <? wholeMinutes (now - t));
    (split; [reflexivity | eexists; split; [reflexivity | ]; cbn [snd]; lia]).
Qed.

Lemma calculateTimeSinceLastJoint_unit_by_days_witness :
  allValid Data.utc (entries Cases.tracker)
  /\ latestTime Data.utc (entries Cases.tracker) Data.mar10_0830
  /\ tsUnit (calculateTimeSinceLastJoint Data.utc Cases.tracker
               Data.mar10_0930)
     = unitByDays (Data.mar10_0930 - Data.mar10_0830).
Proof.
  assert (Hvalid : allValid Data.utc (entries Cases.tracker))
    by (repeat constructor).
  assert (Hlatest : latestTime Data.utc (entries Cases.tracker)
                      Data.mar10_0830).
  { split.
    - exists (Data.entryAt 2 1 "2024-03-10T08:30").
      split; [now left | reflexivity].
    - intros e t' [<- | [<- | []]] Ht'; vm_compute in Ht';
        injection Ht' as <-; unfold Data.mar10_0830; lia. }
  split; [exact Hvalid | ]. split; [exact Hlatest | ].
  apply (calculateTimeSinceLastJoint_unit_by_days Data.utc Cases.tracker
           Data.mar10_0930 Data.mar10_0830 Hvalid Hlatest).
  unfold Data.mar10_0830, Data.mar10_0930. lia.
Defined.

Example calculateTimeSinceLastJoint_365_days :
  calculateTimeSinceLastJoint Data.utc
    (Data.trackerOf [Data.entryAt 1 1 "2023-03-11T09:30"])
    Data.mar10_0930
  = {| tsValue := Some 11; tsUnit := "months";
       tsText := "Last usage: 1g Joint at 09:30" |}.
Proof. vm_compute. reflexivity. Qed.

(** ** The validators, characterised *)

Lemma optionalText_iff (v : option value) :
  truthy v && negb (jstype_eqb (typeof v) TString) = false <-> optionalText v.
Proof.
  unfold optionalText.
  destruct v as [[ | b | q | s | l | f] | ]; simpl;
    try (split; [now left | reflexivity]).
  - destruct b; simpl.
    + split; [discriminate | ]. intros [H | [s H]]; discriminate.
    + split; [now left | reflexivity].
  - destruct (Qeq_bool q 0); simpl.
    + split; [now left | reflexivity].
    + split; [discriminate | ]. intros [H | [s H]]; discriminate.
  - rewrite andb_false_r. split; [right; now exists s | reflexivity].
  - split; [discriminate | ]. intros [H | [s H]]; discriminate.
  - split; [discriminate | ]. intros [H | [s H]]; discriminate.
Qed.

(** X22: the entry validator accepts exactly the records with a non-zero
    number as id, a number above 0 as amount, a non-empty string as method, a
    truthy timestamp that is a valid date, and notes and mood that are each
    absent, falsy or a string.  It does not look at which method or mood it
    is. *)
Theorem validateEntry_iff :
  forall (rt : Runtime) (entry : option value),
    validateEntry rt entry = true
    <-> (exists fields, entry = Some (VObj fields))
        /\ (exists q, getProp entry "id" = Some (VNum q) /\ ~ (q == 0)%Q)
        /\ (exists q, getProp entry "amount" = Some (VNum q) /\ (0 < q)%Q)
        /\ (exists s, getProp entry "method" = Some (VStr s) /\ s <> "")
        /\ optionalText (getProp entry "notes")
        /\ optionalText (getProp entry "mood")
        /\ truthy (getProp entry "timestamp") = true
        /\ isValidDate rt (getProp entry "timestamp") = true.
Proof.
  intros rt entry. split.
  - intros H.
    destruct (validateEntry_accepted rt entry H)
      as [Hobj Hid Hamount Hmethod [t Ht] Htruthy].
    unfold validateEntry in H.
    peel H. peel H. peel H. peel H. peel H. peel H. peel H.
    repeat split; try assumption.
    + now apply optionalText_iff.
    + now apply optionalText_iff.
    + unfold isValidDate. now rewrite Ht.
  - intros [[fields ->] [[i [Hid Hi]] [[a [Ha Hpos]] [[m [Hm Hne]]
             [Hnotes [Hmood [Htruthy Hdate]]]]]]].
    apply optionalText_iff in Hnotes, Hmood.
    unfold validateEntry.
    rewrite Hnotes, Hmood, Htruthy, Hdate, Hid, Ha, Hm.
    cbn [truthy typeof jstype_eqb negb orb andb].
    apply Qeq_bool_false in Hi. rewrite Hi.
    assert (Ha0 : Qeq_bool a 0 = false).
    { apply Qeq_bool_false. intros E. rewrite E in Hpos.
      now apply (Qlt_irrefl 0). }
    assert (Hle : leNum rt (Some (VNum a)) 0 = false)
      by (unfold leNum; simpl; now apply Qle_bool_false).
    rewrite Ha0, Hle. apply String.eqb_neq in Hne. rewrite Hne.
    reflexivity.
Qed.

Lemma validateEntry_iff_witness :
  validateEntry Data.utc
    (Some (Data.minimalEntry 7 1 "dab" "2024-03-10T08:30")) = true.
Proof.
  apply (proj2 (validateEntry_iff Data.utc
                  (Some (Data.minimalEntry 7 1 "dab" "2024-03-10T08:30")))).
  split; [eexists; reflexivity | ].
  split; [exists 7%Q; split; [reflexivity | discriminate] | ].
  split; [exists 1%Q; split; reflexivity | ].
  split; [exists "dab"; split; [reflexivity | discriminate] | ].
  split; [left; reflexivity | ].
  split; [left; reflexivity | ].
  split; vm_compute; reflexivity.
Defined.

Example validateEntry_unknown_method :
  validateEntry Data.utc
    (Some (VObj [("id", VNum 7); ("amount", VNum 1);
                 ("method", VStr "dab"); ("mood", VNum 0);
                 ("notes", VNull);
                 ("timestamp", VStr "2024-03-10T08:30")])) = true
  /\ validateEntry Data.utc
       (Some (VObj [("id", VNum 7); ("amount", VNum 1);
                    ("method", VStr "joint"); ("mood", VNum 3);
                    ("timestamp", VStr "2024-03-10T08:30")])) = false.
Proof. split; reflexivity. Qed.

(** ** Export *)

(** X23: the export writes a document exactly when the goals and the
    settings pass their validators and the export date prints as a non-empty
    valid date.  The document holds the entries, goals and settings as
    [JSON.stringify] writes them, with [null] for an infinite number.  When
    all their numbers are finite it holds them as they are; the entries are
    not checked, so the document then passes the import validator exactly
    when every entry passes the entry validator. *)
Theorem exportData_checks_goals_and_settings :
  forall (rt : Runtime) (this : Tracker) (now : Z),
    (fst (exportData rt this now) <> None
     <-> validateGoals rt (Some (goals this)) = true
         /\ validateSettings rt (Some (settings this)) = true
         /\ toISOString rt now <> ""
         /\ isValidDate rt (Some (VStr (toISOString rt now))) = true)
    /\ (forall data,
           fst (exportData rt this now) = Some data ->
           getProp (Some data) "entries"
           = Some (stringify (VArr (entries this)))
           /\ getProp (Some data) "goals" = Some (stringify (goals this))
           /\ getProp (Some data) "settings"
              = Some (stringify (settings this))
           /\ snd (exportData rt this now)
              = Success "Data exported successfully!"
           /\ (jsonSafe (VArr (entries this)) = true ->
               jsonSafe (goals this) = true ->
               jsonSafe (settings this) = true ->
               data = VObj [("entries", VArr (entries this));
                            ("goals", goals this);
                            ("settings", settings this);
                            ("exportDate", VStr (toISOString rt now))]
               /\ (validateImportData rt (Some data) = true
                   <-> allValid rt (entries this)))).
Proof.
  intros rt this now.
  set (data := VObj [("entries", VArr (entries this));
                     ("goals", goals this);
                     ("settings", settings this);
                     ("exportDate", VStr (toISOString rt now))]).
  assert (Hcheck :
            validateExportData rt (Some data) = true
            <-> validateGoals rt (Some (goals this)) = true
                /\ validateSettings rt (Some (settings this)) = true
                /\ toISOString rt now <> ""
                /\ isValidDate rt (Some (VStr (toISOString rt now))) = true).
  { unfold validateExportData, data. simpl.
    destruct (validateGoals rt (Some (goals this))); simpl;
      [ | split; [discriminate | intros [H _]; discriminate]].
    destruct (validateSettings rt (Some (settings this))); simpl;
      [ | split; [discriminate | intros [_ [H _]]; discriminate]].
    destruct (String.eqb_spec (toISOString rt now) "") as [E | E]; simpl;
      [split; [discriminate | intros [_ [_ [H _]]]; contradiction] | ].
    destruct (isValidDate rt (Some (VStr (toISOString rt now)))); simpl;
      [tauto | split; [discriminate | intros [_ [_ [_ H]]]; discriminate]]. }
  unfold exportData. fold data.
  destruct (validateExportData rt (Some data)) eqn:E; cbn [negb fst snd].
  - split.
    + split; [intros _; now apply Hcheck | discriminate].
    + intros d Hd. injection Hd as <-.
      split; [reflexivity | ]. split; [reflexivity | ].
      split; [reflexivity | ]. split; [reflexivity | ].
      intros Fentries Fgoals Fsettings.
      assert (Hwritten : stringify data = data).
      { apply stringify_safe. unfold data. cbn [jsonSafe forallb] in *.
        now rewrite Fentries, Fgoals, Fsettings. }
      change (stringify data = data
              /\ (validateImportData rt (Some (stringify data)) = true
                  <-> allValid rt (entries this))).
      rewrite Hwritten. split; [reflexivity | ]. split.
      * intros H. apply validateImportData_iff in H.
        exact (proj2 (proj2 (proj2 (proj2 H)))).
      * intros Hall. apply validateImportData_iff.
        destruct (proj1 Hcheck eq_refl) as [Hg [Hs _]].
        unfold data. simpl. repeat split; assumption.
  - split.
    + split; [intros H; now elim H | ].
      intros H. apply Hcheck in H. discriminate.
    + intros d Hd. discriminate.
Qed.

Lemma exportData_checks_goals_and_settings_witness :
  exists data,
    fst (exportData Data.utc Cases.tracker Data.mar10_0930) = Some data
    /\ getProp (Some data) "entries" = Some (VArr Cases.twoEntries)
    /\ validateImportData Data.utc (Some data) = true.
Proof.
  destruct (exportData_checks_goals_and_settings Data.utc Cases.tracker
              Data.mar10_0930) as [Hwrites Hdocument].
  assert (Hsome : fst (exportData Data.utc Cases.tracker Data.mar10_0930)
                  <> None).
  { apply Hwrites.
    split; [vm_compute; reflexivity | ].
    split; [vm_compute; reflexivity | ].
    split; [vm_compute; discriminate | vm_compute; reflexivity]. }
  destruct (fst (exportData Data.utc Cases.tracker Data.mar10_0930))
    as [data | ] eqn:E; [ | now elim Hsome].
  exists data. split; [reflexivity | ].
  destruct (Hdocument data eq_refl) as [Hentries [_ [_ [_ Hfinite]]]].
  destruct (Hfinite eq_refl eq_refl eq_refl) as [_ Himport].
  split.
  - rewrite Hentries. vm_compute. reflexivity.
  - apply Himport. repeat constructor.
Defined.

Example exportData_with_invalid_entry :
  snd (exportData Data.utc
         (Data.trackerOf [Data.entryAt 0 1 "2024-03-10T08:30"])
         Data.mar10_0930)
  = Success "Data exported successfully!"
  /\ validateImportData Data.utc
       (fst (exportData Data.utc
               (Data.trackerOf [Data.entryAt 0 1 "2024-03-10T08:30"])
               Data.mar10_0930))
     = false.
Proof. split; vm_compute; reflexivity. Qed.

(** ** The states the tracker can reach *)

Section ReachableFacts.

Variable rt : Runtime.

Lemma addEntry_goals_settings (this : Tracker) (ls : Storage)
      (form : FormInput) (now : Z) :
  goals (fst (fst (addEntry rt this ls form now))) = goals this
  /\ settings (fst (fst (addEntry rt this ls form now))) = settings this.
Proof.
  unfold addEntry.
  destruct (formAmount form) as [amount | ]; [ | now split].
  repeat match goal with
         | |- context [if ?c then _ else _] => destruct c; [now split | ]
         end.
  now split.
Qed.

Lemma deleteEntry_goals_settings (this : Tracker) (ls : Storage)
      (id : option value) :
  goals (fst (fst (deleteEntry this ls id))) = goals this
  /\ settings (fst (fst (deleteEntry this ls id))) = settings this.
Proof.
  unfold deleteEntry.
  destruct id as [[ | b | n | s | l | f] | ]; try (now split).
  destruct (Qeq_bool n 0); [now split | ].
  destruct (_ =? _)%nat; now split.
Qed.

Lemma importData_goals_settings (this : Tracker) (ls : Storage)
      (file : stored) (confirmed : bool) (now : Z) :
  validateGoals rt (Some (goals this)) = true ->
  validateSettings rt (Some (settings this)) = true ->
  validateGoals rt
    (Some (goals (fst (fst (importData rt this ls file confirmed now)))))
  = true
  /\ validateSettings rt
       (Some (settings (fst (fst (importData rt this ls file confirmed now)))))
     = true.
Proof.
  intros Hg Hs. unfold importData.
  destruct file as [data | ]; [ | now split].
  destruct (validateImportData rt (Some data)) eqn:E; [ | now split].
  cbn [negb]. destruct confirmed; [ | now split].
  apply validateImportData_iff in E.
  destruct E as [_ [Harr [Hgoals [Hsettings _]]]].
  unfold performImport.
  destruct (getProp (Some data) "entries") as [[ | b | q | s | items | f] | ];
    try discriminate.
  cbn [fst goals settings].
  destruct (objSpread_goals rt _ Hgoals) as [g [Eg ->]].
  destruct (objSpread_settings rt _ Hsettings) as [st [Es ->]].
  rewrite Eg in Hgoals. rewrite Es in Hsettings. now split.
Qed.

Lemma step_validState (state : Tracker * Storage) (a : Action) :
  validState rt (fst state) -> validState rt (fst (step rt state a)).
Proof.
  intros [Hentries [Hgoals Hsettings]].
  split; [now apply step_valid | ].
  destruct a as [form now | id | file confirmed now | ]; cbn [step].
  - destruct (addEntry_goals_settings (fst state) (snd state) form now)
      as [-> ->]. now split.
  - destruct (deleteEntry_goals_settings (fst state) (snd state) id)
      as [-> ->]. now split.
  - now apply importData_goals_settings.
  - cbn. split; [reflexivity | exact Hsettings].
Qed.

Lemma run_validState (ls : Storage) (actions : list Action) :
  validState rt (fst (run rt ls actions)).
Proof.
  unfold run.
  assert (H0 : validState rt (fst (newTracker rt ls, ls))).
  { cbn [fst]. split; [apply loadEntries_sorted_valid | ].
    cbn [newTracker goals settings]. unfold loadGoals, loadSettings. split.
    - destruct (getItem "weedTrackerGoals" ls) as [[parsed | ] | ];
        try reflexivity.
      destruct (validateGoals rt (Some parsed)) eqn:E;
        [exact E | reflexivity].
    - destruct (getItem "weedTrackerSettings" ls) as [[parsed | ] | ];
        try reflexivity.
      destruct (validateSettings rt (Some parsed)) eqn:E;
        [exact E | reflexivity]. }
  revert H0. generalize (newTracker rt ls, ls).
  induction actions as [ | a actions IH]; intros state H0; [exact H0 | ].
  cbn [fold_left]. apply IH. now apply step_validState.
Qed.

End ReachableFacts.

(** X26: whatever the store held at the start and whatever the user then
    does (adding, deleting, importing, clearing), the entries, the goals and
    the settings in memory pass their validators; so, when the export date
    prints as a valid date, the export succeeds.  Its document is what
    [JSON.stringify] writes of the state, and it passes the import validator
    when the numbers of the state are finite. *)
Theorem reachable_state_exports :
  forall (rt : Runtime) (ls : Storage) (actions : list Action) (now : Z),
    toISOString rt now <> "" ->
    isValidDate rt (Some (VStr (toISOString rt now))) = true ->
    let this := fst (run rt ls actions) in
    validState rt this
    /\ exportData rt this now
       = (Some (stringify (VObj [("entries", VArr (entries this));
                                 ("goals", goals this);
                                 ("settings", settings this);
                                 ("exportDate", VStr (toISOString rt now))])),
          Success "Data exported successfully!")
    /\ (jsonSafe (VArr (entries this)) = true ->
        jsonSafe (goals this) = true ->
        jsonSafe (settings this) = true ->
        validateImportData rt (fst (exportData rt this now)) = true).
Proof.
  intros rt ls actions now Hiso Hdate this.
  assert (Hstate := run_validState rt ls actions). fold this in Hstate.
  split; [exact Hstate | ].
  destruct Hstate as [Hentries [Hgoals Hsettings]].
  set (data := VObj [("entries", VArr (entries this));
                     ("goals", goals this);
                     ("settings", settings this);
                     ("exportDate", VStr (toISOString rt now))]).
  assert (Hexport : validateExportData rt (Some data) = true).
  { unfold validateExportData, data. simpl.
    rewrite Hgoals, Hsettings. simpl.
    apply String.eqb_neq in Hiso. rewrite Hiso. simpl.
    rewrite Hdate. reflexivity. }
  assert (Hwrites : exportData rt this now
                    = (Some (stringify data),
                       Success "Data exported successfully!")).
  { unfold exportData. fold data. now rewrite Hexport. }
  split; [exact Hwrites | ].
  intros Fentries Fgoals Fsettings. rewrite Hwrites. cbn [fst].
  assert (Hwritten : stringify data = data).
  { apply stringify_safe. unfold data. cbn [jsonSafe forallb] in *.
    now rewrite Fentries, Fgoals, Fsettings. }
  rewrite Hwritten.
  apply validateImportData_iff. unfold data. simpl.
  repeat split; assumption.
Qed.

Lemma reachable_state_exports_witness :
  validState Data.utc
    (fst (run Data.utc [("weedTrackerGoals", Garbage)]
              [Add (Data.formAt 1 "2024-03-10T08:30") Data.mar10_0930;
               Clear]))
  /\ validateImportData Data.utc
       (fst (exportData Data.utc
               (fst (run Data.utc [("weedTrackerGoals", Garbage)]
                         [Add (Data.formAt 1 "2024-03-10T08:30")
                              Data.mar10_0930;
                          Clear]))
               Data.mar10_0930)) = true.
Proof.
  assert (Hiso : toISOString Data.utc Data.mar10_0930 <> "")
    by (vm_compute; discriminate).
  assert (Hdate : isValidDate Data.utc
                    (Some (VStr (toISOString Data.utc Data.mar10_0930)))
                  = true)
    by (vm_compute; reflexivity).
  destruct (reachable_state_exports Data.utc
              [("weedTrackerGoals", Garbage)]
              [Add (Data.formAt 1 "2024-03-10T08:30") Data.mar10_0930;
               Clear]
              Data.mar10_0930 Hiso Hdate) as [Hstate [_ Himport]].
  split; [exact Hstate | ].
  apply Himport; vm_compute; reflexivity.
Defined.

(** A store with an infinite amount: the export succeeds, and the import
    validator refuses the document. *)
Example reachable_state_with_infinite_amount :
  validateImportData Data.utc
    (fst (exportData Data.utc
            (fst (run Data.utc
                      [("weedTrackerEntries",
                        Json (VArr [Data.entryAt 1 infinity
                                                 "2024-03-09T22:00"]))]
                      []))
            Data.mar10_0930)) = false.
Proof. vm_compute. reflexivity. Qed.

(** ** What an accepted entry adds *)

(** X27: an accepted form adds exactly one record, built from the fields of
    the form with the clock as id, and loses none: the new list is a
    rearrangement of the old entries with the new record, which passes the
    entry validator. *)
Theorem addEntry_adds_one :
  forall (rt : Runtime) (this this' : Tracker) (ls ls' : Storage)
         (form : FormInput) (now : Z) (message : string),
    addEntry rt this ls form now = (this', ls', Success message) ->
    exists amount,
      formAmount form = Some amount
      /\ validateEntry rt (Some (entryOfForm rt form amount now)) = true
      /\ Permutation (entries this')
                     (entryOfForm rt form amount now :: entries this)
      /\ List.length (entries this') = S (List.length (entries this))
      /\ goals this' = goals this
      /\ settings this' = settings this.
Proof.
  intros rt this this' ls ls' form now message H.
  unfold addEntry in H.
  destruct (formAmount form) as [amount | ]; [ | discriminate].
  fold (entryOfForm rt form amount now) in H.
  repeat match type of H with
         | (if ?c then (this, ls, Error _) else _) = _ =>
             destruct c eqn:?; [discriminate | ]
         end.
  injection H as <- _ _. cbn [entries goals settings].
  set (entry := entryOfForm rt form amount now) in *.
  assert (Hperm : Permutation (sortEntries rt (app (entries this) [entry]))
                              (entry :: entries this)).
  { apply Permutation_trans with (app (entries this) [entry]).
    - apply sortEntries_perm.
    - apply Permutation_sym. apply Permutation_cons_append. }
  exists amount. split; [reflexivity | ]. split.
  - match goal with
    | E : negb (validateEntry rt (Some entry)) = false |- _ =>
        now apply negb_false_iff in E
    end.
  - split; [exact Hperm | ]. split; [ | now split].
    now rewrite (Permutation_length Hperm).
Qed.

Lemma addEntry_adds_one_witness :
  exists amount,
    formAmount (Data.formAt 1 "2024-03-10T09:00") = Some amount
    /\ List.length
         (entries (fst (fst (addEntry Data.utc Cases.tracker Cases.store
                               (Data.formAt 1 "2024-03-10T09:00")
                               Data.mar10_0930))))
       = S (List.length (entries Cases.tracker)).
Proof.
  destruct (addEntry_adds_one Data.utc Cases.tracker
              (fst (fst (addEntry Data.utc Cases.tracker Cases.store
                           (Data.formAt 1 "2024-03-10T09:00")
                           Data.mar10_0930)))
              Cases.store
              (snd (fst (addEntry Data.utc Cases.tracker Cases.store
                           (Data.formAt 1 "2024-03-10T09:00")
                           Data.mar10_0930)))
              (Data.formAt 1 "2024-03-10T09:00") Data.mar10_0930
              "Entry added successfully!")
    as [amount [Hamount [_ [_ [Hlen _]]]]].
  - vm_compute. reflexivity.
  - exists amount. split; assumption.
Defined.
